(** * Lambda performance analytics: cold-start tracking

    A shallow embedding of the analytics code of the Lambda performance
    server: the [ColdStartTracker] class (cold-start-tracker.js, whose text
    follows the deployment script in scripts/deploy.sh) and the helpers of
    [LambdaAnalyzer] (src/lambda-analyzer.js) that share its vocabulary.

    Modelling conventions.
    - A JavaScript number that the code keeps finite is a rational [Q];
      where the code can produce [NaN] the type is [number].  Every finite
      double is a rational, comparisons and [Math.round] on doubles are
      exact, and for the index and threshold products used here
      ([p/100 * n], [n * 0.3]) the double result has the same ceiling and
      the same comparison outcome as the exact product for every array
      length below 2^40.  The mean durations that the code rounds to an
      integer ([avgDuration], the [duration] of a timeline period) are
      computed as the code does, in binary64 with round-to-nearest-even
      after every addition and after the division ([toDouble]; the
      exponent has no upper limit, there is no [Infinity]).  The other
      sums and quotients (the variance, the rate before rounding, the
      averages that are only compared with a threshold) are taken
      exactly.
    - [Array.prototype.sort] is a stable insertion sort over the
      comparator, the default comparator being the code-unit order of the
      decimal renderings.
    - The log source is the tree of answers given to the requests the code
      sends ([Throw] for a rejected request); [try]/[catch] is written out
      on completions.
    - The host clock, the local time zone and the two regular-expression
      readers of INIT_DURATION and REPORT lines are section variables. *)

From Stdlib Require Import ZArith NArith QArith Qround Qminmax Qpower.
From Stdlib Require Import List String Ascii Bool Lia Lqa.
From Stdlib Require Import Permutation Sorted.
Import ListNotations.

Close Scope Q_scope.
Open Scope nat_scope.

(** ** JavaScript built-ins used by the code *)

Module JS.

(** A number that may be [NaN]. *)
Inductive number : Type :=
| Num (q : Q)
| NaN.

(** [Math.round]: nearest integer, ties towards +infinity. *)
Definition Math_round (x : Q) : Z := Qfloor (x + (1 # 2))%Q.

Definition Math_ceil (x : Q) : Z := Qceiling x.

(** [Math.max(d, ...ds)] and [Math.min(d, ...ds)] on at least one argument. *)
Definition Math_max (d : Q) (ds : list Q) : Q := fold_left Qmax ds d.
Definition Math_min (d : Q) (ds : list Q) : Q := fold_left Qmin ds d.

(** [arr.reduce((sum, x) => sum + x, 0)]. *)
Definition sum (l : list Q) : Q := fold_left Qplus l 0%Q.

Definition ofNat (n : nat) : Q := inject_Z (Z.of_nat n).

(** Binary64 arithmetic.  [binade x] is the exponent [e] with
    [2^e <= x < 2^(e+1)] of a positive [x]; [toDouble x] is the double
    nearest to [x], ties to the even significand, with the spacing of
    the subnormal numbers below [2^-1022]. *)
Definition binade (x : Q) : Z :=
  let e := (Z.log2 (Qnum x) - Z.log2 (Zpos (Qden x)))%Z in
  if Qle_bool (2 ^ e)%Q x then e else (e - 1)%Z.

Definition roundHalfEven (x : Q) : Z :=
  let f := Qfloor x in
  match Qcompare (x - inject_Z f)%Q (1 # 2)%Q with
  | Lt => f
  | Gt => (f + 1)%Z
  | Eq => if Z.even f then f else (f + 1)%Z
  end.

Definition toDoublePos (x : Q) : Q :=
  let ulp := (2 ^ (Z.max (binade x) (-1022) - 52))%Q in
  (inject_Z (roundHalfEven (x / ulp)) * ulp)%Q.

Definition toDouble (x : Q) : Q :=
  match Qnum x with
  | Z0 => 0%Q
  | Zpos _ => toDoublePos x
  | Zneg _ => (- toDoublePos (- x))%Q
  end.

(** [arr.reduce((sum, x) => sum + x, 0)] and [sum / n] on doubles. *)
Definition sumDouble (l : list Q) : Q :=
  fold_left (fun sum d => toDouble (sum + d)%Q) l 0%Q.

Definition meanDouble (l : list Q) : Q :=
  toDouble (sumDouble l / ofNat (List.length l))%Q.

(** [a > b] on finite numbers. *)
Definition gtb (a b : Q) : bool := negb (Qle_bool a b).
Definition ltb (a b : Q) : bool := negb (Qle_bool b a).

(** [a > b] where [a] may be [NaN]: false on [NaN]. *)
Definition number_gtb (a : number) (b : Q) : bool :=
  match a with Num q => gtb q b | NaN => false end.

(** [x >= a] and [x < a] for a finite [x]: false when [a] is [NaN]. *)
Definition geb_number (x : Q) (a : number) : bool :=
  match a with Num q => Qle_bool q x | NaN => false end.

Definition ltb_number (x : Q) (a : number) : bool :=
  match a with Num q => ltb x q | NaN => false end.

(** Arithmetic with a finite, non-zero right operand where one is needed;
    [NaN] propagates. *)
Definition number_map (f : Q -> Q) (a : number) : number :=
  match a with Num q => Num (f q) | NaN => NaN end.

Definition number_add (a b : number) : number :=
  match a, b with Num x, Num y => Num (x + y) | _, _ => NaN end.


(** [Array.prototype.sort(cmp)]: stable; [before x y] holds when
    [cmp(x, y) <= 0]. *)
Section Sort.
Context {A : Type} (before : A -> A -> bool).

Fixpoint insert (x : A) (l : list A) : list A :=
    match l with
    | [] => [x]
    | y :: l' => if before x y then x :: l else y :: insert x l'
    end.

Definition sort (l : list A) : list A := fold_right insert [] l.
End Sort.

(** Decimal rendering of a non-negative integer ([Number.prototype.toString]). *)
Definition digitChar (d : N) : ascii := ascii_of_N (48 + d).

Fixpoint digits_w (w : nat) (n : N) : string :=
  match w with
  | O => EmptyString
  | S w' => String (digitChar (n / 10 ^ N.of_nat w')) (digits_w w' (n mod 10 ^ N.of_nat w'))
  end.

Fixpoint numDigits_fuel (fuel : nat) (n : N) : nat :=
  match fuel with
  | O => 1
  | S f => if (n <? 10)%N then 1 else S (numDigits_fuel f (n / 10))
  end.

Definition numDigits (n : N) : nat := numDigits_fuel (N.to_nat (N.size n)) n.

Definition ToString (n : N) : string := digits_w (numDigits n) n.

(** The default comparator of [sort()]: code-unit order of the renderings. *)
Definition default_before (x y : N) : bool :=
  match String.compare (ToString x) (ToString y) with
  | Gt => false
  | _ => true
  end.

Definition sort_default (l : list N) : list N := sort default_before l.

(** [(a, b) => a - b] on finite numbers. *)
Definition sort_ascending (l : list Q) : list Q := sort Qle_bool l.

(** [s.includes(t)] on strings. *)
Fixpoint includes (t s : string) : bool :=
  if prefix t s then true
  else match s with
       | EmptyString => false
       | String _ s' => includes t s'
       end.

(** [arr.join(sep)]. *)
Fixpoint join (sep : string) (l : list string) : string :=
  match l with
  | [] => EmptyString
  | [x] => x
  | x :: l' => (x ++ sep ++ join sep l')%string
  end.

(** [s.padStart(2, '0')]. *)
Definition padStart2 (s : string) : string :=
  match String.length s with
  | 0 => "00"%string
  | 1 => ("0" ++ s)%string
  | _ => s
  end.

(** Completions: a call returns normally or throws. *)
Inductive Error : Type :=
| AccessDenied
| NetworkFailure
| Throttled
| OtherError (msg : string).

Inductive Completion (A : Type) : Type :=
| Normal (a : A)
| Throw (e : Error).
Arguments Normal {A} a.
Arguments Throw {A} e.

(** [try { body } catch (error) { handler }]. *)
Definition try_catch {A : Type} (body : Completion A) (handler : Error -> Completion A)
  : Completion A :=
  match body with
  | Normal a => Normal a
  | Throw e => handler e
  end.

(** Values that a lookup on an object literal can yield: an own numeric
    property, or a member inherited from [Object.prototype]. *)
Inductive value : Type :=
| VNumber (q : Q)
| VInherited (name : string)
| VUndefined.

Definition objectPrototypeMembers : list string :=
  [ "constructor"; "__defineGetter__"; "__defineSetter__"; "hasOwnProperty";
    "__lookupGetter__"; "__lookupSetter__"; "isPrototypeOf";
    "propertyIsEnumerable"; "toString"; "valueOf"; "__proto__";
    "toLocaleString" ]%string.

(** [obj[key]] on an object literal with the given own properties. *)
Fixpoint ownProperty (props : list (string * Q)) (key : string) : option Q :=
  match props with
  | [] => None
  | (k, v) :: props' => if String.eqb k key then Some v else ownProperty props' key
  end.

Definition getProperty (props : list (string * Q)) (key : string) : value :=
  match ownProperty props key with
  | Some v => VNumber v
  | None => if existsb (String.eqb key) objectPrototypeMembers
            then VInherited key else VUndefined
  end.

(** [a || b]: [0] and [undefined] are falsy, inherited members (functions,
    the prototype object) are truthy. *)
Definition orElse (a b : value) : value :=
  match a with
  | VNumber q => if Qeq_bool q 0 then b else a
  | VInherited _ => a
  | VUndefined => b
  end.

(** [ToNumber] of such a value. *)
Definition ToNumber (v : value) : number :=
  match v with
  | VNumber q => Num q
  | _ => NaN
  end.

Definition bind {A B : Type} (c : Completion A) (k : A -> Completion B) : Completion B :=
  match c with
  | Normal a => k a
  | Throw e => Throw e
  end.

End JS.

Notation "x <- c ;; k" := (JS.bind c (fun x => k))
  (at level 61, c at next level, right associativity).

(** ** The log source *)

Module Logs.

(** An event returned by the log source (FilterLogEvents). *)
Record LogEvent : Type := {
  timestamp : N;          (* epoch milliseconds *)
  message : string;
  logStreamName : string
}.

(** The answers to the paginated INIT_START scan: a request throws, or
    returns a page ([events] may be absent) without a continuation token,
    or returns a page with a token, after which the next request is
    answered by [rest]. *)
Inductive Pages : Type :=
| Fails (e : JS.Error)
| Last (events : option (list LogEvent))
| More (events : option (list LogEvent)) (rest : Pages).

(** The log source during one analysis call. *)
Record LogSource : Type := {
  initStartAnswers : Pages;
  (* answer to the 30-second query for a request id after a timestamp *)
  relatedAnswer : string -> N -> JS.Completion (option (list LogEvent));
  (* answer to the single "START RequestId" query *)
  startAnswer : JS.Completion (option (list LogEvent))
}.

(** [response.events || []]. *)
Definition eventsOrEmpty (events : option (list LogEvent)) : list LogEvent :=
  match events with Some l => l | None => [] end.

End Logs.

(** ** ColdStartTracker *)

Module ColdStartTracker.
Import JS Logs.
Local Open Scope string_scope.

(** The captures of the REPORT pattern after [parseFloat]/[parseInt]. *)
Record Report : Type := {
  reportDuration : Q;
  reportBilledDuration : Q;
  reportMemorySize : Q;
  reportMaxMemoryUsed : Q
}.

Record ColdStartData : Type := {
  requestId : string;
  timestamp : N;
  logStream : string;
  initDuration : option Q;      (* [null] until an INIT_DURATION line is seen *)
  totalDuration : option Q;
  memoryUsed : option Q;
  memoryAllocated : option Q;
  billedDuration : option Q;
  events : list LogEvent
}.

Record Percentiles : Type := {
  p50 : number; p90 : number; p95 : number; p99 : number
}.

Record Statistics : Type := {
  count : nat;
  percentiles : Percentiles;
  distribution : list (string * nat)   (* an object: keys in insertion order *)
}.

Record Analysis : Type := {
  a_avgDuration : Z;
  a_maxDuration : Z;
  a_minDuration : Z;
  a_peakHours : list string;
  a_frequency : string;
  a_triggers : list string;
  a_patterns : list string;
  a_statistics : Statistics;
  a_hourlyDistribution : option (list nat)   (* absent in the empty analysis *)
}.

Record TimelineEntry : Type := {
  time : string;
  coldStarts : nat;
  duration : Z
}.

Record TrackResult : Type := {
  total : nat;
  rate : Q;
  avgDuration : Z;
  maxDuration : Z;
  minDuration : Z;
  peakHours : list string;
  frequency : string;
  triggers : list string;
  recommendations : list string;
  timeline : list TimelineEntry;
  patterns : list string;
  statistics : Statistics
}.

(** *** Helper methods that do not touch the host *)

Definition ranges : list (string * Q) :=
  [ ("1h", 60 * 60 * 1000); ("6h", 6 * 60 * 60 * 1000);
    ("24h", 24 * 60 * 60 * 1000); ("7d", 7 * 24 * 60 * 60 * 1000) ]%Q.

Definition parseTimeRange (timeRange : string) : value :=
  orElse (getProperty ranges timeRange) (getProperty ranges "24h").

Definition calculateColdStartRate (coldStarts totalInvocations : nat) : Q :=
  if Nat.eqb totalInvocations 0 then 0%Q
  else (inject_Z (Math_round ((ofNat coldStarts / ofNat totalInvocations) * 100 * 100)) / 100)%Q.

(** [/RequestId: ([\w-]+)/]. *)
Definition isWordOrDash (c : ascii) : bool :=
  let n := N_of_ascii c in
  ((48 <=? n) && (n <=? 57) || (65 <=? n) && (n <=? 90)
   || (97 <=? n) && (n <=? 122) || (n =? 95) || (n =? 45))%N.

Fixpoint takeWhile (p : ascii -> bool) (s : string) : string :=
  match s with
  | EmptyString => EmptyString
  | String c s' => if p c then String c (takeWhile p s') else EmptyString
  end.

Fixpoint stripPrefix (lit s : string) : option string :=
  match lit, s with
  | EmptyString, _ => Some s
  | String a lit', String b s' => if Ascii.eqb a b then stripPrefix lit' s' else None
  | String _ _, EmptyString => None
  end.

Definition matchRequestIdAt (s : string) : option string :=
  match stripPrefix "RequestId: " s with
  | Some rest =>
      match takeWhile isWordOrDash rest with
      | EmptyString => None
      | id => Some id
      end
  | None => None
  end.

Fixpoint extractRequestId (message : string) : option string :=
  match matchRequestIdAt message with
  | Some id => Some id
  | None =>
      match message with
      | EmptyString => None
      | String _ message' => extractRequestId message'
      end
  end.

Definition calculatePercentile (sortedArray : list Q) (percentile : Q) : number :=
  let index := (Math_ceil ((percentile / 100) * ofNat (List.length sortedArray)) - 1)%Z in
  match nth_error sortedArray (Z.to_nat (Z.max 0 index)) with
  | Some x => Num (inject_Z (Math_round x))
  | None => NaN                      (* [Math.round(undefined)] *)
  end.

Definition increment (key : string) (buckets : list (string * nat)) : list (string * nat) :=
  map (fun kv => if String.eqb (fst kv) key then (fst kv, S (snd kv)) else kv) buckets.

Definition createDurationDistribution (durations : list Q) : list (string * nat) :=
  let buckets :=
    [ ("0-500ms", 0); ("500-1000ms", 0); ("1000-2000ms", 0);
      ("2000-5000ms", 0); ("5000ms+", 0) ] in
  fold_left (fun buckets duration =>
    if Qle_bool duration 500 then increment "0-500ms" buckets
    else if Qle_bool duration 1000 then increment "500-1000ms" buckets
    else if Qle_bool duration 2000 then increment "1000-2000ms" buckets
    else if Qle_bool duration 5000 then increment "2000-5000ms" buckets
    else increment "5000ms+" buckets) durations buckets.

(** [for (i = 1; i < ts.length; i++) if (ts[i] - ts[i-1] < 60000) clusters++]. *)
Fixpoint countClusters (timestamps : list N) : nat :=
  match timestamps with
  | a :: (b :: _) as rest =>
      (if (Z.of_N b - Z.of_N a <? 60000)%Z then 1 else 0) + countClusters rest
  | _ => 0
  end.

Definition checkDeploymentPattern (coldStartEvents : list ColdStartData) : bool :=
  if (List.length coldStartEvents <? 3)%nat then false
  else
    let timestamps := sort_default (map timestamp coldStartEvents) in
    let clusters := countClusters timestamps in
    gtb (ofNat clusters) (ofNat (List.length timestamps) * (3 # 10))%Q.

Definition checkScalingPattern (coldStartEvents : list ColdStartData) : bool :=
  (10 <? List.length coldStartEvents)%nat.

Definition calculateVariance (values : list Q) : Q :=
  let mean := (sum values / ofNat (List.length values))%Q in
  let squaredDiffs := map (fun val => ((val - mean) * (val - mean))%Q) values in
  (sum squaredDiffs / ofNat (List.length values))%Q.

(** [arr.map(f).filter(x => x !== null)]. *)
Fixpoint nonNull {A : Type} (l : list (option A)) : list A :=
  match l with
  | [] => []
  | Some x :: l' => x :: nonNull l'
  | None :: l' => nonNull l'
  end.

Definition analyzeDurationPatterns (coldStartEvents : list ColdStartData) : option string :=
  let durations := nonNull (map initDuration coldStartEvents) in
  match durations with
  | [] => None
  | _ =>
      let variance := calculateVariance durations in
      if ltb variance 100 then Some "Consistent cold start durations"
      else if gtb variance 1000
           then Some "Highly variable cold start durations - investigate initialization code"
           else Some "Moderate variation in cold start durations"
  end.

Definition analyzeMemoryPatterns (coldStartEvents : list ColdStartData) : option string :=
  let memoryUsages := nonNull (map memoryUsed coldStartEvents) in
  match memoryUsages with
  | [] => None
  | m :: ms =>
      let avgMemory := (sum memoryUsages / ofNat (List.length memoryUsages))%Q in
      let maxMemory := Math_max m ms in
      if gtb maxMemory (avgMemory * (15 # 10))%Q
      then Some "Variable memory usage during cold starts"
      else Some "Consistent memory usage pattern"
  end.

Definition generateStatistics (coldStartEvents : list ColdStartData) (durations : list Q)
  : Statistics :=
  match durations with
  | [] =>
      {| count := 0;
         percentiles := {| p50 := Num 0; p90 := Num 0; p95 := Num 0; p99 := Num 0 |};
         distribution := [] |}
  | _ =>
      let sortedDurations := sort_ascending durations in
      {| count := List.length coldStartEvents;
         percentiles :=
           {| p50 := calculatePercentile sortedDurations 50;
              p90 := calculatePercentile sortedDurations 90;
              p95 := calculatePercentile sortedDurations 95;
              p99 := calculatePercentile sortedDurations 99 |};
         distribution := createDurationDistribution durations |}
  end.

Definition determineColdStartFrequency (coldStartEvents : list ColdStartData)
    (allInvocations : list LogEvent) (timeRange : string) : string :=
  let coldStartRate :=
    calculateColdStartRate (List.length coldStartEvents) (List.length allInvocations) in
  if gtb coldStartRate 50 then "Very High (>50%)"
  else if gtb coldStartRate 25 then "High (25-50%)"
  else if gtb coldStartRate 10 then "Moderate (10-25%)"
  else if gtb coldStartRate 5 then "Low (5-10%)"
  else "Very Low (<5%)".

(** [for (i = 1; i < ts.length; i++) gaps.push(ts[i] - ts[i-1])]. *)
Fixpoint timeGaps (invocationTimes : list N) : list Q :=
  match invocationTimes with
  | a :: (b :: _) as rest => inject_Z (Z.of_N b - Z.of_N a) :: timeGaps rest
  | _ => []
  end.

(** [gaps.reduce((sum, gap) => sum + gap, 0) / gaps.length]: [0 / 0] is
    [NaN] when there is no gap. *)
Definition averageGap (gaps : list Q) : number :=
  match gaps with
  | [] => NaN
  | _ => Num (sum gaps / ofNat (List.length gaps))%Q
  end.

Definition pushIf {A : Type} (cond : bool) (x : A) (arr : list A) : list A :=
  if cond then (arr ++ [x])%list else arr.

Definition identifyTriggers (coldStartEvents : list ColdStartData)
    (allInvocations : list LogEvent) : list string :=
  let triggers := [] in
  let invocationTimes := sort_default (map Logs.timestamp allInvocations) in
  let gaps := timeGaps invocationTimes in
  let avgGap := averageGap gaps in
  let triggers :=
    pushIf (number_gtb avgGap (15 * 60 * 1000)%Q) "Long idle periods (>15 minutes)" triggers in
  let triggers :=
    pushIf (number_gtb avgGap (5 * 60 * 1000)%Q) "Moderate idle periods (5-15 minutes)" triggers in
  let deploymentPattern := checkDeploymentPattern coldStartEvents in
  let triggers := pushIf deploymentPattern "Function deployments/updates" triggers in
  let scalingPattern := checkScalingPattern coldStartEvents in
  let triggers := pushIf scalingPattern "Auto-scaling events" triggers in
  match triggers with
  | [] => ["Normal Lambda lifecycle"]
  | _ => triggers
  end.

(** [hourlyDistribution.map(...).filter(...).sort(...).slice(0, 3)] and the
    [HH:00] labels. *)
Definition findPeakHours (hourlyDistribution : list nat) : list string :=
  let hoursWithCounts :=
    firstn 3
      (sort (fun a b : nat * nat => (snd b <=? snd a)%nat)
         (filter (fun item : nat * nat => (0 <? snd item)%nat)
            (combine (seq 0 (List.length hourlyDistribution)) hourlyDistribution))) in
  map (fun item : nat * nat => padStart2 (ToString (N.of_nat (fst item))) ++ ":00")
      hoursWithCounts.

(** [distribution[hour]++]. *)
Fixpoint incrementAt (hour : nat) (distribution : list nat) : list nat :=
  match distribution, hour with
  | [], _ => []
  | x :: rest, O => S x :: rest
  | x :: rest, S hour' => x :: incrementAt hour' rest
  end.

(** [[...new Set(hours)]]: first occurrences, in order. *)
Fixpoint uniqueFrom (seen : list nat) (hours : list nat) : list nat :=
  match hours with
  | [] => []
  | h :: rest =>
      if existsb (Nat.eqb h) seen then uniqueFrom seen rest
      else h :: uniqueFrom (h :: seen) rest
  end.

Definition getEmptyResult : TrackResult :=
  {| total := 0; rate := 0; avgDuration := 0; maxDuration := 0; minDuration := 0;
     peakHours := []; frequency := "No data"; triggers := [];
     recommendations :=
       ["Unable to analyze cold starts - check CloudWatch Logs permissions"];
     timeline := []; patterns := [];
     statistics :=
       {| count := 0;
          percentiles := {| p50 := Num 0; p90 := Num 0; p95 := Num 0; p99 := Num 0 |};
          distribution := [] |} |}.

Definition getEmptyAnalysis : Analysis :=
  {| a_avgDuration := 0; a_maxDuration := 0; a_minDuration := 0;
     a_peakHours := []; a_frequency := "No cold starts detected"; a_triggers := [];
     a_patterns := [];
     a_statistics :=
       {| count := 0;
          percentiles := {| p50 := Num 0; p90 := Num 0; p95 := Num 0; p99 := Num 0 |};
          distribution := [] |};
     a_hourlyDistribution := None |}.

Definition generateRecommendations (analysis : Analysis) : list string :=
  let recommendations := [] in
  let recommendations :=
    if includes "High" (a_frequency analysis) || includes "Very High" (a_frequency analysis)
    then (recommendations ++
         [ "Consider implementing Provisioned Concurrency to reduce cold starts";
           "Optimize function initialization code to reduce cold start duration" ])%list
    else recommendations in
  let recommendations :=
    if (2000 <? a_avgDuration analysis)%Z
    then (recommendations ++
         [ "Reduce deployment package size by removing unused dependencies";
           "Use Lambda layers for shared libraries and dependencies";
           "Optimize initialization code - move heavy operations outside the handler" ])%list
    else recommendations in
  let recommendations :=
    pushIf (0 <? List.length (a_peakHours analysis))%nat
      ("Consider scheduled provisioned concurrency during peak hours: "
         ++ join ", " (a_peakHours analysis))
      recommendations in
  let recommendations :=
    pushIf (existsb (String.eqb "Long idle periods") (a_triggers analysis))
      "Implement keep-warm strategies or use EventBridge scheduled events"
      recommendations in
  (recommendations ++
  [ "Consider using ARM-based Graviton2 processors for better price-performance";
    "Ensure you're using the latest runtime version for optimal performance" ])%list.

(** *** Methods that read the host or the log source *)

Section Host.

(** [new Date(timestamp).getHours()]: the local hour, 0 to 23. *)
Variable getHours : N -> nat.
(** [new Date(t).toLocaleTimeString()]. *)
Variable toLocaleTimeString : number -> string.
(** [message.match(/INIT_DURATION: ([\d.]+) ms/)] and [parseFloat] of the
    capture; [None] when the line does not match. *)
Variable matchInitDuration : string -> option Q.
(** [message.match(coldStartPatterns.report)] and the parsed captures 2 to 5. *)
Variable matchReport : string -> option Report.

Definition analyzeHourlyDistribution (coldStartEvents : list ColdStartData) : list nat :=
  fold_left (fun distribution event => incrementAt (getHours (timestamp event)) distribution)
    coldStartEvents (repeat 0 24).

Definition analyzeTimePatterns (coldStartEvents : list ColdStartData) : option string :=
  let hours := map (fun event => getHours (timestamp event)) coldStartEvents in
  let uniqueHours := uniqueFrom [] hours in
  if (List.length uniqueHours <=? 3)%nat
  then Some ("Cold starts concentrated in "
               ++ ToString (N.of_nat (List.length uniqueHours)) ++ " hour(s): "
               ++ join ", " (map (fun h => ToString (N.of_nat h)) uniqueHours))
  else None.

Definition pushSome {A : Type} (x : option A) (arr : list A) : list A :=
  match x with Some v => (arr ++ [v])%list | None => arr end.

Definition identifyPatterns (coldStartEvents : list ColdStartData) (timeRange : string)
  : list string :=
  let patterns := [] in
  let patterns := pushSome (analyzeTimePatterns coldStartEvents) patterns in
  let patterns := pushSome (analyzeDurationPatterns coldStartEvents) patterns in
  let patterns := pushSome (analyzeMemoryPatterns coldStartEvents) patterns in
  patterns.

Definition analyzeColdStartPatterns (coldStartEvents : list ColdStartData)
    (allInvocations : list LogEvent) (timeRange : string) : Analysis :=
  match coldStartEvents with
  | [] => getEmptyAnalysis
  | _ =>
      let durations := nonNull (map initDuration coldStartEvents) in
      let avgDuration :=
        match durations with
        | [] => 0%Q
        | _ => meanDouble durations
        end in
      let maxDuration := match durations with [] => 0%Q | d :: ds => Math_max d ds end in
      let minDuration := match durations with [] => 0%Q | d :: ds => Math_min d ds end in
      let hourlyDistribution := analyzeHourlyDistribution coldStartEvents in
      let peakHours := findPeakHours hourlyDistribution in
      let frequency := determineColdStartFrequency coldStartEvents allInvocations timeRange in
      let triggers := identifyTriggers coldStartEvents allInvocations in
      let patterns := identifyPatterns coldStartEvents timeRange in
      let statistics := generateStatistics coldStartEvents durations in
      {| a_avgDuration := Math_round avgDuration;
         a_maxDuration := Math_round maxDuration;
         a_minDuration := Math_round minDuration;
         a_peakHours := peakHours;
         a_frequency := frequency;
         a_triggers := triggers;
         a_patterns := patterns;
         a_statistics := statistics;
         a_hourlyDistribution := Some hourlyDistribution |}
  end.

(** [now] is the reading of [Date.now()]. *)
Definition getTimelinePeriods (now : Q) (timeRange : string) : list (number * number) :=
  let rangeMs := ToNumber (parseTimeRange timeRange) in
  let start := number_map (fun r => now - r)%Q rangeMs in
  let periodCount := 24 in
  let periodDuration := number_map (fun r => r / ofNat periodCount)%Q rangeMs in
  map (fun i =>
         (number_add start (number_map (fun d => ofNat i * d)%Q periodDuration),
          number_add start (number_map (fun d => (ofNat i + 1) * d)%Q periodDuration)))
      (seq 0 periodCount).

Definition createTimeline (now : Q) (coldStartEvents : list ColdStartData)
    (timeRange : string) : list TimelineEntry :=
  let periods := getTimelinePeriods now timeRange in
  map (fun period : number * number =>
         let periodEvents :=
           filter (fun event =>
                     let t := inject_Z (Z.of_N (timestamp event)) in
                     geb_number t (fst period) && ltb_number t (snd period))
                  coldStartEvents in
         let avgDuration :=
           match periodEvents with
           | [] => 0%Q
           | _ =>
               toDouble
                 (sumDouble (map (fun event =>
                                    match initDuration event with
                                    | Some d => d
                                    | None => 0%Q
                                    end)
                                 periodEvents)
                  / ofNat (List.length periodEvents))%Q
           end in
         {| time := toLocaleTimeString (fst period);
            coldStarts := List.length periodEvents;
            duration := Math_round avgDuration |})
      periods.

Section Source.

Variable source : LogSource.

Definition getRelatedEvents (requestId : string) (timestamp : N)
  : Completion (list LogEvent) :=
  try_catch
    (response <- relatedAnswer source requestId timestamp ;;
     Normal (eventsOrEmpty response))
    (fun _ => Normal []).

(** The body of [relatedEvents.forEach]. *)
Definition mergeRelatedEvent (coldStartData : ColdStartData) (event : LogEvent)
  : ColdStartData :=
  let withEvent :=
    {| requestId := requestId coldStartData;
       timestamp := timestamp coldStartData;
       logStream := logStream coldStartData;
       initDuration :=
         match matchInitDuration (message event) with
         | Some d => Some d
         | None => initDuration coldStartData
         end;
       totalDuration := totalDuration coldStartData;
       memoryUsed := memoryUsed coldStartData;
       memoryAllocated := memoryAllocated coldStartData;
       billedDuration := billedDuration coldStartData;
       events := (events coldStartData ++ [event])%list |} in
  match matchReport (message event) with
  | Some r =>
      {| requestId := requestId withEvent;
         timestamp := timestamp withEvent;
         logStream := logStream withEvent;
         initDuration := initDuration withEvent;
         totalDuration := Some (reportDuration r);
         memoryUsed := Some (reportMaxMemoryUsed r);
         memoryAllocated := Some (reportMemorySize r);
         billedDuration := Some (reportBilledDuration r);
         events := events withEvent |}
  | None => withEvent
  end.

Definition extractColdStartData (initEvent : LogEvent) : Completion (option ColdStartData) :=
  try_catch
    match extractRequestId (message initEvent) with
    | None => Normal None
    | Some requestId =>
        relatedEvents <- getRelatedEvents requestId (Logs.timestamp initEvent) ;;
        let coldStartData :=
          {| requestId := requestId;
             timestamp := Logs.timestamp initEvent;
             logStream := logStreamName initEvent;
             initDuration := None; totalDuration := None; memoryUsed := None;
             memoryAllocated := None; billedDuration := None;
             events := [initEvent] |} in
        Normal (Some (fold_left mergeRelatedEvent relatedEvents coldStartData))
    end
    (fun _ => Normal None).

(** [for (const event of response.events)]: the array keeps what was pushed
    before a throw. *)
Fixpoint processEvents (pageEvents : list LogEvent) (coldStartEvents : list ColdStartData)
  : list ColdStartData * option Error :=
  match pageEvents with
  | [] => (coldStartEvents, None)
  | event :: rest =>
      match extractColdStartData event with
      | Normal (Some coldStartData) => processEvents rest (coldStartEvents ++ [coldStartData])%list
      | Normal None => processEvents rest coldStartEvents
      | Throw e => (coldStartEvents, Some e)
      end
  end.

(** [do { try { ... } catch (error) { break; } } while (nextToken)]. *)
Fixpoint pageLoop (answers : Pages) (coldStartEvents : list ColdStartData)
  : list ColdStartData :=
  match answers with
  | Fails _ => coldStartEvents
  | Last pageEvents =>
      fst (processEvents (eventsOrEmpty pageEvents) coldStartEvents)
  | More pageEvents rest =>
      match processEvents (eventsOrEmpty pageEvents) coldStartEvents with
      | (coldStartEvents', None) => pageLoop rest coldStartEvents'
      | (coldStartEvents', Some _) => coldStartEvents'
      end
  end.

Definition getColdStartEvents : Completion (list ColdStartData) :=
  Normal (pageLoop (initStartAnswers source) []).

Definition getAllInvocations : Completion (list LogEvent) :=
  try_catch
    (response <- startAnswer source ;; Normal (eventsOrEmpty response))
    (fun _ => Normal []).

Definition trackColdStarts (now : Q) (functionName timeRange : string)
  : Completion TrackResult :=
  let timeRangeMs := parseTimeRange timeRange in
  try_catch
    (coldStartEvents <- getColdStartEvents ;;
     allInvocations <- getAllInvocations ;;
     let analysis := analyzeColdStartPatterns coldStartEvents allInvocations timeRange in
     Normal
       {| total := List.length coldStartEvents;
          rate := calculateColdStartRate (List.length coldStartEvents)
                    (List.length allInvocations);
          avgDuration := a_avgDuration analysis;
          maxDuration := a_maxDuration analysis;
          minDuration := a_minDuration analysis;
          peakHours := a_peakHours analysis;
          frequency := a_frequency analysis;
          triggers := a_triggers analysis;
          recommendations := generateRecommendations analysis;
          timeline := createTimeline now coldStartEvents timeRange;
          patterns := a_patterns analysis;
          statistics := a_statistics analysis |})
    (fun _ => Normal getEmptyResult).

End Source.
End Host.
End ColdStartTracker.

(** ** LambdaAnalyzer: the helpers with the same names *)

Module LambdaAnalyzer.
Import JS.
Local Open Scope string_scope.

Definition ranges : list (string * Q) :=
  [ ("1h", 60 * 60 * 1000); ("6h", 6 * 60 * 60 * 1000);
    ("24h", 24 * 60 * 60 * 1000); ("7d", 7 * 24 * 60 * 60 * 1000);
    ("30d", 30 * 24 * 60 * 60 * 1000) ]%Q.

Definition parseTimeRange (timeRange : string) : value :=
  orElse (getProperty ranges timeRange) (getProperty ranges "24h").

(** [invocations] is a metric value: [!invocations] holds for [0] and [NaN]. *)
Definition calculateColdStartRate (coldStarts : Q) (invocations : number) : Q :=
  match invocations with
  | NaN => 0%Q
  | Num i =>
      if Qeq_bool i 0 then 0%Q
      else (inject_Z (Math_round ((coldStarts / i) * 100 * 100)) / 100)%Q
  end.

(** [coldStarts / invocations] for a non-negative count: a zero divisor
    gives [Infinity], or [NaN] when the count is zero too. *)
Inductive quotient : Type :=
| Finite (q : Q)
| Infinity
| NotANumber.

Definition divide (coldStarts invocations : Q) : quotient :=
  if Qeq_bool invocations 0
  then (if Qeq_bool coldStarts 0 then NotANumber else Infinity)
  else Finite (coldStarts / invocations)%Q.

Definition exceeds (rate : quotient) (threshold : Q) : bool :=
  match rate with
  | Finite r => gtb r threshold
  | Infinity => true
  | NotANumber => false
  end.

Definition determineColdStartFrequency (coldStarts invocations : Q) : string :=
  let rate := divide coldStarts invocations in
  if exceeds rate (5 # 10) then "Very High"
  else if exceeds rate (2 # 10) then "High"
  else if exceeds rate (1 # 10) then "Moderate"
  else if exceeds rate (5 # 100) then "Low"
  else "Very Low".

(** *** Further helpers of the analyzer

    The decimal constants of these helpers (1.2, 1.3, 0.1) are taken as
    the rationals they denote, and products and quotients exactly. *)

Definition calculateErrorRate (errors : Q) (invocations : number) : Q :=
  match invocations with
  | NaN => 0%Q
  | Num i =>
      if Qeq_bool i 0 then 0%Q
      else (inject_Z (Math_round ((errors / i) * 100 * 100)) / 100)%Q
  end.

(** [getMetricValue]: [answer] is what the metrics request gives, a list of
    datapoints ([Datapoints] may be absent), each with the value of the
    requested statistic when it has one. *)
Definition getMetricValue (answer : Completion (option (list (option Q)))) : Completion Q :=
  try_catch
    (response <- answer ;;
     let datapoints := match response with Some l => l | None => [] end in
     match datapoints with
     | [] => Normal 0%Q
     | _ =>
         Normal (sum (map (fun point => match point with Some v => v | None => 0%Q end)
                          datapoints)
                 / ofNat (List.length datapoints))%Q
     end)
    (fun _ => Normal 0%Q).

Definition getTotalInvocations (answer : Completion (option (list (option Q))))
  : Completion Q :=
  getMetricValue answer.

(** The analyzer's [getColdStartEvents]: one request, no pagination. *)
Definition getColdStartEvents (answer : Completion (option (list Logs.LogEvent)))
  : Completion (list Logs.LogEvent) :=
  try_catch
    (response <- answer ;; Normal (Logs.eventsOrEmpty response))
    (fun _ => Normal []).

(** A quotient of finite numbers whose divisor may be zero. *)
Inductive extended : Type :=
| Fin (q : Q)
| PosInf
| NegInf
| Nan.

Definition ediv (a b : Q) : extended :=
  if Qeq_bool b 0
  then (if Qeq_bool a 0 then Nan else if Qle_bool 0 a then PosInf else NegInf)
  else Fin (a / b)%Q.

(** [m * x + c] for a non-zero [m]. *)
Definition eaffine (m c : Q) (x : extended) : extended :=
  match x with
  | Fin q => Fin (m * q + c)%Q
  | PosInf => if Qle_bool 0 m then PosInf else NegInf
  | NegInf => if Qle_bool 0 m then NegInf else PosInf
  | Nan => Nan
  end.

(** The rendering of an integer in a template literal. *)
Definition showInteger (z : Z) : string :=
  match z with
  | Z0 => "0"
  | Zpos p => ToString (Npos p)
  | Zneg p => "-" ++ ToString (Npos p)
  end.

(** [`${Math.round(x)}`]. *)
Definition showRounded (x : extended) : string :=
  match x with
  | Fin q => showInteger (Math_round q)
  | PosInf => "Infinity"
  | NegInf => "-Infinity"
  | Nan => "NaN"
  end.

Record MemoryRecommendation : Type := {
  memory : Q;
  reasoning : string;
  performanceImpact : string;
  costImpact : string
}.

Definition generateMemoryRecommendation (allocated avgUsed peakUsed utilizationPercent : Q)
  : MemoryRecommendation :=
  if ltb utilizationPercent 50 then
    let recommendedMemory :=
      inject_Z (Z.max 128 (Math_ceil (peakUsed * (12 # 10) / 64) * 64)) in
    {| memory := recommendedMemory;
       reasoning := "Memory is over-provisioned. Reducing memory will lower costs.";
       performanceImpact := "Minimal performance impact expected";
       costImpact :=
         "Reduce costs by ~"
           ++ showRounded (eaffine (-100) 100 (ediv recommendedMemory allocated)) ++ "%" |}
  else if gtb utilizationPercent 85 then
    let recommendedMemory := inject_Z (Math_ceil (peakUsed * (13 # 10) / 64) * 64) in
    {| memory := recommendedMemory;
       reasoning := "Memory utilization is high. Increasing memory may improve performance.";
       performanceImpact := "Improved performance and reduced duration expected";
       costImpact :=
         "Increase costs by ~"
           ++ showRounded (eaffine 100 (-100) (ediv recommendedMemory allocated)) ++ "%" |}
  else
    {| memory := allocated;
       reasoning := "Memory allocation appears optimal for current usage patterns.";
       performanceImpact := "No change expected";
       costImpact := "No change" |}.

Definition calculateVariance (values : list Q) : Q :=
  let mean := (sum values / ofNat (List.length values))%Q in
  let squaredDiffs := map (fun val => ((val - mean) * (val - mean))%Q) values in
  (sum squaredDiffs / ofNat (List.length values))%Q.

Definition calculateTrend (values : list Q) : extended :=
  if (List.length values <? 2)%nat then Fin 0
  else
    let firstHalf := firstn (Nat.div (List.length values) 2) values in
    let secondHalf := skipn (Nat.div (List.length values) 2) values in
    let firstAvg := (sum firstHalf / ofNat (List.length firstHalf))%Q in
    let secondAvg := (sum secondHalf / ofNat (List.length secondHalf))%Q in
    ediv (secondAvg - firstAvg)%Q firstAvg.

(** [x > t] and [x < t] on a quotient. *)
Definition egtb (x : extended) (t : Q) : bool :=
  match x with Fin q => gtb q t | PosInf => true | _ => false end.

Definition eltb (x : extended) (t : Q) : bool :=
  match x with Fin q => ltb q t | NegInf => true | _ => false end.

Definition analyzeMemoryPatterns (memoryUsage : list Q) : list string :=
  match memoryUsage with
  | [] => ["No memory usage data available"]
  | _ =>
      let patterns := [] in
      let variance := calculateVariance memoryUsage in
      let patterns :=
        if ltb variance 100
        then (patterns ++ ["Consistent memory usage pattern"])%list
        else (patterns ++ ["Variable memory usage - consider workload optimization"])%list in
      let trend := calculateTrend memoryUsage in
      if egtb trend (1 # 10)
      then (patterns ++ ["Increasing memory usage trend detected"])%list
      else if eltb trend (- (1 # 10))
           then (patterns ++ ["Decreasing memory usage trend detected"])%list
           else patterns
  end.

(** The analyzer's [findPeakHours]: [hourCounts] is an object with hours
    as keys, which [Object.entries] lists in ascending order of the hour. *)
Fixpoint bump (hour : nat) (hourCounts : list (nat * nat)) : list (nat * nat) :=
  match hourCounts with
  | [] => [(hour, 1)]
  | (h, c) :: rest =>
      if (hour =? h)%nat then (h, c + 1) :: rest
      else if (hour <? h)%nat then (hour, 1) :: hourCounts
      else (h, c) :: bump hour rest
  end.

Definition findPeakHours (hours : list nat) : list string :=
  let hourCounts := fold_left (fun hourCounts hour => bump hour hourCounts) hours [] in
  let sortedHours :=
    map (fun entry : nat * nat => ToString (N.of_nat (fst entry)) ++ ":00")
        (firstn 3 (sort (fun a b : nat * nat => (snd b <=? snd a)%nat) hourCounts)) in
  sortedHours.

Record PatternAnalysis : Type := {
  pa_avgDuration : Q;
  pa_maxDuration : Q;
  pa_peakHours : list string;
  pa_frequency : string;
  pa_triggers : list string
}.

Definition generateColdStartRecommendations (analysis : PatternAnalysis) : list string :=
  let recommendations := [] in
  let recommendations :=
    if String.eqb (pa_frequency analysis) "High" || String.eqb (pa_frequency analysis) "Very High"
    then (recommendations ++
          [ "Consider using Provisioned Concurrency to reduce cold starts";
            "Optimize function initialization code";
            "Use connection pooling for database connections" ])%list
    else recommendations in
  let recommendations :=
    if gtb (pa_avgDuration analysis) 1000
    then (recommendations ++
          [ "Reduce package size and dependencies";
            "Use Lambda layers for shared dependencies" ])%list
    else recommendations in
  (recommendations ++
   [ "Consider using ARM-based Graviton2 processors for better price-performance" ])%list.

Record TimelinePoint : Type := {
  tp_time : string;
  tp_coldStarts : nat;
  tp_duration : Q
}.

Record ColdStartReport : Type := {
  r_total : nat;
  r_rate : Q;
  r_avgDuration : Q;
  r_maxDuration : Q;
  r_peakHours : list string;
  r_frequency : string;
  r_triggers : list string;
  r_recommendations : list string;
  r_timeline : list TimelinePoint
}.

Section AnalyzerHost.

(** [new Date(timestamp).getHours()] and [date.toLocaleTimeString()]. *)
Variable getHours : N -> nat.
Variable toLocaleTimeString : number -> string.
(** [clock i] is what [Date.now()] reads in iteration [i] of the timeline
    loop. *)
Variable clock : nat -> Q.

Definition analyzeColdStartPatterns (coldStartEvents : list Logs.LogEvent)
    (totalInvocations : Q) : PatternAnalysis :=
  match coldStartEvents with
  | [] =>
      {| pa_avgDuration := 0; pa_maxDuration := 0; pa_peakHours := [];
         pa_frequency := "None"; pa_triggers := [] |}
  | _ =>
      let avgDuration := 1000%Q in
      let maxDuration := 2000%Q in
      let hours := map (fun event => getHours (Logs.timestamp event)) coldStartEvents in
      let peakHours := findPeakHours hours in
      let frequency :=
        determineColdStartFrequency (ofNat (List.length coldStartEvents)) totalInvocations in
      let triggers := ["Low traffic periods"; "Function updates"; "Scaling events"] in
      {| pa_avgDuration := avgDuration; pa_maxDuration := maxDuration;
         pa_peakHours := peakHours; pa_frequency := frequency; pa_triggers := triggers |}
  end.

(** [new Date(x).getTime()]: the time value is cut to whole milliseconds. *)
Definition timeValue (x : number) : number :=
  match x with
  | Num q => Num (inject_Z (Z.quot (Qnum q) (Zpos (Qden q))))
  | NaN => NaN
  end.

Definition createColdStartTimeline (coldStartEvents : list Logs.LogEvent) (timeRange : string)
  : list TimelinePoint :=
  let periodMs := number_map (fun r => r / 24)%Q (ToNumber (parseTimeRange timeRange)) in
  map (fun i =>
         let periodStart :=
           timeValue
             (number_add
                (number_map (fun r => clock i - r)%Q (ToNumber (parseTimeRange timeRange)))
                (number_map (fun p => ofNat i * p)%Q periodMs)) in
         let periodEnd := timeValue (number_add periodStart periodMs) in
         let periodEvents :=
           filter (fun event =>
                     let t := inject_Z (Z.of_N (Logs.timestamp event)) in
                     geb_number t periodStart && ltb_number t periodEnd)
                  coldStartEvents in
         {| tp_time := toLocaleTimeString periodStart;
            tp_coldStarts := List.length periodEvents;
            tp_duration := 1000 |})
      (seq 0 24).

(** [logsAnswer] and [metricAnswer] are what the log source and the metrics
    source give to the two requests of the operation. *)
Definition trackColdStarts
    (logsAnswer : Completion (option (list Logs.LogEvent)))
    (metricAnswer : Completion (option (list (option Q))))
    (functionName timeRange : string) : Completion ColdStartReport :=
  let timeRangeMs := parseTimeRange timeRange in
  try_catch
    (coldStartEvents <- getColdStartEvents logsAnswer ;;
     totalInvocations <- getTotalInvocations metricAnswer ;;
     let analysis := analyzeColdStartPatterns coldStartEvents totalInvocations in
     Normal
       {| r_total := List.length coldStartEvents;
          r_rate := calculateColdStartRate (ofNat (List.length coldStartEvents))
                      (Num totalInvocations);
          r_avgDuration := pa_avgDuration analysis;
          r_maxDuration := pa_maxDuration analysis;
          r_peakHours := pa_peakHours analysis;
          r_frequency := pa_frequency analysis;
          r_triggers := pa_triggers analysis;
          r_recommendations := generateColdStartRecommendations analysis;
          r_timeline := createColdStartTimeline coldStartEvents timeRange |})
    (fun _ =>
       Normal
         {| r_total := 0; r_rate := 0; r_avgDuration := 0; r_maxDuration := 0;
            r_peakHours := []; r_frequency := "Unknown"; r_triggers := [];
            r_recommendations :=
              ["Unable to analyze cold starts - check CloudWatch Logs permissions"];
            r_timeline := [] |}).

End AnalyzerHost.

(** One function of a comparison, with the values the insights read. *)
Record Comparison : Type := {
  name : string;
  v_duration : Q;        (* values.duration *)
  v_coldStarts : Q;      (* values['cold-starts'] *)
  v_errors : Q           (* values.errors *)
}.

(** [arr.reduce(f)] without an initial value: a [TypeError] on an empty
    array. *)
Definition reduce1 {A : Type} (f : A -> A -> A) (arr : list A) : Completion A :=
  match arr with
  | [] => Throw (OtherError "TypeError: Reduce of empty array with no initial value")
  | x :: rest => Normal (fold_left f rest x)
  end.

Section Comparisons.

(** The rendering of a number inside a template literal. *)
Variable showNumber : Q -> string.

Definition generateComparisonInsights (comparisons : list Comparison)
  : Completion (list string) :=
  let insights := [] in
  bestDuration <-
    reduce1 (fun best current =>
               if ltb (v_duration current) (v_duration best) then current else best)
            comparisons ;;
  worstColdStart <-
    reduce1 (fun worst current =>
               if gtb (v_coldStarts current) (v_coldStarts worst) then current else worst)
            comparisons ;;
  let insights :=
    (insights ++
     [ (name bestDuration ++ " has the best average duration ("
          ++ showNumber (v_duration bestDuration) ++ "ms)")%string ])%list in
  let insights :=
    (insights ++
     [ (name worstColdStart ++ " has the highest cold start rate ("
          ++ showNumber (v_coldStarts worstColdStart) ++ "%)")%string ])%list in
  Normal insights.

Definition generateComparisonRecommendations (comparisons : list Comparison) : list string :=
  let recommendations := [] in
  let highColdStart := filter (fun func => gtb (v_coldStarts func) 10) comparisons in
  let recommendations :=
    if (0 <? List.length highColdStart)%nat
    then (recommendations ++
          [ ("Consider optimizing cold start performance for: "
               ++ join ", " (map name highColdStart))%string ])%list
    else recommendations in
  let highError := filter (fun func => gtb (v_errors func) 1) comparisons in
  let recommendations :=
    if (0 <? List.length highError)%nat
    then (recommendations ++
          [ ("Review error handling for: " ++ join ", " (map name highError))%string ])%list
    else recommendations in
  recommendations.

End Comparisons.

End LambdaAnalyzer.

(** ** PerformanceOptimizer

    The second class of src/lambda-analyzer.js.  Its [analyzeFunction]
    draws the figures of an analysis from [Math.random]; the functions
    below take the analysis as an argument.  The decimal constants of the
    code (0.7, 0.8, 0.85, 0.20, 0.001, 0.0000166667) are taken as the
    rationals they denote, and products exactly. *)

Module PerformanceOptimizer.
Import JS.
Local Open Scope string_scope.

(** The [impact] of an optimization: the code writes 'High' or 'Medium',
    and ranks them with [impactOrder]. *)
Inductive Impact : Type := High | Medium | Low.

Definition impactOrder (i : Impact) : nat :=
  match i with High => 3 | Medium => 2 | Low => 1 end.

Record Optimization : Type := {
  title : string;
  impact : Impact;
  description : string;
  implementation : string;
  expectedImprovement : string
}.

(** The analysis data the optimizer reads.  [p95Duration] and
    [monthlyInvocations] may be absent. *)
Record Analysis : Type := {
  functionName : string;
  coldStartRate : Q;
  packageSize : Q;
  initDuration : Q;
  runtime : string;
  memoryUtilization : Q;
  allocatedMemory : Q;
  recommendedMemory : Q;
  avgDuration : Q;
  hasDatabase : bool;
  usesConnectionPooling : bool;
  externalApiCalls : Q;
  dataProcessingTime : Q;
  costPerInvocation : Q;
  potentialMonthlySavings : Q;
  architecture : string;
  isArmCompatible : bool;
  hasProvisionedConcurrency : bool;
  provisionedUtilization : Q;
  provisionedConcurrencySavings : Q;
  environment : string;
  memoryTrend : string;
  costSavingsPercent : Q;
  p95Duration : option Q;
  monthlyInvocations : option Q
}.

Record Configuration : Type := {
  c_memory : Q;
  c_timeout : number;
  c_runtime : string;
  c_architecture : string
}.

Record CostImpact : Type := {
  current : Q;
  optimized : Q;
  savings : Q;
  savingsPercent : LambdaAnalyzer.extended
}.

Record Recommendations : Type := {
  priority : list Optimization;
  additional : list string;
  config : Configuration;
  cost : CostImpact
}.

Definition pushWhen {A : Type} (cond : bool) (x : A) (arr : list A) : list A :=
  if cond then (arr ++ [x])%list else arr.

Definition calculateOptimalTimeout (analysis : Analysis) : number :=
  match p95Duration analysis with
  | Some p95 => Num (inject_Z (Z.max 30 (Z.min 900 (Math_ceil (p95 / 1000) * 2))))
  | None => NaN             (* [undefined / 1000] *)
  end.

Definition recommendRuntime (analysis : Analysis) : string :=
  let currentRuntime := runtime analysis in
  if includes "nodejs16" currentRuntime then "nodejs18.x"
  else if includes "python3.8" currentRuntime then "python3.9"
  else currentRuntime.

Definition recommendArchitecture (analysis : Analysis) : string :=
  if isArmCompatible analysis && String.eqb (architecture analysis) "x86_64"
  then "arm64"
  else architecture analysis.

Definition calculateMonthlyCost (analysis : Analysis) : Q :=
  let monthlyInvocations :=
    match monthlyInvocations analysis with
    | Some m => if Qeq_bool m 0 then 100000%Q else m
    | None => 100000%Q
    end in
  let avgDurationSeconds := (avgDuration analysis / 1000)%Q in
  let memoryGB := (allocatedMemory analysis / 1024)%Q in
  let requestCost := ((monthlyInvocations / 1000000) * (20 # 100))%Q in
  let computeCost :=
    (monthlyInvocations * avgDurationSeconds * memoryGB * (166667 # 10000000000))%Q in
  (requestCost + computeCost)%Q.

Definition getConfigurationRecommendations (analysis : Analysis) : Configuration :=
  {| c_memory := if Qeq_bool (recommendedMemory analysis) 0
                 then allocatedMemory analysis else recommendedMemory analysis;
     c_timeout := calculateOptimalTimeout analysis;
     c_runtime := recommendRuntime analysis;
     c_architecture := recommendArchitecture analysis |}.

Definition getAdditionalOptimizations (analysis : Analysis) : list string :=
  let additional := [] in
  let additional :=
    pushWhen (String.eqb (environment analysis) "development")
      "Consider using smaller memory allocation for development environment" additional in
  let additional :=
    if includes "nodejs" (runtime analysis)
    then (additional ++
          [ "Use Node.js 18.x or later for improved performance";
            "Implement proper error handling to avoid unhandled promise rejections" ])%list
    else additional in
  let additional :=
    if includes "python" (runtime analysis)
    then (additional ++
          [ "Use Python 3.9+ for better performance";
            "Consider using compiled libraries for CPU-intensive operations" ])%list
    else additional in
  (additional ++
   [ "Regularly update dependencies to latest versions";
     "Implement least-privilege IAM roles";
     "Enable AWS X-Ray tracing for better observability";
     "Set up CloudWatch alarms for key metrics";
     "Implement structured logging for better debugging";
     "Use AWS Lambda Insights for enhanced monitoring" ])%list.

(** The cost factor that the title of a recommendation brings in. *)
Definition applyReductions (optimizedCost : Q) (rec : Optimization) : Q :=
  let optimizedCost :=
    if includes "Right-size Memory" (title rec)
    then (optimizedCost * (7 # 10))%Q else optimizedCost in
  let optimizedCost :=
    if includes "ARM Architecture" (title rec)
    then (optimizedCost * (8 # 10))%Q else optimizedCost in
  let optimizedCost :=
    if includes "Optimize Duration" (title rec)
    then (optimizedCost * (85 # 100))%Q else optimizedCost in
  optimizedCost.

Definition getCostImpactAnalysis (analysis : Analysis) (priority : list Optimization)
  : CostImpact :=
  let currentMonthlyCost := calculateMonthlyCost analysis in
  let optimizedCost := fold_left applyReductions priority currentMonthlyCost in
  let savings := (currentMonthlyCost - optimizedCost)%Q in
  let savingsPercent :=
    LambdaAnalyzer.eaffine 100 0 (LambdaAnalyzer.ediv savings currentMonthlyCost) in
  {| current := (inject_Z (Math_round (currentMonthlyCost * 100)) / 100)%Q;
     optimized := (inject_Z (Math_round (optimizedCost * 100)) / 100)%Q;
     savings := (inject_Z (Math_round (savings * 100)) / 100)%Q;
     savingsPercent :=
       match savingsPercent with
       | LambdaAnalyzer.Fin q => LambdaAnalyzer.Fin (inject_Z (Math_round q))
       | other => other
       end |}.

Section Rendering.

(** The rendering of a number inside a template literal. *)
Variable showNumber : Q -> string.

Definition getColdStartOptimizations (analysis : Analysis) : list Optimization :=
  let optimizations := [] in
  let optimizations :=
    pushWhen (gtb (coldStartRate analysis) 20)
      {| title := "Implement Provisioned Concurrency";
         impact := High;
         description :=
           "Configure provisioned concurrency to eliminate cold starts during peak hours";
         implementation :=
           "Set up provisioned concurrency for 2-5 instances based on traffic patterns";
         expectedImprovement := "Reduce cold starts by 80-95%" |}
      optimizations in
  let optimizations :=
    pushWhen (gtb (packageSize analysis) (50 * 1024 * 1024))
      {| title := "Optimize Deployment Package Size";
         impact := High;
         description := "Reduce package size to improve cold start performance";
         implementation :=
           "Remove unused dependencies, use Lambda layers, optimize bundling";
         expectedImprovement := "Reduce cold start time by 30-50%" |}
      optimizations in
  let optimizations :=
    pushWhen (gtb (initDuration analysis) 2000)
      {| title := "Optimize Initialization Code";
         impact := Medium;
         description := "Move heavy initialization outside the handler function";
         implementation := "Initialize connections, load configurations at module level";
         expectedImprovement := "Reduce cold start time by 20-40%" |}
      optimizations in
  let optimizations :=
    pushWhen (includes "java" (runtime analysis) || includes "dotnet" (runtime analysis))
      {| title := "Consider Runtime Migration";
         impact := Medium;
         description := "Consider migrating to Node.js or Python for faster cold starts";
         implementation := "Evaluate business requirements and migration effort";
         expectedImprovement := "Reduce cold start time by 50-70%" |}
      optimizations in
  optimizations.

Definition getMemoryOptimizations (analysis : Analysis) : list Optimization :=
  let optimizations := [] in
  let optimizations :=
    pushWhen (ltb (memoryUtilization analysis) 50)
      {| title := "Right-size Memory Allocation";
         impact := High;
         description :=
           "Reduce memory allocation to optimize costs without impacting performance";
         implementation :=
           "Reduce memory from " ++ showNumber (allocatedMemory analysis) ++ "MB to "
             ++ showNumber (recommendedMemory analysis) ++ "MB";
         expectedImprovement :=
           "Reduce costs by " ++ showNumber (costSavingsPercent analysis) ++ "%" |}
      optimizations in
  let optimizations :=
    pushWhen (gtb (memoryUtilization analysis) 90)
      {| title := "Increase Memory Allocation";
         impact := High;
         description := "Increase memory to improve performance and reduce duration";
         implementation :=
           "Increase memory from " ++ showNumber (allocatedMemory analysis) ++ "MB to "
             ++ showNumber (recommendedMemory analysis) ++ "MB";
         expectedImprovement := "Improve performance by 15-25%, reduce duration" |}
      optimizations in
  let optimizations :=
    pushWhen (String.eqb (memoryTrend analysis) "increasing")
      {| title := "Investigate Memory Leaks";
         impact := Medium;
         description :=
           "Memory usage is trending upward, indicating potential memory leaks";
         implementation :=
           "Review code for unclosed connections, event listeners, or cached objects";
         expectedImprovement := "Stabilize memory usage, prevent out-of-memory errors" |}
      optimizations in
  optimizations.

Definition getDurationOptimizations (analysis : Analysis) : list Optimization :=
  let optimizations := [] in
  let optimizations :=
    pushWhen (gtb (avgDuration analysis) 5000)
      {| title := "Optimize Code Performance";
         impact := High;
         description := "Function duration is high, indicating performance bottlenecks";
         implementation :=
           "Profile code, optimize algorithms, implement caching, use async operations";
         expectedImprovement := "Reduce duration by 20-50%" |}
      optimizations in
  let optimizations :=
    pushWhen (hasDatabase analysis && negb (usesConnectionPooling analysis))
      {| title := "Implement Connection Pooling";
         impact := High;
         description := "Use connection pooling to reduce database connection overhead";
         implementation := "Implement RDS Proxy or connection pooling library";
         expectedImprovement := "Reduce duration by 30-60%" |}
      optimizations in
  let optimizations :=
    pushWhen (gtb (externalApiCalls analysis) 5)
      {| title := "Optimize External API Calls";
         impact := Medium;
         description := "Multiple external API calls are impacting performance";
         implementation := "Implement parallel processing, caching, or batch operations";
         expectedImprovement := "Reduce duration by 25-40%" |}
      optimizations in
  let optimizations :=
    pushWhen (gtb (dataProcessingTime analysis) (avgDuration analysis * (7 # 10)))
      {| title := "Optimize Data Processing";
         impact := Medium;
         description := "Data processing is consuming most of the execution time";
         implementation := "Use streaming, optimize data structures, implement pagination";
         expectedImprovement := "Reduce duration by 20-35%" |}
      optimizations in
  optimizations.

Definition getCostOptimizations (analysis : Analysis) : list Optimization :=
  let optimizations := [] in
  let optimizations :=
    pushWhen (gtb (costPerInvocation analysis) (1 # 1000))
      {| title := "Reduce Cost Per Invocation";
         impact := High;
         description := "Function has high cost per invocation";
         implementation :=
           "Optimize memory allocation, reduce duration, consider ARM architecture";
         expectedImprovement :=
           "Reduce costs by $" ++ showNumber (potentialMonthlySavings analysis) ++ "/month" |}
      optimizations in
  let optimizations :=
    pushWhen (String.eqb (architecture analysis) "x86_64" && isArmCompatible analysis)
      {| title := "Migrate to ARM Architecture";
         impact := Medium;
         description := "ARM-based Graviton2 processors offer better price-performance";
         implementation := "Test function compatibility and migrate to arm64 architecture";
         expectedImprovement := "Reduce costs by 20% with similar or better performance" |}
      optimizations in
  let optimizations :=
    pushWhen (hasProvisionedConcurrency analysis && ltb (provisionedUtilization analysis) 50)
      {| title := "Optimize Provisioned Concurrency";
         impact := High;
         description := "Provisioned concurrency is under-utilized";
         implementation := "Reduce provisioned concurrency or implement auto-scaling";
         expectedImprovement :=
           "Save $" ++ showNumber (provisionedConcurrencySavings analysis) ++ "/month" |}
      optimizations in
  optimizations.

Definition getAllOptimizations (analysis : Analysis) : list Optimization :=
  let coldStartOpts := getColdStartOptimizations analysis in
  let memoryOpts := getMemoryOptimizations analysis in
  let durationOpts := getDurationOptimizations analysis in
  let costOpts := getCostOptimizations analysis in
  let allOptimizations := (coldStartOpts ++ memoryOpts ++ durationOpts ++ costOpts)%list in
  let allOptimizations :=
    sort (fun a b => (impactOrder (impact b) <=? impactOrder (impact a))%nat)
         allOptimizations in
  firstn 5 allOptimizations.

(** [analysis] stands for what [analyzeFunction] returns. *)
Definition getRecommendations (analysis : Analysis) (analysisType : string)
  : Recommendations :=
  let priority :=
    if String.eqb analysisType "cold-start" then getColdStartOptimizations analysis
    else if String.eqb analysisType "memory" then getMemoryOptimizations analysis
    else if String.eqb analysisType "duration" then getDurationOptimizations analysis
    else if String.eqb analysisType "cost" then getCostOptimizations analysis
    else getAllOptimizations analysis in
  {| priority := priority;
     additional := getAdditionalOptimizations analysis;
     config := getConfigurationRecommendations analysis;
     cost := getCostImpactAnalysis analysis priority |}.

End Rendering.
End PerformanceOptimizer.

(** ** Vocabulary of the statements *)

Import JS Logs ColdStartTracker.
Open Scope Q_scope.


(** Number of samples satisfying a range test. *)
Definition countIn (inRange : Q -> bool) (samples : list Q) : nat :=
  List.length (filter inRange samples).

(** The five ranges: up to 500, above 500 up to 1000, above 1000 up to
    2000, above 2000 up to 5000, above 5000. *)
Definition inBucket1 (d : Q) : bool := Qle_bool d 500.
Definition inBucket2 (d : Q) : bool := gtb d 500 && Qle_bool d 1000.
Definition inBucket3 (d : Q) : bool := gtb d 1000 && Qle_bool d 2000.
Definition inBucket4 (d : Q) : bool := gtb d 2000 && Qle_bool d 5000.
Definition inBucket5 (d : Q) : bool := gtb d 5000.

(** The outcome of the five range tests on one sample. *)
Definition bucketsOf (d : Q) : list bool :=
  [inBucket1 d; inBucket2 d; inBucket3 d; inBucket4 d; inBucket5 d].

(** Number of positions whose successor is less than 60 seconds later. *)
Definition closeSuccessors (timestamps : list N) : nat :=
  List.length
    (filter (fun i => (Z.of_N (nth (S i) timestamps 0%N) - Z.of_N (nth i timestamps 0%N) <? 60000)%Z)
            (seq 0 (List.length timestamps - 1))).

(** The message contains the text [RequestId: ] followed by at least one
    identifier character. *)
Definition containsRequestIdToken (message : string) : Prop :=
  exists (pre : string) (c : ascii) (post : string),
    message = (pre ++ "RequestId: " ++ String c post)%string /\ isWordOrDash c = true.

(** [pages'] is [pages] with one occurrence of [e] taken out of a page. *)
Inductive PagesWithout (e : LogEvent) : Pages -> Pages -> Prop :=
| without_last (l1 l2 : list LogEvent) :
    PagesWithout e (Last (Some (l1 ++ e :: l2))) (Last (Some (l1 ++ l2)))
| without_here (l1 l2 : list LogEvent) (rest : Pages) :
    PagesWithout e (More (Some (l1 ++ e :: l2)) rest) (More (Some (l1 ++ l2)) rest)
| without_later (events : option (list LogEvent)) (rest rest' : Pages) :
    PagesWithout e rest rest' -> PagesWithout e (More events rest) (More events rest').

(** The same log source with other answers to the INIT_START scan. *)
Definition withAnswers (source : LogSource) (pages : Pages) : LogSource :=
  {| initStartAnswers := pages;
     relatedAnswer := relatedAnswer source;
     startAnswer := startAnswer source |}.

(** ** Sample data *)


Module Examples.
Local Open Scope string_scope.

(** A host in UTC whose time labels are the epoch milliseconds. *)
Definition utcHours (t : N) : nat := N.to_nat ((t / 3600000) mod 24).

Definition epochLabel (t : number) : string :=
  match t with
  | Num q => ToString (Z.to_N (Qfloor q))
  | NaN => "Invalid Date"
  end.

Definition readInitDuration (message : string) : option Q :=
  if String.eqb message "INIT_DURATION: 1.5 ms" then Some (3 # 2) else None.

Definition readReport (message : string) : option Report := None.

Definition initWithId : LogEvent :=
  {| Logs.timestamp := 1700000000000;
     message := "INIT_START Runtime Version: nodejs:18.v5 RequestId: 8f1c-01";
     logStreamName := "2023/11/14/[$LATEST]a1" |}.

Definition initWithoutId : LogEvent :=
  {| Logs.timestamp := 1700000005000;
     message := "INIT_START Runtime Version: nodejs:18.v5";
     logStreamName := "2023/11/14/[$LATEST]a1" |}.

Definition startEvent : LogEvent :=
  {| Logs.timestamp := 1700000000100;
     message := "START RequestId: 8f1c-01 Version: $LATEST";
     logStreamName := "2023/11/14/[$LATEST]a1" |}.

(** A log source that rejects every request. *)
Definition deniedSource : LogSource :=
  {| initStartAnswers := Fails AccessDenied;
     relatedAnswer := fun _ _ => Throw AccessDenied;
     startAnswer := Throw AccessDenied |}.

(** A log source with one page of two INIT_START events. *)
Definition onePageSource : LogSource :=
  {| initStartAnswers := Last (Some [initWithId; initWithoutId]);
     relatedAnswer := fun _ _ =>
       Normal (Some [ {| Logs.timestamp := 1700000000050;
                         message := "INIT_DURATION: 1.5 ms";
                         logStreamName := "2023/11/14/[$LATEST]a1" |} ]);
     startAnswer := Normal (Some [startEvent]) |}.

Definition coldStartAt (t : N) (d : option Q) : ColdStartData :=
  {| requestId := "8f1c-01"; timestamp := t; logStream := "2023/11/14/[$LATEST]a1";
     initDuration := d; totalDuration := None; memoryUsed := None;
     memoryAllocated := None; billedDuration := None; events := [] |}.

(** Two cold starts 30 seconds apart. *)
Definition twoClose : list ColdStartData :=
  [ coldStartAt 1700000000000 None; coldStartAt 1700000030000 None ].

(** Three cold starts 10 seconds apart. *)
Definition threeClose : list ColdStartData :=
  [ coldStartAt 1700000020000 (Some (3 # 2)); coldStartAt 1700000000000 (Some 7);
    coldStartAt 1700000010000 (Some 2) ].

End Examples.

(** ** Vocabulary of the further statements *)

(** Sum of a list of counts. *)
Definition total_of (counts : list nat) : nat := fold_right Nat.add 0%nat counts.

(** Number of cold starts whose local hour is [h]. *)
Definition eventsInHour (getHours : N -> nat) (h : nat) (coldStartEvents : list ColdStartData)
  : nat :=
  List.length (filter (fun e => Nat.eqb (getHours (timestamp e)) h) coldStartEvents).

(** The ranking of peak hours: higher count first, lower hour first among
    equal counts.  An item is a pair (hour, count). *)
Definition ranksBefore (a b : nat * nat) : Prop :=
  (snd b < snd a)%nat \/ (snd a = snd b /\ (fst a < fst b)%nat).

(** The label of an hour: two digits and [:00]. *)
Definition hourLabel (item : nat * nat) : string :=
  (padStart2 (ToString (N.of_nat (fst item))) ++ ":00")%string.

(** The hours with at least one cold start, with their counts. *)
Definition busyHours (hourlyDistribution : list nat) : list (nat * nat) :=
  filter (fun item : nat * nat => (0 <? snd item)%nat)
         (combine (seq 0 (List.length hourlyDistribution)) hourlyDistribution).

(** Number of cold starts with [from <= timestamp < to]. *)
Definition eventsBetween (from to : Q) (coldStartEvents : list ColdStartData) : nat :=
  List.length
    (filter (fun e => Qle_bool from (inject_Z (Z.of_N (timestamp e)))
                      && ltb (inject_Z (Z.of_N (timestamp e))) to)
            coldStartEvents).

(** 1 for [true], 0 for [false]. *)
Definition b2n (b : bool) : nat := if b then 1%nat else 0%nat.

(** [from <= t] and [t < to]. *)
Definition inWindow (from to t : Q) : bool := Qle_bool from t && ltb t to.

(** The last value present in a list of readings. *)
Fixpoint lastSome {A : Type} (readings : list (option A)) : option A :=
  match readings with
  | [] => None
  | x :: rest =>
      match lastSome rest with
      | Some v => Some v
      | None => x
      end
  end.

(** The events of the pages of a scan, up to its first failure. *)
Fixpoint eventsRead (answers : Pages) : list LogEvent :=
  match answers with
  | Fails _ => []
  | Last pageEvents => eventsOrEmpty pageEvents
  | More pageEvents rest => (eventsOrEmpty pageEvents ++ eventsRead rest)%list
  end.

(** Every character of a string passes a test. *)
Fixpoint allChars (p : ascii -> bool) (s : string) : bool :=
  match s with
  | EmptyString => true
  | String c s' => p c && allChars p s'
  end.

(** The record, if any, that an INIT_START event gives rise to. *)
Definition recordOf (matchInitDuration : string -> option Q)
    (matchReport : string -> option Report) (source : LogSource) (e : LogEvent)
  : option ColdStartData :=
  match extractColdStartData matchInitDuration matchReport source e with
  | Normal r => r
  | Throw _ => None
  end.

(** The events that the 30-second query hands back: none when it throws. *)
Definition relatedOf (source : LogSource) (requestId : string) (t : N) : list LogEvent :=
  match relatedAnswer source requestId t with
  | Normal r => eventsOrEmpty r
  | Throw _ => []
  end.


(** The number of recommendations whose title contains a fragment, and
    whether there is one. *)
Definition titleCount (fragment : string)
    (recommendations : list PerformanceOptimizer.Optimization) : nat :=
  List.length
    (filter (fun rec => includes fragment (PerformanceOptimizer.title rec)) recommendations).

Definition mentions (fragment : string)
    (recommendations : list PerformanceOptimizer.Optimization) : bool :=
  existsb (fun rec => includes fragment (PerformanceOptimizer.title rec)) recommendations.

(** The ranking of optimizations: an item does not come before one of
    higher impact. *)
Definition impactBefore (a b : PerformanceOptimizer.Optimization) : Prop :=
  (PerformanceOptimizer.impactOrder (PerformanceOptimizer.impact b)
   <= PerformanceOptimizer.impactOrder (PerformanceOptimizer.impact a))%nat.

(** The count that a list of (hour, count) entries holds for an hour. *)
Definition entryCount (hour : nat) (hourCounts : list (nat * nat)) : nat :=
  list_sum (map snd (filter (fun entry => Nat.eqb (fst entry) hour) hourCounts)).

(** Further sample data. *)
Module Scenarios.
Import Examples.
Local Open Scope string_scope.

(** Two invocations twenty minutes apart. *)
Definition sparseInvocations : list LogEvent :=
  [ startEvent;
    {| Logs.timestamp := 1700001200100;
       message := "START RequestId: 8f1c-02 Version: $LATEST";
       logStreamName := "2023/11/14/[$LATEST]a1" |} ].

(** A cold start with a memory figure. *)
Definition coldStartUsing (memory : Q) : ColdStartData :=
  {| requestId := "8f1c-01"; timestamp := 1700000000000;
     logStream := "2023/11/14/[$LATEST]a1";
     initDuration := Some 7; totalDuration := Some 20; memoryUsed := Some memory;
     memoryAllocated := Some 512; billedDuration := Some 20; events := [] |}.

(** A clock that stands still during the timeline loop. *)
Definition fixedClock (i : nat) : Q := 1700003600000.

(** Numbers rendered as their integer part. *)
Definition wholeNumber (q : Q) : string := LambdaAnalyzer.showInteger (Qfloor q).

Definition checkout : LambdaAnalyzer.Comparison :=
  {| LambdaAnalyzer.name := "checkout"; LambdaAnalyzer.v_duration := 420;
     LambdaAnalyzer.v_coldStarts := 4; LambdaAnalyzer.v_errors := 1 # 2 |}.

Definition invoicing : LambdaAnalyzer.Comparison :=
  {| LambdaAnalyzer.name := "invoicing"; LambdaAnalyzer.v_duration := 180;
     LambdaAnalyzer.v_coldStarts := 9; LambdaAnalyzer.v_errors := 0 |}.

(** An over-provisioned x86 function on an old runtime. *)
Definition orders : PerformanceOptimizer.Analysis :=
  {| PerformanceOptimizer.functionName := "orders";
     PerformanceOptimizer.coldStartRate := 25;
     PerformanceOptimizer.packageSize := 1048576;
     PerformanceOptimizer.initDuration := 800;
     PerformanceOptimizer.runtime := "nodejs16.x";
     PerformanceOptimizer.memoryUtilization := 40;
     PerformanceOptimizer.allocatedMemory := 512;
     PerformanceOptimizer.recommendedMemory := 256;
     PerformanceOptimizer.avgDuration := 1200;
     PerformanceOptimizer.hasDatabase := true;
     PerformanceOptimizer.usesConnectionPooling := false;
     PerformanceOptimizer.externalApiCalls := 2;
     PerformanceOptimizer.dataProcessingTime := 300;
     PerformanceOptimizer.costPerInvocation := 1 # 2000;
     PerformanceOptimizer.potentialMonthlySavings := 12;
     PerformanceOptimizer.architecture := "x86_64";
     PerformanceOptimizer.isArmCompatible := true;
     PerformanceOptimizer.hasProvisionedConcurrency := false;
     PerformanceOptimizer.provisionedUtilization := 0;
     PerformanceOptimizer.provisionedConcurrencySavings := 0;
     PerformanceOptimizer.environment := "production";
     PerformanceOptimizer.memoryTrend := "stable";
     PerformanceOptimizer.costSavingsPercent := 25;
     PerformanceOptimizer.p95Duration := Some 20000;
     PerformanceOptimizer.monthlyInvocations := Some 2000000 |}.

(** The same function after the recommended runtime and architecture. *)
Definition ordersUpgraded : PerformanceOptimizer.Analysis :=
  {| PerformanceOptimizer.functionName := "orders";
     PerformanceOptimizer.coldStartRate := 25;
     PerformanceOptimizer.packageSize := 1048576;
     PerformanceOptimizer.initDuration := 800;
     PerformanceOptimizer.runtime := "nodejs18.x";
     PerformanceOptimizer.memoryUtilization := 40;
     PerformanceOptimizer.allocatedMemory := 512;
     PerformanceOptimizer.recommendedMemory := 256;
     PerformanceOptimizer.avgDuration := 1200;
     PerformanceOptimizer.hasDatabase := true;
     PerformanceOptimizer.usesConnectionPooling := false;
     PerformanceOptimizer.externalApiCalls := 2;
     PerformanceOptimizer.dataProcessingTime := 300;
     PerformanceOptimizer.costPerInvocation := 1 # 2000;
     PerformanceOptimizer.potentialMonthlySavings := 12;
     PerformanceOptimizer.architecture := "arm64";
     PerformanceOptimizer.isArmCompatible := true;
     PerformanceOptimizer.hasProvisionedConcurrency := false;
     PerformanceOptimizer.provisionedUtilization := 0;
     PerformanceOptimizer.provisionedConcurrencySavings := 0;
     PerformanceOptimizer.environment := "production";
     PerformanceOptimizer.memoryTrend := "stable";
     PerformanceOptimizer.costSavingsPercent := 25;
     PerformanceOptimizer.p95Duration := Some 20000;
     PerformanceOptimizer.monthlyInvocations := Some 2000000 |}.

(** Two of the optimizations, as the code writes them. *)
Definition provisionedConcurrency : PerformanceOptimizer.Optimization :=
  {| PerformanceOptimizer.title := "Implement Provisioned Concurrency";
     PerformanceOptimizer.impact := PerformanceOptimizer.High;
     PerformanceOptimizer.description :=
       "Configure provisioned concurrency to eliminate cold starts during peak hours";
     PerformanceOptimizer.implementation :=
       "Set up provisioned concurrency for 2-5 instances based on traffic patterns";
     PerformanceOptimizer.expectedImprovement := "Reduce cold starts by 80-95%" |}.

Definition armMigration : PerformanceOptimizer.Optimization :=
  {| PerformanceOptimizer.title := "Migrate to ARM Architecture";
     PerformanceOptimizer.impact := PerformanceOptimizer.Medium;
     PerformanceOptimizer.description :=
       "ARM-based Graviton2 processors offer better price-performance";
     PerformanceOptimizer.implementation :=
       "Test function compatibility and migrate to arm64 architecture";
     PerformanceOptimizer.expectedImprovement :=
       "Reduce costs by 20% with similar or better performance" |}.



End Scenarios.
(** ** Facts *)

(** *** Rounding and the cold-start rate *)

Lemma floor_ge_iff (z : Z) (y : Q) : (z <= Qfloor y)%Z <-> inject_Z z <= y.
Proof.
  split; intro H.
  - apply Qle_trans with (inject_Z (Qfloor y)); [ | apply Qfloor_le ].
    rewrite <- Zle_Qle. exact H.
  - rewrite <- (Qfloor_Z z). apply Qfloor_resp_le. exact H.
Qed.

Lemma Math_round_gt_iff (k : Z) (x : Q) :
  (k < Math_round x)%Z <-> inject_Z k + (1 # 2) <= x.
Proof.
  unfold Math_round.
  assert (E : (k < Qfloor (x + (1 # 2)))%Z <-> (k + 1 <= Qfloor (x + (1 # 2)))%Z) by lia.
  rewrite E, floor_ge_iff, inject_Z_plus. change (inject_Z 1) with 1. split; intro; lra.
Qed.

Lemma Math_round_mono (x y : Q) : x <= y -> (Math_round x <= Math_round y)%Z.
Proof. intro H. apply Qfloor_resp_le. lra. Qed.

Lemma Math_round_Z (z : Z) : Math_round (inject_Z z) = z.
Proof.
  unfold Math_round.
  apply Z.le_antisymm.
  - assert (H : ~ (z < Qfloor (inject_Z z + (1 # 2)))%Z); [ | lia ].
    intro H. assert (H' : (z + 1 <= Qfloor (inject_Z z + (1 # 2)))%Z) by lia.
    apply floor_ge_iff in H'. rewrite inject_Z_plus in H'. change (inject_Z 1) with 1 in H'. lra.
  - apply floor_ge_iff. lra.
Qed.

Lemma ofNat_nonneg n : 0 <= ofNat n.
Proof. unfold ofNat. replace 0 with (inject_Z 0) by reflexivity. rewrite <- Zle_Qle. lia. Qed.

Lemma ofNat_pos n : (0 < n)%nat -> 0 < ofNat n.
Proof. intro H. unfold ofNat. replace 0 with (inject_Z 0) by reflexivity. rewrite <- Zlt_Qlt. lia. Qed.

Lemma ofNat_le n m : (n <= m)%nat -> ofNat n <= ofNat m.
Proof. intro H. unfold ofNat. rewrite <- Zle_Qle. lia. Qed.

Lemma ratio_nonneg c t : 0 <= ofNat c / ofNat t.
Proof.
  destruct t as [| t].
  - unfold Qdiv. change (/ ofNat 0) with 0. lra.
  - apply Qle_shift_div_l; [ apply ofNat_pos; lia | ]. pose proof (ofNat_nonneg c). lra.
Qed.

Lemma ratio_le_1 c t : (c <= t)%nat -> (0 < t)%nat -> ofNat c / ofNat t <= 1.
Proof.
  intros H Ht. apply Qle_shift_div_r; [ apply ofNat_pos; lia | ].
  pose proof (ofNat_le _ _ H). lra.
Qed.

Lemma rate_bounds (c t : nat) :
  0 <= calculateColdStartRate c t
  /\ ((c <= t)%nat -> calculateColdStartRate c t <= 100)
  /\ (t = 0%nat -> calculateColdStartRate c t = 0).
Proof.
  unfold calculateColdStartRate.
  destruct (Nat.eqb_spec t 0) as [-> | Ht].
  - repeat split; intros; lra.
  - pose proof (ratio_nonneg c t) as Hr.
    set (x := ofNat c / ofNat t * 100 * 100) in *.
    repeat split.
    + apply Qle_shift_div_l; [ lra | ].
      replace (0 * 100) with (inject_Z 0) by reflexivity. rewrite <- Zle_Qle.
      rewrite <- (Math_round_Z 0). apply Math_round_mono. change (inject_Z 0) with 0. unfold x. lra.
    + intro Hc. apply Qle_shift_div_r; [ lra | ].
      replace (100 * 100) with (inject_Z 10000) by reflexivity. rewrite <- Zle_Qle.
      rewrite <- (Math_round_Z 10000). apply Math_round_mono.
      pose proof (ratio_le_1 c t Hc ltac:(lia)). unfold x.
      change (inject_Z 10000) with 10000. lra.
    + intro; contradiction.
Qed.

(** C4 (as amended).  The cold-start rate is never negative, it is at most
    100 whenever the cold starts do not outnumber the invocations, and it
    is 0 when there is no invocation. *)
Theorem cold_start_rate_bounds (c t : nat) :
  0 <= calculateColdStartRate c t
  /\ ((c <= t)%nat -> calculateColdStartRate c t <= 100)
  /\ (t = 0%nat -> calculateColdStartRate c t = 0).
Proof. exact (rate_bounds c t). Qed.


(** *** Frequency classes *)

Lemma gtb_true_iff (a b : Q) : gtb a b = true <-> b < a.
Proof.
  unfold gtb. rewrite negb_true_iff. split; intro H.
  - apply Qnot_le_lt. intro Hle. apply Qle_bool_iff in Hle. congruence.
  - destruct (Qle_bool a b) eqn:E; [ | reflexivity ].
    apply Qle_bool_iff in E. lra.
Qed.

Lemma gtb_false_iff (a b : Q) : gtb a b = false <-> a <= b.
Proof.
  unfold gtb. rewrite negb_false_iff. apply Qle_bool_iff.
Qed.

(** The rounded rate exceeds an integer threshold exactly when the exact
    percentage reaches the threshold plus half a hundredth. *)
Lemma rate_exceeds_iff (c t : nat) (T : Z) :
  (0 < t)%nat ->
  gtb (calculateColdStartRate c t) (inject_Z T) = true
  <-> inject_Z T + (5 # 1000) <= 100 * ofNat c / ofNat t.
Proof.
  intro Ht. rewrite gtb_true_iff. unfold calculateColdStartRate.
  destruct (Nat.eqb_spec t 0) as [E | _]; [ lia | ].
  set (r := ofNat c / ofNat t).
  assert (E1 : inject_Z T < inject_Z (Math_round (r * 100 * 100)) / 100
               <-> (T * 100 < Math_round (r * 100 * 100))%Z).
  { rewrite Zlt_Qlt, inject_Z_mult. change (inject_Z 100) with 100.
    unfold Qdiv. change (/ 100) with (1 # 100). split; intro; lra. }
  rewrite E1, Math_round_gt_iff, inject_Z_mult. change (inject_Z 100) with 100.
  assert (E2 : 100 * ofNat c / ofNat t == 100 * r).
  { unfold r. field. pose proof (ofNat_pos t Ht). lra. }
  rewrite E2.
  split; intro; lra.
Qed.

Section FrequencyClassification.
Local Open Scope string_scope.
Variables (coldStartEvents : list ColdStartData) (allInvocations : list LogEvent)
            (timeRange : string).
Let c := List.length coldStartEvents.
Let t := List.length allInvocations.
Let r : Q := (100 * ofNat c / ofNat t)%Q.
Let f := determineColdStartFrequency coldStartEvents allInvocations timeRange.

(** C3 (as amended).  The class is decided by the rate rounded to two
    decimals: with [r = 100 * coldStarts / totalInvocations], the class is
    Very High from 50.005, High from 25.005, Moderate from 10.005, Low from
    5.005 and Very Low below; with no invocation the rate is 0 and the class
    is Very Low. *)
Theorem frequency_by_rounded_rate :
    (t = 0%nat -> f = "Very Low (<5%)")
    /\ ((0 < t)%nat ->
        ((50005 # 1000) <= r -> f = "Very High (>50%)")
        /\ ((25005 # 1000) <= r -> r < (50005 # 1000) -> f = "High (25-50%)")
        /\ ((10005 # 1000) <= r -> r < (25005 # 1000) -> f = "Moderate (10-25%)")
        /\ ((5005 # 1000) <= r -> r < (10005 # 1000) -> f = "Low (5-10%)")
        /\ (r < (5005 # 1000) -> f = "Very Low (<5%)")).
Proof.
    split.
    - intro Ht. subst f. unfold determineColdStartFrequency.
      fold t. rewrite Ht. reflexivity.
    - intro Ht. subst f. unfold determineColdStartFrequency. fold c t.
      pose proof (rate_exceeds_iff c t 50 Ht) as H50.
      pose proof (rate_exceeds_iff c t 25 Ht) as H25.
      pose proof (rate_exceeds_iff c t 10 Ht) as H10.
      pose proof (rate_exceeds_iff c t 5 Ht) as H5.
      fold r in H50, H25, H10, H5.
      change (inject_Z 50) with 50 in H50. change (inject_Z 25) with 25 in H25.
      change (inject_Z 10) with 10 in H10. change (inject_Z 5) with 5 in H5.
      destruct (gtb (calculateColdStartRate c t) 50) eqn:G50;
        [ | destruct (gtb (calculateColdStartRate c t) 25) eqn:G25;
            [ | destruct (gtb (calculateColdStartRate c t) 10) eqn:G10;
                [ | destruct (gtb (calculateColdStartRate c t) 5) eqn:G5 ] ] ];
        repeat match goal with
               | H : true = true <-> _ |- _ => assert (Hx := proj1 H eq_refl); clear H
               | H : false = true <-> _ |- _ =>
                   let Hx := fresh "Hx" in
                   assert (Hx := fun p => Bool.diff_false_true (proj2 H p)); clear H
               end;
        repeat split; intros; try reflexivity; exfalso;
        repeat match goal with
               | H : (_ <= r)%Q -> False |- _ => apply Qnot_le_lt in H
               end; lra.
Qed.
End FrequencyClassification.

(** *** Nearest-rank percentiles *)


Lemma ceiling_le_iff (y : Q) (z : Z) : (Qceiling y <= z)%Z <-> y <= inject_Z z.
Proof.
  split; intro H.
  - apply Qle_trans with (inject_Z (Qceiling y)); [ apply Qle_ceiling | ].
    rewrite <- Zle_Qle. exact H.
  - rewrite <- (Qceiling_Z z). apply Qceiling_resp_le. exact H.
Qed.




(** *** Sorting *)

Section SortFacts.
Context {A : Type} (before : A -> A -> bool).

Lemma insert_perm (x : A) (l : list A) : Permutation (x :: l) (insert before x l).
Proof.
    induction l as [| y l IH]; simpl.
    - apply Permutation_refl.
    - destruct (before x y).
      + apply Permutation_refl.
      + apply perm_trans with (y :: x :: l); [ apply perm_swap | ].
        apply perm_skip. exact IH.
Qed.

Lemma sort_perm (l : list A) : Permutation l (sort before l).
Proof.
    induction l as [| x l IH]; simpl.
    - apply perm_nil.
    - apply perm_trans with (x :: sort before l).
      + apply perm_skip. exact IH.
      + apply insert_perm.
Qed.

Lemma sort_length (l : list A) : List.length (sort before l) = List.length l.
Proof. symmetry. apply Permutation_length, sort_perm. Qed.

Variable R : A -> A -> Prop.
Hypothesis before_sound : forall x y, before x y = true -> R x y.
Hypothesis before_total : forall x y, before x y = false -> R y x.

Lemma insert_sorted (x : A) (l : list A) : Sorted R l -> Sorted R (insert before x l).
Proof.
    induction l as [| y l IH]; intro Hs; simpl.
    - repeat constructor.
    - destruct (before x y) eqn:E.
      + constructor; [ exact Hs | constructor; apply before_sound; exact E ].
      + inversion Hs as [| ? ? Hs' Hhd]; subst.
        constructor; [ apply IH; exact Hs' | ].
        destruct l as [| z l]; simpl.
        * constructor. apply before_total. exact E.
        * destruct (before x z); constructor.
          -- apply before_total. exact E.
          -- inversion Hhd; assumption.
Qed.

Lemma sort_sorted (l : list A) : Sorted R (sort before l).
Proof.
    induction l as [| x l IH]; simpl.
    - constructor.
    - apply insert_sorted. exact IH.
Qed.
End SortFacts.

(** Two comparators that agree on the elements of a list sort it alike. *)
Lemma insert_ext {A : Type} (b1 b2 : A -> A -> bool) (x : A) (l : list A) :
  (forall y, In y l -> b1 x y = b2 x y) -> insert b1 x l = insert b2 x l.
Proof.
  induction l as [| y l IH]; intro H; simpl; [ reflexivity | ].
  rewrite (H y (or_introl eq_refl)).
  destruct (b2 x y); [ reflexivity | ].
  f_equal. apply IH. intros z Hz. apply H. right. exact Hz.
Qed.

Lemma sort_ext {A : Type} (b1 b2 : A -> A -> bool) (l : list A) :
  (forall x y, In x l -> In y l -> b1 x y = b2 x y) -> sort b1 l = sort b2 l.
Proof.
  induction l as [| x l IH]; intro H; simpl; [ reflexivity | ].
  rewrite IH by (intros; apply H; right; assumption).
  apply insert_ext. intros y Hy. apply H; [ left; reflexivity | right ].
  apply Permutation_in with (sort b2 l); [ apply Permutation_sym, sort_perm | exact Hy ].
Qed.




(** *** Maximum, minimum and mean *)

Lemma Qmax_cases (x y : Q) : Qmax x y = x \/ Qmax x y = y.
Proof. unfold Qmax, GenericMinMax.gmax. destruct (x ?= y); auto. Qed.


Lemma Math_max_in (ds : list Q) : forall d, In (Math_max d ds) (d :: ds).
Proof.
  unfold Math_max. induction ds as [| x ds IH]; intro d; simpl.
  - left; reflexivity.
  - destruct (IH (Qmax d x)) as [H | H].
    + destruct (Qmax_cases d x) as [E | E]; rewrite E in *; auto.
    + right; right; exact H.
Qed.


Lemma Math_max_upper (ds : list Q) : forall d x, In x (d :: ds) -> x <= Math_max d ds.
Proof.
  unfold Math_max. induction ds as [| y ds IH]; intros d x Hin; simpl.
  - destruct Hin as [-> | []]. apply Qle_refl.
  - destruct Hin as [<- | [<- | Hin]].
    + apply Qle_trans with (Qmax d y).
      * apply Q.le_max_l.
      * apply IH. left. reflexivity.
    + apply Qle_trans with (Qmax d y).
      * apply Q.le_max_r.
      * apply IH. left. reflexivity.
    + apply IH. right. exact Hin.
Qed.


Lemma fold_Qplus_acc (l : list Q) : forall a, fold_left Qplus l a == a + fold_left Qplus l 0.
Proof.
  induction l as [| x l IH]; intro a; simpl.
  - ring.
  - rewrite (IH (a + x)), (IH (0 + x)). ring.
Qed.

Lemma sum_cons (x : Q) (l : list Q) : sum (x :: l) == x + sum l.
Proof. unfold sum. simpl. rewrite fold_Qplus_acc. ring. Qed.

Lemma ofNat_S (n : nat) : ofNat (S n) == ofNat n + 1.
Proof. unfold ofNat. rewrite Nat2Z.inj_succ. unfold Z.succ. rewrite inject_Z_plus. reflexivity. Qed.

Lemma sum_between (lo hi : Q) (l : list Q) :
  (forall x, In x l -> lo <= x <= hi) ->
  ofNat (List.length l) * lo <= sum l <= ofNat (List.length l) * hi.
Proof.
  induction l as [| x l IH]; intro H.
  - unfold sum; simpl. change (ofNat 0) with 0. lra.
  - assert (Hx := H x (or_introl eq_refl)).
    assert (Hl := IH (fun y Hy => H y (or_intror Hy))).
    change (List.length (x :: l)) with (S (List.length l)).
    rewrite sum_cons, ofNat_S. lra.
Qed.

Lemma mean_between (lo hi : Q) (l : list Q) :
  l <> [] -> (forall x, In x l -> lo <= x <= hi) ->
  lo <= sum l / ofNat (List.length l) <= hi.
Proof.
  intros Hne H. pose proof (sum_between lo hi l H) as [H1 H2].
  assert (Hn : 0 < ofNat (List.length l)).
  { apply ofNat_pos. destruct l; [ congruence | simpl; lia ]. }
  split.
  - apply Qle_shift_div_l; [ exact Hn | lra ].
  - apply Qle_shift_div_r; [ exact Hn | lra ].
Qed.







(** *** Binary64 rounding *)































Section SummaryOrder.
Variable getHours : N -> nat.
Variables (coldStartEvents : list ColdStartData) (allInvocations : list LogEvent)
            (timeRange : string).
Let durations := nonNull (map initDuration coldStartEvents).
Let a := analyzeColdStartPatterns getHours coldStartEvents allInvocations timeRange.
Let ps := percentiles (a_statistics a).

End SummaryOrder.

(** *** Duration distribution *)


Lemma one_bucket (d : Q) : List.length (filter (fun b : bool => b) (bucketsOf d)) = 1%nat.
Proof.
  unfold bucketsOf, inBucket1, inBucket2, inBucket3, inBucket4, inBucket5, gtb.
  destruct (Qle_bool d 500) eqn:E1.
  - apply Qle_bool_iff in E1.
    assert (Qle_bool d 1000 = true) as -> by (apply Qle_bool_iff; lra).
    assert (Qle_bool d 2000 = true) as -> by (apply Qle_bool_iff; lra).
    assert (Qle_bool d 5000 = true) as -> by (apply Qle_bool_iff; lra).
    reflexivity.
  - destruct (Qle_bool d 1000) eqn:E2.
    + apply Qle_bool_iff in E2.
      assert (Qle_bool d 2000 = true) as -> by (apply Qle_bool_iff; lra).
      assert (Qle_bool d 5000 = true) as -> by (apply Qle_bool_iff; lra).
      reflexivity.
    + destruct (Qle_bool d 2000) eqn:E3.
      * apply Qle_bool_iff in E3.
        assert (Qle_bool d 5000 = true) as -> by (apply Qle_bool_iff; lra).
        reflexivity.
      * destruct (Qle_bool d 5000) eqn:E4; reflexivity.
Qed.

Ltac bucket_eq :=
  repeat first
    [ lia
    | reflexivity
    | apply (f_equal2 (@cons (string * nat)))
    | apply (f_equal2 (@pair string nat)) ].

Lemma distribution_from (ds : list Q) : forall a1 a2 a3 a4 a5 : nat,
  fold_left (fun buckets duration =>
    if Qle_bool duration 500 then increment "0-500ms" buckets
    else if Qle_bool duration 1000 then increment "500-1000ms" buckets
    else if Qle_bool duration 2000 then increment "1000-2000ms" buckets
    else if Qle_bool duration 5000 then increment "2000-5000ms" buckets
    else increment "5000ms+" buckets) ds
    [ ("0-500ms", a1); ("500-1000ms", a2); ("1000-2000ms", a3);
      ("2000-5000ms", a4); ("5000ms+", a5) ]%string
  = [ ("0-500ms", a1 + countIn inBucket1 ds); ("500-1000ms", a2 + countIn inBucket2 ds);
      ("1000-2000ms", a3 + countIn inBucket3 ds); ("2000-5000ms", a4 + countIn inBucket4 ds);
      ("5000ms+", a5 + countIn inBucket5 ds) ]%string%nat.
Proof.
  induction ds as [| d ds IH]; intros a1 a2 a3 a4 a5.
  - unfold countIn; simpl. rewrite !Nat.add_0_r. reflexivity.
  - pose proof (one_bucket d) as Hone.
    unfold countIn in *. cbn [fold_left filter].
    unfold bucketsOf, inBucket1, inBucket2, inBucket3, inBucket4, inBucket5, gtb in *.
    destruct (Qle_bool d 500), (Qle_bool d 1000), (Qle_bool d 2000), (Qle_bool d 5000);
      cbn in Hone; try discriminate Hone;
      cbn [negb andb increment map fst snd String.eqb Ascii.eqb Bool.eqb];
      rewrite IH; cbn [List.length negb andb]; bucket_eq.
Qed.

(** C6.  Every bucket count is the number of samples in the bucket's
    range, a range closed at its upper bound (500, 1000, 2000 and 5000
    fall in the lower bucket); each sample lies in exactly one of the five
    ranges, and the counts add up to the number of samples. *)
Theorem duration_distribution_partition (durations : list Q) :
  createDurationDistribution durations
  = [ ("0-500ms", countIn inBucket1 durations);
      ("500-1000ms", countIn inBucket2 durations);
      ("1000-2000ms", countIn inBucket3 durations);
      ("2000-5000ms", countIn inBucket4 durations);
      ("5000ms+", countIn inBucket5 durations) ]%string
  /\ (forall d, In d durations ->
        List.length (filter (fun b : bool => b) (bucketsOf d)) = 1%nat)
  /\ fold_right Nat.add 0%nat (map snd (createDurationDistribution durations))
     = List.length durations
  /\ inBucket1 500 = true /\ inBucket2 1000 = true
  /\ inBucket3 2000 = true /\ inBucket4 5000 = true.
Proof.
  assert (E := distribution_from durations 0 0 0 0 0). cbn [Nat.add] in E.
  unfold createDurationDistribution. rewrite E.
  split; [ reflexivity | ]. split; [ intros; apply one_bucket | ].
  split; [ | repeat split; reflexivity ].
  cbn [map snd fold_right]. unfold countIn.
  induction durations as [| d ds IH]; [ reflexivity | ].
  pose proof (one_bucket d) as Hone.
  cbn [filter List.length]. 
  unfold bucketsOf in Hone.
  destruct (inBucket1 d), (inBucket2 d), (inBucket3 d), (inBucket4 d), (inBucket5 d);
    cbn in Hone; try discriminate Hone; cbn [List.length];
    specialize (IH (distribution_from ds 0 0 0 0 0)); lia.
Qed.

(** *** The default sort on timestamps *)

Lemma numDigits_fuel_bound (fuel : nat) : forall n : N,
  (n < 2 ^ N.of_nat fuel)%N -> (n < 10 ^ N.of_nat (numDigits_fuel fuel n))%N.
Proof.
  induction fuel as [| f IH]; intros n Hn.
  - simpl in *. lia.
  - cbn [numDigits_fuel]. destruct (N.ltb_spec n 10) as [Hlt | Hge].
    + simpl. lia.
    + assert (Hdiv : (n / 10 < 2 ^ N.of_nat f)%N).
      { rewrite Nat2N.inj_succ, N.pow_succ_r' in Hn.
        apply N.Div0.div_lt_upper_bound. lia. }
      specialize (IH _ Hdiv).
      rewrite Nat2N.inj_succ, N.pow_succ_r'.
      pose proof (N.Div0.div_mod n 10) as Hdm.
      pose proof (N.mod_upper_bound n 10 ltac:(lia)). lia.
Qed.

Lemma numDigits_bound (n : N) : (n < 10 ^ N.of_nat (numDigits n))%N.
Proof.
  apply numDigits_fuel_bound. rewrite N2Nat.id.
  destruct n as [| p]; [ reflexivity | ].
  apply N.size_gt.
Qed.

Lemma digitChar_compare (x y : N) :
  (x < 10)%N -> (y < 10)%N -> Ascii.compare (digitChar x) (digitChar y) = (x ?= y)%N.
Proof.
  intros Hx Hy. unfold Ascii.compare, digitChar.
  rewrite !N_ascii_embedding by lia.
  destruct (N.compare_spec x y) as [E | L | G];
    [ apply N.compare_eq_iff | apply N.compare_lt_iff | apply N.compare_gt_iff ]; lia.
Qed.

Lemma digits_w_compare (w : nat) : forall a b : N,
  (a < 10 ^ N.of_nat w)%N -> (b < 10 ^ N.of_nat w)%N ->
  String.compare (digits_w w a) (digits_w w b) = (a ?= b)%N.
Proof.
  induction w as [| w IH]; intros a b Ha Hb.
  - simpl in *. assert (a = 0%N) by lia. assert (b = 0%N) by lia. subst. reflexivity.
  - rewrite Nat2N.inj_succ, N.pow_succ_r' in Ha, Hb.
    set (m := (10 ^ N.of_nat w)%N) in *.
    assert (Hm : (0 < m)%N) by (subst m; apply N.neq_0_lt_0, N.pow_nonzero; lia).
    cbn [digits_w String.compare]. fold m.
    assert (IHm : forall a b, (a < m)%N -> (b < m)%N -> String.compare (digits_w w a) (digits_w w b) = (a ?= b)%N) by exact IH.
    clear IH. clearbody m.
    pose proof (N.Div0.div_mod a m) as Da. pose proof (N.Div0.div_mod b m) as Db.
    pose proof (N.mod_upper_bound a m ltac:(lia)) as Ma.
    pose proof (N.mod_upper_bound b m ltac:(lia)) as Mb.
    assert (Qa : (a / m < 10)%N) by (apply N.Div0.div_lt_upper_bound; lia).
    assert (Qb : (b / m < 10)%N) by (apply N.Div0.div_lt_upper_bound; lia).
    rewrite (digitChar_compare _ _ Qa Qb).
    destruct (N.compare_spec (a / m) (b / m)) as [E | L | G].
    + rewrite (IHm _ _ Ma Mb).
      rewrite E in Da.
      remember (m * (b / m))%N as Y. remember (a mod m)%N as ra.
      remember (b mod m)%N as rb.
      destruct (N.compare_spec ra rb) as [E' | L' | G']; symmetry.
      * apply N.compare_eq_iff. clear - Da Db E'. lia.
      * apply N.compare_lt_iff. clear - Da Db L'. lia.
      * apply N.compare_gt_iff. clear - Da Db G'. lia.
    + symmetry. apply N.compare_lt_iff.
      assert (Hk : (m * (a / m + 1) <= m * (b / m))%N) by (apply N.mul_le_mono_l; lia).
      rewrite N.mul_add_distr_l, N.mul_1_r in Hk.
      remember (m * (a / m))%N as X. remember (m * (b / m))%N as Y.
      remember (a mod m)%N as ra. remember (b mod m)%N as rb.
      clear - Da Db Ma Mb Hk. lia.
    + symmetry. apply N.compare_gt_iff.
      assert (Hk : (m * (b / m + 1) <= m * (a / m))%N) by (apply N.mul_le_mono_l; lia).
      rewrite N.mul_add_distr_l, N.mul_1_r in Hk.
      remember (m * (a / m))%N as X. remember (m * (b / m))%N as Y.
      remember (a mod m)%N as ra. remember (b mod m)%N as rb.
      clear - Da Db Ma Mb Hk. lia.
Qed.

Lemma default_before_leb (x y : N) :
  numDigits x = numDigits y -> default_before x y = (x <=? y)%N.
Proof.
  intro E. unfold default_before, ToString. rewrite <- E.
  rewrite digits_w_compare.
  - unfold N.leb. destruct (x ?= y)%N; reflexivity.
  - apply numDigits_bound.
  - rewrite E. apply numDigits_bound.
Qed.

Lemma sort_default_numeric (l : list N) :
  (forall x y, In x l -> In y l -> numDigits x = numDigits y) ->
  sort_default l = sort N.leb l /\ Sorted N.le (sort_default l).
Proof.
  intro H.
  assert (E : sort_default l = sort N.leb l).
  { apply sort_ext. intros x y Hx Hy. apply default_before_leb. apply H; assumption. }
  split; [ exact E | ]. rewrite E.
  apply sort_sorted.
  - intros x y Hxy. apply N.leb_le. exact Hxy.
  - intros x y Hxy. apply N.leb_gt in Hxy. lia.
Qed.

(** *** Triggers *)


Lemma filter_shift_length (f : nat -> bool) (k : nat) : forall s,
  List.length (filter f (seq (S s) k)) = List.length (filter (fun i => f (S i)) (seq s k)).
Proof.
  induction k as [| k IH]; intro s; simpl; [ reflexivity | ].
  destruct (f (S s)); simpl; rewrite IH; reflexivity.
Qed.

Lemma countClusters_closeSuccessors (timestamps : list N) :
  countClusters timestamps = closeSuccessors timestamps.
Proof.
  induction timestamps as [| a rest IH]; [ reflexivity | ].
  destruct rest as [| b rest]; [ reflexivity | ].
  change (countClusters (a :: b :: rest))
    with ((if (Z.of_N b - Z.of_N a <? 60000)%Z then 1 else 0) + countClusters (b :: rest))%nat.
  rewrite IH. unfold closeSuccessors.
  change (List.length (a :: b :: rest) - 1)%nat with (S (List.length rest)).
  change (List.length (b :: rest) - 1)%nat with (List.length rest - 0)%nat.
  rewrite Nat.sub_0_r.
  cbn [seq filter nth].
  destruct (Z.of_N b - Z.of_N a <? 60000)%Z; cbn [List.length];
    rewrite filter_shift_length; reflexivity.
Qed.

Lemma In_pushIf {A : Type} (cond : bool) (x y : A) (arr : list A) :
  In y (pushIf cond x arr) <-> In y arr \/ (cond = true /\ y = x).
Proof.
  unfold pushIf. destruct cond.
  - rewrite in_app_iff. simpl. intuition congruence.
  - intuition congruence.
Qed.

Lemma deployment_threshold (clusters n : nat) :
  gtb (ofNat clusters) (ofNat n * (3 # 10)) = true <-> (3 * n < 10 * clusters)%nat.
Proof.
  rewrite gtb_true_iff. unfold ofNat.
  assert (E : (3 * n < 10 * clusters)%nat
              <-> (3 * Z.of_nat n < 10 * Z.of_nat clusters)%Z) by lia.
  rewrite E, Zlt_Qlt, !inject_Z_mult.
  change (inject_Z 3) with 3. change (inject_Z 10) with 10.
  split; intro; lra.
Qed.

Section Triggers.
Local Open Scope string_scope.
Variables (coldStartEvents : list ColdStartData) (allInvocations : list LogEvent).

Lemma deployment_trigger_reported :
    In "Function deployments/updates" (identifyTriggers coldStartEvents allInvocations)
    <-> checkDeploymentPattern coldStartEvents = true.
Proof.
    unfold identifyTriggers.
    set (avg := averageGap _).
    set (t4 := pushIf (checkScalingPattern coldStartEvents) _ _).
    assert (H4 : In "Function deployments/updates" t4
                 <-> checkDeploymentPattern coldStartEvents = true).
    { subst t4. rewrite !In_pushIf. simpl. intuition (try discriminate; try congruence). }
    destruct t4 as [| x l] eqn:E.
    - simpl in *. intuition (try discriminate; try congruence).
    - exact H4.
Qed.

(** C5 (as amended).  For cold-start timestamps with the same number of
    decimal digits (every epoch-millisecond value between 2001 and 2286),
    the default sort arranges them in ascending order, and the trigger
    "Function deployments/updates" is reported exactly when there are at
    least three cold starts and more than 30% of them are followed, in
    that order, by a cold start less than 60000 ms later. *)
Theorem deployment_trigger_iff :
    (forall x y, In x coldStartEvents -> In y coldStartEvents ->
                 numDigits (timestamp x) = numDigits (timestamp y)) ->
    let timestamps := sort_default (map timestamp coldStartEvents) in
    let n := List.length coldStartEvents in
    Sorted N.le timestamps
    /\ Permutation (map timestamp coldStartEvents) timestamps
    /\ (In "Function deployments/updates" (identifyTriggers coldStartEvents allInvocations)
        <-> (3 <= n)%nat /\ (3 * n < 10 * closeSuccessors timestamps)%nat).
Proof.
    intros Hdigits timestamps n.
    assert (Hsort : Sorted N.le timestamps).
    { apply sort_default_numeric. intros x y Hx Hy.
      apply in_map_iff in Hx. apply in_map_iff in Hy.
      destruct Hx as (ex & <- & Hex). destruct Hy as (ey & <- & Hey).
      apply Hdigits; assumption. }
    split; [ exact Hsort | ]. split; [ apply sort_perm | ].
    rewrite deployment_trigger_reported. unfold checkDeploymentPattern.
    fold timestamps. fold n.
    assert (Hlen : List.length timestamps = n).
    { unfold timestamps, sort_default. rewrite sort_length. apply length_map. }
    rewrite Hlen, countClusters_closeSuccessors.
    destruct (Nat.ltb_spec n 3) as [Hlt | Hge].
    - split; [ discriminate | lia ].
    - rewrite deployment_threshold. split; [ intro; split; [ lia | assumption ] | tauto ].
Qed.

Lemma averageGap_few (l : list N) : (List.length l < 2)%nat -> averageGap (timeGaps l) = NaN.
Proof.
    destruct l as [| a [| b l]]; simpl; intro H; try reflexivity. lia.
Qed.

(** C10.  With fewer than two invocation events the average gap is [NaN],
    neither idle trigger is reported, and without the deployment and
    scaling triggers the result is the default list. *)
Theorem no_idle_trigger_below_two_invocations :
    (List.length allInvocations < 2)%nat ->
    averageGap (timeGaps (sort_default (map Logs.timestamp allInvocations))) = NaN
    /\ ~ In "Long idle periods (>15 minutes)" (identifyTriggers coldStartEvents allInvocations)
    /\ ~ In "Moderate idle periods (5-15 minutes)" (identifyTriggers coldStartEvents allInvocations)
    /\ (checkDeploymentPattern coldStartEvents = false ->
        checkScalingPattern coldStartEvents = false ->
        identifyTriggers coldStartEvents allInvocations = ["Normal Lambda lifecycle"]).
Proof.
    intro Hlen.
    assert (Havg : averageGap (timeGaps (sort_default (map Logs.timestamp allInvocations))) = NaN).
    { apply averageGap_few. unfold sort_default. rewrite sort_length, length_map. exact Hlen. }
    split; [ exact Havg | ].
    unfold identifyTriggers. rewrite Havg. cbn [number_gtb pushIf].
    destruct (checkDeploymentPattern coldStartEvents), (checkScalingPattern coldStartEvents);
      cbn; repeat split; intros; try discriminate; try reflexivity;
      intuition discriminate.
Qed.
End Triggers.

(** *** Request identifiers *)


Lemma stripPrefix_Some (lit : string) : forall s rest,
  stripPrefix lit s = Some rest <-> s = (lit ++ rest)%string.
Proof.
  induction lit as [| a lit IH]; intros s rest; simpl.
  - destruct s; split; intro H; congruence.
  - destruct s as [| b s]; [ split; intro H; discriminate | ].
    destruct (Ascii.eqb_spec a b) as [-> | Hne].
    + rewrite IH. split; intro H; congruence.
    + split; intro H; [ discriminate | congruence ].
Qed.

Lemma matchRequestIdAt_Some (s : string) :
  (exists id, matchRequestIdAt s = Some id)
  <-> exists c post, s = ("RequestId: " ++ String c post)%string /\ isWordOrDash c = true.
Proof.
  unfold matchRequestIdAt. split.
  - intros [id H].
    destruct (stripPrefix "RequestId: " s) as [rest |] eqn:E; [ | discriminate ].
    apply stripPrefix_Some in E.
    destruct rest as [| c post]; [ discriminate | ].
    simpl in H. destruct (isWordOrDash c) eqn:Ec; [ | discriminate ].
    exists c, post. split; assumption.
  - intros (c & post & -> & Hc).
    assert (E : stripPrefix "RequestId: " ("RequestId: " ++ String c post) = Some (String c post))
      by (apply stripPrefix_Some; reflexivity).
    rewrite E. cbn [takeWhile]. rewrite Hc. eexists. reflexivity.
Qed.

Lemma extractRequestId_None_iff (message : string) :
  extractRequestId message = None <-> ~ containsRequestIdToken message.
Proof.
  induction message as [| a message IH].
  - simpl. split; [ | reflexivity ].
    intros _ (pre & c & post & E & _). destruct pre; discriminate.
  - cbn [extractRequestId].
    destruct (matchRequestIdAt (String a message)) as [id |] eqn:M.
    + split; [ discriminate | ]. intro H. exfalso. apply H.
      destruct (proj1 (matchRequestIdAt_Some _) (ex_intro _ id M)) as (c & post & E & Hc).
      exists EmptyString, c, post. split; assumption.
    + rewrite IH. split; intros H (pre & c & post & E & Hc); apply H.
      * destruct pre as [| b pre].
        -- exfalso. simpl in E.
           destruct (proj2 (matchRequestIdAt_Some (String a message))) as [id Hid];
             [ exists c, post; split; assumption | congruence ].
        -- simpl in E. injection E as _ E. exists pre, c, post. split; assumption.
      * exists (String a pre), c, post. split; [ rewrite E; reflexivity | assumption ].
Qed.

(** *** The tracking operation *)


Section Tracking.
Local Open Scope string_scope.
Variable getHours : N -> nat.
Variable toLocaleTimeString : number -> string.
Variable matchInitDuration : string -> option Q.
Variable matchReport : string -> option Report.

Let track := trackColdStarts getHours toLocaleTimeString matchInitDuration matchReport.
Let extract := extractColdStartData matchInitDuration matchReport.
Let process := processEvents matchInitDuration matchReport.
Let loop := pageLoop matchInitDuration matchReport.

Lemma getRelatedEvents_normal (source : LogSource) (requestId : string) (t : N) :
    exists l, getRelatedEvents source requestId t = Normal l.
Proof.
    unfold getRelatedEvents. destruct (relatedAnswer source requestId t) as [r | e]; simpl; eauto.
Qed.

Lemma extractColdStartData_normal (source : LogSource) (event : LogEvent) :
    exists r, extract source event = Normal r.
Proof.
    subst extract. unfold extractColdStartData.
    destruct (extractRequestId (message event)) as [id |]; [ | simpl; eauto ].
    destruct (getRelatedEvents_normal source id (Logs.timestamp event)) as [l ->].
    simpl. eauto.
Qed.

Lemma getAllInvocations_normal (source : LogSource) :
    exists l, getAllInvocations source = Normal l.
Proof.
    unfold getAllInvocations. destruct (startAnswer source) as [r | e]; simpl; eauto.
Qed.

  (** The tracking operation always completes with the record built in its
      [try] block: the handler is never entered. *)
Lemma trackColdStarts_normal (source : LogSource) (now : Q) (functionName timeRange : string) :
    exists allInvocations,
      getAllInvocations source = Normal allInvocations
      /\ track source now functionName timeRange
         = let coldStartEvents := loop source (initStartAnswers source) [] in
           let analysis :=
             analyzeColdStartPatterns getHours coldStartEvents allInvocations timeRange in
           Normal
             {| total := List.length coldStartEvents;
                rate := calculateColdStartRate (List.length coldStartEvents)
                          (List.length allInvocations);
                avgDuration := a_avgDuration analysis;
                maxDuration := a_maxDuration analysis;
                minDuration := a_minDuration analysis;
                peakHours := a_peakHours analysis;
                frequency := a_frequency analysis;
                triggers := a_triggers analysis;
                recommendations := generateRecommendations analysis;
                timeline := createTimeline toLocaleTimeString now coldStartEvents timeRange;
                patterns := a_patterns analysis;
                statistics := a_statistics analysis |}.
Proof.
    destruct (getAllInvocations_normal source) as [inv Hinv].
    exists inv. split; [ exact Hinv | ].
    subst track. unfold trackColdStarts, getColdStartEvents.
    cbn [bind]. rewrite Hinv. reflexivity.
Qed.

Lemma default_range (timeRange : string) :
    ~ In timeRange ["1h"; "6h"; "24h"; "7d"] ->
    ~ In timeRange objectPrototypeMembers ->
    parseTimeRange timeRange = VNumber 86400000.
Proof.
    intros Hown Hproto. unfold parseTimeRange, getProperty at 1.
    assert (E1 : ownProperty ranges timeRange = None).
    { unfold ranges. cbn [ownProperty].
      repeat match goal with
             | |- context [String.eqb ?k timeRange] =>
                 destruct (String.eqb_spec k timeRange) as [<- | _];
                 [ exfalso; apply Hown; simpl; tauto | ]
             end.
      reflexivity. }
    assert (E2 : existsb (String.eqb timeRange) objectPrototypeMembers = false).
    { destruct (existsb (String.eqb timeRange) objectPrototypeMembers) eqn:E; [ | reflexivity ].
      apply existsb_exists in E. destruct E as (x & Hx & Heq).
      apply String.eqb_eq in Heq. subst x. contradiction. }
    rewrite E1, E2. reflexivity.
Qed.

Lemma analyzer_default_range (timeRange : string) :
    ~ In timeRange ["1h"; "6h"; "24h"; "7d"; "30d"] ->
    ~ In timeRange objectPrototypeMembers ->
    LambdaAnalyzer.parseTimeRange timeRange = VNumber 86400000.
Proof.
    intros Hown Hproto. unfold LambdaAnalyzer.parseTimeRange, getProperty at 1.
    assert (E1 : ownProperty LambdaAnalyzer.ranges timeRange = None).
    { unfold LambdaAnalyzer.ranges. cbn [ownProperty].
      repeat match goal with
             | |- context [String.eqb ?k timeRange] =>
                 destruct (String.eqb_spec k timeRange) as [<- | _];
                 [ exfalso; apply Hown; simpl; tauto | ]
             end.
      reflexivity. }
    assert (E2 : existsb (String.eqb timeRange) objectPrototypeMembers = false).
    { destruct (existsb (String.eqb timeRange) objectPrototypeMembers) eqn:E; [ | reflexivity ].
      apply existsb_exists in E. destruct E as (x & Hx & Heq).
      apply String.eqb_eq in Heq. subst x. contradiction. }
    rewrite E1, E2. reflexivity.
Qed.

(** C2 (as amended).  The tracking operation never rejects a request: for
    every time-range argument it completes normally.  An argument that is
    not one of the tokens 1h, 6h, 24h, 7d (and does not name a member of
    [Object.prototype]) is read as 24 hours, by the analyzer too unless it
    is its fifth token 30d, and the result is the one obtained for "24h". *)
Theorem unrecognized_time_range_defaults
      (source : LogSource) (now : Q) (functionName timeRange : string) :
    (exists result, track source now functionName timeRange = Normal result)
    /\ (~ In timeRange ["1h"; "6h"; "24h"; "7d"] ->
        ~ In timeRange objectPrototypeMembers ->
        parseTimeRange timeRange = VNumber 86400000
        /\ parseTimeRange timeRange = parseTimeRange "24h"
        /\ (timeRange <> "30d" -> LambdaAnalyzer.parseTimeRange timeRange = VNumber 86400000)
        /\ track source now functionName timeRange = track source now functionName "24h").
Proof.
    split.
    - destruct (trackColdStarts_normal source now functionName timeRange) as (inv & _ & ->).
      eexists. reflexivity.
    - intros Hown Hproto. pose proof (default_range timeRange Hown Hproto) as E.
      split; [ exact E | ]. split; [ rewrite E; reflexivity | ].
      split.
      { intro H30. apply analyzer_default_range; [ | exact Hproto ].
        simpl in *. intuition congruence. }
      destruct (trackColdStarts_normal source now functionName timeRange) as (inv & Hinv & ->).
      destruct (trackColdStarts_normal source now functionName "24h") as (inv' & Hinv' & ->).
      assert (inv' = inv) by congruence. subst inv'.
      cbv zeta. f_equal.
      unfold createTimeline, getTimelinePeriods. rewrite E. reflexivity.
Qed.

Lemma rate_of_no_cold_start (t : nat) : (calculateColdStartRate 0 t == 0)%Q.
Proof.
    destruct (rate_bounds 0 t) as (Hlo & Hhi & Hz).
    destruct t as [| t]; [ rewrite Hz by reflexivity; reflexivity | ].
    apply Qle_antisym; [ | exact Hlo ].
    unfold calculateColdStartRate. cbn [Nat.eqb].
    assert (E : (ofNat 0 / ofNat (S t) * 100 * 100 == 0)%Q).
    { unfold Qdiv. change (ofNat 0) with 0%Q. ring. }
    unfold Math_round. rewrite E. vm_compute. discriminate.
Qed.

Lemma timeline_length (now : Q) (coldStartEvents : list ColdStartData) (timeRange : string) :
    List.length (createTimeline toLocaleTimeString now coldStartEvents timeRange) = 24%nat.
Proof.
    unfold createTimeline, getTimelinePeriods. rewrite !length_map, length_seq. reflexivity.
Qed.

(** C8, on the code.  When the first request of the INIT_START scan throws,
    the tracking operation completes normally, but not with the empty
    result: all counts and durations are zero, the frequency is
    "No cold starts detected", the recommendations are the two general
    ones and the timeline has 24 periods. *)
Theorem telemetry_failure_is_not_the_empty_result
      (source : LogSource) (failure : Error) (now : Q) (functionName timeRange : string) :
    initStartAnswers source = Fails failure ->
    exists result,
      track source now functionName timeRange = Normal result
      /\ total result = 0%nat /\ (rate result == 0)%Q
      /\ avgDuration result = 0%Z /\ maxDuration result = 0%Z /\ minDuration result = 0%Z
      /\ count (statistics result) = 0%nat
      /\ frequency result = "No cold starts detected"
      /\ recommendations result
         = [ "Consider using ARM-based Graviton2 processors for better price-performance";
             "Ensure you're using the latest runtime version for optimal performance" ]
      /\ List.length (timeline result) = 24%nat
      /\ frequency result <> frequency getEmptyResult
      /\ recommendations result <> recommendations getEmptyResult
      /\ result <> getEmptyResult.
Proof.
    intro Hfail.
    destruct (trackColdStarts_normal source now functionName timeRange) as (inv & _ & E).
    rewrite Hfail in E. subst loop. cbn [pageLoop] in E. cbv zeta in E.
    eexists. split; [ exact E | ].
    cbn [total rate avgDuration maxDuration minDuration statistics frequency recommendations
         timeline List.length analyzeColdStartPatterns getEmptyAnalysis
         a_avgDuration a_maxDuration a_minDuration a_statistics a_frequency count].
    repeat match goal with |- _ /\ _ => split end;
      try reflexivity; try discriminate.
    apply rate_of_no_cold_start.
Qed.

Lemma extract_without_token (source : LogSource) (e : LogEvent) :
    ~ containsRequestIdToken (message e) -> extract source e = Normal None.
Proof.
    intro H. apply extractRequestId_None_iff in H.
    subst extract. unfold extractColdStartData. rewrite H. reflexivity.
Qed.

Lemma process_without (source : LogSource) (e : LogEvent) (l1 l2 : list LogEvent) :
    extract source e = Normal None ->
    forall acc, process source (l1 ++ e :: l2) acc = process source (l1 ++ l2) acc.
Proof.
    intro He. subst process extract.
    induction l1 as [| x l1 IH]; intro acc; cbn [app processEvents].
    - rewrite He. reflexivity.
    - destruct (extractColdStartData matchInitDuration matchReport source x) as [[d |] | err];
        [ apply IH | apply IH | reflexivity ].
Qed.

Lemma loop_without (source : LogSource) (e : LogEvent) (pages pages' : Pages) :
    extract source e = Normal None ->
    PagesWithout e pages pages' ->
    forall acc, loop source pages acc = loop source pages' acc.
Proof.
    intros He Hw. subst loop.
    induction Hw as [l1 l2 | l1 l2 rest | events rest rest' Hw IH]; intro acc;
      cbn [pageLoop eventsOrEmpty].
    - fold process. rewrite (process_without source e l1 l2 He). reflexivity.
    - fold process. rewrite (process_without source e l1 l2 He). reflexivity.
    - destruct (processEvents matchInitDuration matchReport source (eventsOrEmpty events) acc)
        as [acc' [err |]]; [ reflexivity | apply IH ].
Qed.

Lemma loop_withAnswers (source : LogSource) (pages : Pages) :
    forall answers acc, loop (withAnswers source pages) answers acc = loop source answers acc.
Proof. reflexivity. Qed.

(** C9.  An INIT_START event whose message has no [RequestId: <identifier>]
    token yields no cold-start record and no error: the events collected,
    and with them the total, the statistics, the patterns and every other
    field of the result, are those obtained from the same log source with
    that event left out. *)
Theorem init_start_without_request_id_is_skipped
      (source : LogSource) (pages' : Pages) (e : LogEvent)
      (now : Q) (functionName timeRange : string) :
    ~ containsRequestIdToken (message e) ->
    PagesWithout e (initStartAnswers source) pages' ->
    extract source e = Normal None
    /\ getColdStartEvents matchInitDuration matchReport source
       = getColdStartEvents matchInitDuration matchReport (withAnswers source pages')
    /\ track source now functionName timeRange
       = track (withAnswers source pages') now functionName timeRange
    /\ exists result, track source now functionName timeRange = Normal result.
Proof.
    intros Htoken Hw.
    pose proof (extract_without_token source e Htoken) as He.
    assert (Hloop : loop source (initStartAnswers source) []
                    = loop (withAnswers source pages') pages' []).
    { rewrite loop_withAnswers. apply loop_without with e; assumption. }
    split; [ exact He | ]. split.
    - unfold getColdStartEvents. f_equal. exact Hloop.
    - split.
      + destruct (trackColdStarts_normal source now functionName timeRange) as (inv & Hinv & ->).
        destruct (trackColdStarts_normal (withAnswers source pages') now functionName timeRange)
          as (inv' & Hinv' & ->).
        assert (inv' = inv) by (change (getAllInvocations (withAnswers source pages'))
                                  with (getAllInvocations source) in Hinv'; congruence).
        subst inv'. cbn [initStartAnswers withAnswers]. rewrite <- Hloop. reflexivity.
      + destruct (trackColdStarts_normal source now functionName timeRange) as (inv & _ & ->).
        eexists. reflexivity.
Qed.
End Tracking.

(** *** The analyzer's helpers *)

Lemma analyzer_rate_guard (coldStarts : Q) :
  LambdaAnalyzer.calculateColdStartRate coldStarts (Num 0) = 0
  /\ LambdaAnalyzer.calculateColdStartRate coldStarts NaN = 0.
Proof. split; reflexivity. Qed.

Lemma analyzer_rate_agrees (c t : nat) :
  (0 < t)%nat ->
  LambdaAnalyzer.calculateColdStartRate (ofNat c) (Num (ofNat t)) = calculateColdStartRate c t.
Proof.
  intro Ht. unfold LambdaAnalyzer.calculateColdStartRate, calculateColdStartRate.
  destruct (Nat.eqb_spec t 0) as [E | _]; [ lia | ].
  destruct (Qeq_bool (ofNat t) 0) eqn:E; [ | reflexivity ].
  apply Qeq_bool_iff in E. pose proof (ofNat_pos t Ht). lra.
Qed.

(** The analyzer classifies the unrounded ratio, with "High" from 20%, and
    divides by zero without a guard. *)
Lemma analyzer_frequency_samples :
  LambdaAnalyzer.determineColdStartFrequency 21 100 = "High"%string
  /\ LambdaAnalyzer.determineColdStartFrequency 1 0 = "Very High"%string
  /\ LambdaAnalyzer.determineColdStartFrequency 0 0 = "Very Low"%string.
Proof. repeat split; reflexivity. Qed.

(** *** Instances and counterexamples *)

Import Examples.



(** C2, counterexample: the unrecognized token "2h" is not rejected; it is
    read as 24 hours and the operation completes. *)
Lemma unrecognized_time_range_not_rejected :
  ~ In "2h"%string ["1h"; "6h"; "24h"; "7d"]%string
  /\ parseTimeRange "2h" = VNumber 86400000
  /\ LambdaAnalyzer.parseTimeRange "2h" = VNumber 86400000
  /\ (forall failure : Error,
        trackColdStarts utcHours epochLabel readInitDuration readReport
          onePageSource 1700003600000 "orders" "2h" <> Throw failure)
  /\ trackColdStarts utcHours epochLabel readInitDuration readReport
       onePageSource 1700003600000 "orders" "2h"
     = trackColdStarts utcHours epochLabel readInitDuration readReport
         onePageSource 1700003600000 "orders" "24h".
Proof.
  split; [ simpl; intuition discriminate | ].
  split; [ reflexivity | ]. split; [ reflexivity | ].
  split; [ intro failure; vm_compute; discriminate | vm_compute; reflexivity ].
Qed.

Lemma unrecognized_time_range_defaults_witness :
  parseTimeRange "2h" = VNumber 86400000
  /\ trackColdStarts utcHours epochLabel readInitDuration readReport
       onePageSource 1700003600000 "orders" "2h"
     = trackColdStarts utcHours epochLabel readInitDuration readReport
         onePageSource 1700003600000 "orders" "24h".
Proof.
  destruct (unrecognized_time_range_defaults utcHours epochLabel readInitDuration readReport
              onePageSource 1700003600000 "orders" "2h") as [_ H].
  destruct H as (H1 & _ & _ & H3).
  - simpl. intuition discriminate.
  - simpl. intuition discriminate.
  - split; [ exact H1 | exact H3 ].
Defined.

(** C3, counterexample: with one cold start and no invocation the class is
    "Very Low (<5%)", not a no-data class; and 51 cold starts in 1019
    invocations, a rate above 5%, are classed "Very Low (<5%)" too. *)
Lemma frequency_not_by_exact_rate :
  determineColdStartFrequency (repeat (coldStartAt 1700000000000 None) 1) [] "24h"
  = "Very Low (<5%)"%string
  /\ "Very Low (<5%)"%string <> "No data"%string
  /\ 5 < 100 * ofNat 51 / ofNat 1019
  /\ determineColdStartFrequency (repeat (coldStartAt 1700000000000 None) 51)
       (repeat startEvent 1019) "24h"
     = "Very Low (<5%)"%string
  /\ "Very Low (<5%)"%string <> "Low (5-10%)"%string.
Proof.
  split; [ reflexivity | ]. split; [ discriminate | ].
  split; [ reflexivity | ]. split; [ vm_compute; reflexivity | discriminate ].
Qed.

Lemma frequency_by_rounded_rate_witness :
  determineColdStartFrequency (repeat (coldStartAt 1700000000000 None) 1)
    (repeat startEvent 2) "24h"
  = "High (25-50%)"%string.
Proof.
  destruct (frequency_by_rounded_rate (repeat (coldStartAt 1700000000000 None) 1)
              (repeat startEvent 2) "24h") as [_ H].
  destruct H as (_ & H & _); [ simpl; lia | ].
  apply H; vm_compute; [ discriminate | reflexivity ].
Defined.

(** C4, counterexample: three cold starts against two invocations give a
    rate of 150. *)
Lemma cold_start_rate_above_100 :
  calculateColdStartRate 3 2 == 150 /\ ~ (calculateColdStartRate 3 2 <= 100).
Proof.
  split; [ reflexivity | ]. intro H. vm_compute in H. apply H. reflexivity.
Qed.

Lemma cold_start_rate_bounds_witness :
  0 <= calculateColdStartRate 1 4 <= 100 /\ calculateColdStartRate 1 0 = 0.
Proof.
  destruct (cold_start_rate_bounds 1 4) as (H1 & H2 & _).
  destruct (cold_start_rate_bounds 1 0) as (_ & _ & H3).
  split; [ split; [ exact H1 | apply H2; lia ] | apply H3; reflexivity ].
Defined.

(** C5, counterexample: of two cold starts 30 seconds apart, one (50%) has
    a successor within 60 seconds, and the trigger is not reported. *)
Lemma deployment_trigger_needs_three :
  closeSuccessors (sort_default (map timestamp twoClose)) = 1%nat
  /\ (3 * List.length twoClose < 10 * 1)%nat
  /\ ~ In "Function deployments/updates"%string (identifyTriggers twoClose [])
  /\ identifyTriggers twoClose [] = ["Normal Lambda lifecycle"%string].
Proof.
  split; [ reflexivity | ]. split; [ simpl; lia | ].
  split; [ vm_compute; intuition discriminate | reflexivity ].
Qed.

Lemma deployment_trigger_iff_witness :
  In "Function deployments/updates"%string (identifyTriggers threeClose []).
Proof.
  assert (Hd : forall x y, In x threeClose -> In y threeClose ->
                 numDigits (timestamp x) = numDigits (timestamp y)).
  { intros x y Hx Hy. simpl in Hx, Hy.
    destruct Hx as [<- | [<- | [<- | []]]]; destruct Hy as [<- | [<- | [<- | []]]];
      reflexivity. }
  destruct (deployment_trigger_iff threeClose [] Hd) as (_ & _ & H).
  apply H. split; [ simpl; lia | vm_compute; lia ].
Defined.



Lemma duration_distribution_partition_witness :
  List.length (filter (fun b : bool => b) (bucketsOf 500)) = 1%nat
  /\ createDurationDistribution [500; 501; 6000]
     = [ ("0-500ms", 1); ("500-1000ms", 1); ("1000-2000ms", 0);
         ("2000-5000ms", 0); ("5000ms+", 1) ]%string%nat.
Proof.
  destruct (duration_distribution_partition [500; 501; 6000]) as (H1 & H2 & _).
  split; [ apply H2; simpl; left; reflexivity | rewrite H1; reflexivity ].
Defined.

Lemma telemetry_failure_witness :
  exists result,
    trackColdStarts utcHours epochLabel readInitDuration readReport
      deniedSource 1700003600000 "orders" "24h" = Normal result
    /\ frequency result = "No cold starts detected"%string
    /\ result <> getEmptyResult.
Proof.
  destruct (telemetry_failure_is_not_the_empty_result utcHours epochLabel readInitDuration
              readReport deniedSource AccessDenied 1700003600000 "orders" "24h" eq_refl)
    as (result & H).
  exists result. tauto.
Defined.

Lemma init_start_without_request_id_witness :
  trackColdStarts utcHours epochLabel readInitDuration readReport
    onePageSource 1700003600000 "orders" "24h"
  = trackColdStarts utcHours epochLabel readInitDuration readReport
      (withAnswers onePageSource (Last (Some [initWithId]))) 1700003600000 "orders" "24h".
Proof.
  assert (Htoken : ~ containsRequestIdToken (message initWithoutId)).
  { apply extractRequestId_None_iff. reflexivity. }
  assert (Hw : PagesWithout initWithoutId (initStartAnswers onePageSource)
                 (Last (Some [initWithId]))).
  { exact (without_last initWithoutId [initWithId] []). }
  destruct (init_start_without_request_id_is_skipped utcHours epochLabel readInitDuration
              readReport onePageSource (Last (Some [initWithId])) initWithoutId
              1700003600000 "orders" "24h" Htoken Hw) as (_ & _ & H & _).
  exact H.
Defined.

Lemma no_idle_trigger_witness :
  identifyTriggers twoClose [startEvent] = ["Normal Lambda lifecycle"%string].
Proof.
  destruct (no_idle_trigger_below_two_invocations twoClose [startEvent]) as (_ & _ & _ & H).
  - simpl. lia.
  - apply H; reflexivity.
Defined.

(** ** Further facts about the tracker *)

(** *** Hourly distribution *)

Lemma incrementAt_length (h : nat) (d : list nat) :
  List.length (incrementAt h d) = List.length d.
Proof.
  revert h. induction d as [| x d IH]; intros [| h]; simpl; try reflexivity.
  rewrite IH. reflexivity.
Qed.

Lemma incrementAt_nth (d : list nat) : forall h i,
  (h < List.length d)%nat ->
  nth i (incrementAt h d) 0%nat = (nth i d 0 + (if Nat.eqb h i then 1 else 0))%nat.
Proof.
  induction d as [| x d IH]; intros h i Hh; simpl in Hh; [ lia | ].
  destruct h as [| h], i as [| i]; simpl; try lia.
  apply IH. lia.
Qed.

Lemma incrementAt_total (d : list nat) : forall h,
  (h < List.length d)%nat -> total_of (incrementAt h d) = S (total_of d).
Proof.
  induction d as [| x d IH]; intros h Hh; simpl in Hh; [ lia | ].
  destruct h as [| h]; simpl; [ reflexivity | ].
  rewrite IH by lia. lia.
Qed.

Section HourlyDistribution.
Variable getHours : N -> nat.

Lemma hourly_fold (coldStartEvents : list ColdStartData) : forall d,
  List.length d = 24%nat ->
  Forall (fun e => (getHours (timestamp e) < 24)%nat) coldStartEvents ->
  let d' := fold_left (fun distribution event =>
                         incrementAt (getHours (timestamp event)) distribution)
                      coldStartEvents d in
  List.length d' = 24%nat
  /\ total_of d' = (total_of d + List.length coldStartEvents)%nat
  /\ forall h, nth h d' 0%nat = (nth h d 0 + eventsInHour getHours h coldStartEvents)%nat.
Proof.
  induction coldStartEvents as [| e es IH]; intros d Hd Hall; cbn [fold_left].
  - unfold eventsInHour. simpl. repeat split; intros; lia.
  - inversion Hall as [| ? ? He Hes]; subst.
    destruct (IH (incrementAt (getHours (timestamp e)) d)) as (H1 & H2 & H3).
    + rewrite incrementAt_length. exact Hd.
    + exact Hes.
    + split; [ exact H1 | ]. split.
      * rewrite H2, incrementAt_total by lia. simpl. lia.
      * intro h. rewrite H3, incrementAt_nth by lia.
        unfold eventsInHour. cbn [filter].
        destruct (Nat.eqb (getHours (timestamp e)) h); simpl; lia.
Qed.

(** X1.  When every local hour is between 0 and 23, the hourly distribution
    has 24 slots, slot [h] holds the number of cold starts of hour [h], and
    the slots add up to the number of cold starts. *)
Theorem hourly_distribution_counts (coldStartEvents : list ColdStartData) :
  Forall (fun e => (getHours (timestamp e) < 24)%nat) coldStartEvents ->
  let distribution := analyzeHourlyDistribution getHours coldStartEvents in
  List.length distribution = 24%nat
  /\ (forall h, nth h distribution 0%nat = eventsInHour getHours h coldStartEvents)
  /\ total_of distribution = List.length coldStartEvents.
Proof.
  intros Hall distribution.
  destruct (hourly_fold coldStartEvents (repeat 0%nat 24) eq_refl Hall) as (H1 & H2 & H3).
  split; [ exact H1 | ]. split.
  - intro h. unfold distribution, analyzeHourlyDistribution. rewrite H3.
    assert (E : nth h (repeat 0%nat 24) 0%nat = 0%nat) by apply nth_repeat.
    rewrite E. reflexivity.
  - unfold distribution, analyzeHourlyDistribution. rewrite H2. reflexivity.
Qed.
End HourlyDistribution.

(** *** Peak hours *)

Lemma ranksBefore_trans (a b c : nat * nat) :
  ranksBefore a b -> ranksBefore b c -> ranksBefore a c.
Proof. unfold ranksBefore. intros [H1 | [H1 H1']] [H2 | [H2 H2']]; lia. Qed.

Lemma insert_ranked (x : nat * nat) (l : list (nat * nat)) :
  StronglySorted ranksBefore l ->
  Forall (fun y => (fst x < fst y)%nat) l ->
  StronglySorted ranksBefore (insert (fun a b : nat * nat => (snd b <=? snd a)%nat) x l).
Proof.
  induction l as [| y l IH]; intros Hs Hx; simpl.
  - constructor; constructor.
  - inversion Hs as [| ? ? Hs' Hy]; subst. inversion Hx as [| ? ? Hxy Hxl]; subst.
    destruct (Nat.leb_spec (snd y) (snd x)) as [Hle | Hgt].
    + assert (Hr : ranksBefore x y) by (unfold ranksBefore; lia).
      constructor; [ exact Hs | ]. constructor; [ exact Hr | ].
      eapply Forall_impl; [ | exact Hy ]. intros z Hz.
      apply ranksBefore_trans with y; assumption.
    + constructor; [ apply IH; assumption | ].
      apply (Permutation_Forall (insert_perm _ x l)).
      constructor; [ unfold ranksBefore; lia | exact Hy ].
Qed.

Lemma sort_ranked (l : list (nat * nat)) :
  StronglySorted (fun a b => (fst a < fst b)%nat) l ->
  StronglySorted ranksBefore (sort (fun a b : nat * nat => (snd b <=? snd a)%nat) l).
Proof.
  induction 1 as [| x l Hs IH Hx]; simpl.
  - constructor.
  - apply insert_ranked; [ exact IH | ].
    apply (Permutation_Forall (sort_perm _ l)). exact Hx.
Qed.

Lemma combine_seq_sorted (d : list nat) : forall s,
  StronglySorted (fun a b : nat * nat => (fst a < fst b)%nat) (combine (seq s (List.length d)) d)
  /\ Forall (fun y : nat * nat => (s <= fst y)%nat) (combine (seq s (List.length d)) d).
Proof.
  induction d as [| x d IH]; intro s; simpl.
  - split; constructor.
  - destruct (IH (S s)) as [H1 H2]. split.
    + constructor; [ exact H1 | ].
      eapply Forall_impl; [ | exact H2 ]. simpl. intros; lia.
    + constructor; [ simpl; lia | ].
      eapply Forall_impl; [ | exact H2 ]. simpl. intros; lia.
Qed.

Lemma filter_strongly_sorted {A : Type} (R : A -> A -> Prop) (f : A -> bool) (l : list A) :
  StronglySorted R l -> StronglySorted R (filter f l).
Proof.
  induction 1 as [| x l Hs IH Hx]; simpl; [ constructor | ].
  destruct (f x); [ | exact IH ].
  constructor; [ exact IH | ].
  apply Forall_forall. intros y Hy. apply filter_In in Hy.
  rewrite Forall_forall in Hx. apply Hx. tauto.
Qed.

Lemma no_busy_hour_iff (d : list nat) : forall s,
  List.length (filter (fun item : nat * nat => (0 <? snd item)%nat)
                 (combine (seq s (List.length d)) d)) = 0%nat
  <-> Forall (fun c => c = 0%nat) d.
Proof.
  induction d as [| c d IH]; intro s; simpl.
  - split; [ constructor | reflexivity ].
  - destruct c as [| c]; simpl.
    + rewrite IH. split; [ intro; constructor; auto | intro H; inversion H; assumption ].
    + split; [ discriminate | intro H; inversion H; discriminate ].
Qed.

(** X2.  The peak hours are the labels of the first three busy hours in the
    ranking by higher count, then lower hour: at most three labels, none
    when no hour has a cold start. *)
Theorem peak_hours_are_top_three (hourlyDistribution : list nat) :
  exists ranked : list (nat * nat),
    Permutation (busyHours hourlyDistribution) ranked
    /\ StronglySorted ranksBefore ranked
    /\ findPeakHours hourlyDistribution = map hourLabel (firstn 3 ranked)
    /\ List.length (findPeakHours hourlyDistribution)
       = Nat.min 3 (List.length (busyHours hourlyDistribution))
    /\ (findPeakHours hourlyDistribution = [] <-> Forall (fun c => c = 0%nat) hourlyDistribution).
Proof.
  set (before := fun a b : nat * nat => (snd b <=? snd a)%nat).
  exists (sort before (busyHours hourlyDistribution)).
  assert (Hperm : Permutation (busyHours hourlyDistribution)
                    (sort before (busyHours hourlyDistribution))) by apply sort_perm.
  assert (Hlen : List.length (findPeakHours hourlyDistribution)
                 = Nat.min 3 (List.length (busyHours hourlyDistribution))).
  { unfold findPeakHours. fold before. fold (busyHours hourlyDistribution).
    rewrite length_map, length_firstn, sort_length. reflexivity. }
  split; [ exact Hperm | ]. split.
  { apply sort_ranked. apply filter_strongly_sorted.
    apply (combine_seq_sorted hourlyDistribution 0). }
  split; [ reflexivity | ]. split; [ exact Hlen | ].
  rewrite <- length_zero_iff_nil, Hlen.
  pose proof (no_busy_hour_iff hourlyDistribution 0) as E. fold (busyHours hourlyDistribution) in E.
  rewrite <- E. lia.
Qed.

(** *** Triggers and recommendations *)

Section TriggerShape.
Local Open Scope string_scope.
Variables (coldStartEvents : list ColdStartData) (allInvocations : list LogEvent).

Lemma triggers_known :
  let triggers := identifyTriggers coldStartEvents allInvocations in
  triggers <> []
  /\ incl triggers
       [ "Long idle periods (>15 minutes)"; "Moderate idle periods (5-15 minutes)";
         "Function deployments/updates"; "Auto-scaling events"; "Normal Lambda lifecycle" ]
  /\ (In "Auto-scaling events" triggers <-> (10 < List.length coldStartEvents)%nat)
  /\ (In "Long idle periods (>15 minutes)" triggers ->
      In "Moderate idle periods (5-15 minutes)" triggers)
  /\ (In "Normal Lambda lifecycle" triggers <-> triggers = ["Normal Lambda lifecycle"]).
Proof.
  unfold identifyTriggers.
  set (avg := averageGap _).
  assert (Himp : number_gtb avg (15 * 60 * 1000) = true -> number_gtb avg (5 * 60 * 1000) = true).
  { destruct avg as [q |]; simpl; [ | discriminate ].
    rewrite !gtb_true_iff. intro H. lra. }
  assert (Hscale : checkScalingPattern coldStartEvents = true
                   <-> (10 < List.length coldStartEvents)%nat).
  { unfold checkScalingPattern. apply Nat.ltb_lt. }
  destruct (number_gtb avg (15 * 60 * 1000)) eqn:B1;
    destruct (number_gtb avg (5 * 60 * 1000)) eqn:B2;
    try (specialize (Himp eq_refl); discriminate Himp);
    destruct (checkDeploymentPattern coldStartEvents);
    destruct (checkScalingPattern coldStartEvents);
    cbn [pushIf app];
    (split; [ discriminate | ]);
    (split; [ intros x Hx; simpl in *; tauto | ]);
    (split; [ rewrite <- Hscale; simpl; intuition discriminate | ]);
    (split; [ simpl; intuition discriminate | simpl; intuition (try discriminate; try congruence) ]).
Qed.

(** X3.  The trigger list is never empty and holds only the five known
    labels; the scaling trigger is reported exactly for more than ten cold
    starts; the long-idle trigger never comes without the moderate-idle
    one; and the default label only ever stands alone. *)
Theorem triggers_shape :
  let triggers := identifyTriggers coldStartEvents allInvocations in
  triggers <> []
  /\ incl triggers
       [ "Long idle periods (>15 minutes)"; "Moderate idle periods (5-15 minutes)";
         "Function deployments/updates"; "Auto-scaling events"; "Normal Lambda lifecycle" ]
  /\ (In "Auto-scaling events" triggers <-> (10 < List.length coldStartEvents)%nat)
  /\ (In "Long idle periods (>15 minutes)" triggers ->
      In "Moderate idle periods (5-15 minutes)" triggers)
  /\ (In "Normal Lambda lifecycle" triggers <-> triggers = ["Normal Lambda lifecycle"]).
Proof. exact triggers_known. Qed.
End TriggerShape.

Lemma triggers_never_plain_long_idle
    (coldStartEvents : list ColdStartData) (allInvocations : list LogEvent) :
  existsb (String.eqb "Long idle periods") (identifyTriggers coldStartEvents allInvocations)
  = false.
Proof.
  destruct (existsb _ _) eqn:E; [ | reflexivity ].
  apply existsb_exists in E. destruct E as (x & Hx & Heq).
  apply String.eqb_eq in Heq. subst x.
  destruct (triggers_known coldStartEvents allInvocations) as (_ & Hincl & _).
  apply Hincl in Hx. simpl in Hx. intuition discriminate.
Qed.

Section RecommendationShape.
Local Open Scope string_scope.
Variable getHours : N -> nat.
Variables (coldStartEvents : list ColdStartData) (allInvocations : list LogEvent)
          (timeRange : string).
Let analysis := analyzeColdStartPatterns getHours coldStartEvents allInvocations timeRange.
Let recs := generateRecommendations analysis.

Lemma analysis_triggers_no_plain_long_idle :
  existsb (String.eqb "Long idle periods") (a_triggers analysis) = false.
Proof.
  subst analysis. unfold analyzeColdStartPatterns.
  destruct coldStartEvents as [| e es]; [ reflexivity | ].
  cbn [a_triggers]. apply triggers_never_plain_long_idle.
Qed.

Lemma analysis_frequency_high :
  includes "High" (a_frequency analysis) || includes "Very High" (a_frequency analysis) = true
  <-> coldStartEvents <> []
      /\ (25 < calculateColdStartRate (List.length coldStartEvents)
                  (List.length allInvocations))%Q.
Proof.
  subst analysis. unfold analyzeColdStartPatterns.
  destruct coldStartEvents as [| e es] eqn:E.
  - cbn. split; [ discriminate | intros [H _]; congruence ].
  - cbn [a_frequency]. unfold determineColdStartFrequency.
    set (r := calculateColdStartRate _ _).
    destruct (gtb r 50) eqn:G50; [ | destruct (gtb r 25) eqn:G25;
      [ | destruct (gtb r 10) eqn:G10; [ | destruct (gtb r 5) eqn:G5 ] ] ];
      repeat match goal with
             | H : gtb _ _ = true |- _ => apply gtb_true_iff in H
             | H : gtb _ _ = false |- _ => apply gtb_false_iff in H
             end;
      cbn; split; intro H; try discriminate H; try (split; [ discriminate | lra ]);
      destruct H as [_ H]; lra.
Qed.

(** X4.  The recommendations for an analysis always end with the two
    general ones; the Provisioned Concurrency recommendation is given
    exactly when there are cold starts and their rounded rate exceeds 25;
    and the keep-warm recommendation is never given, because no trigger is
    spelled "Long idle periods". *)
Theorem recommendations_shape :
  (exists front,
     recs = (front ++
       [ "Consider using ARM-based Graviton2 processors for better price-performance";
         "Ensure you're using the latest runtime version for optimal performance" ])%list)
  /\ (In "Consider implementing Provisioned Concurrency to reduce cold starts" recs
      <-> coldStartEvents <> []
          /\ (25 < calculateColdStartRate (List.length coldStartEvents)
                      (List.length allInvocations))%Q)
  /\ ~ In "Implement keep-warm strategies or use EventBridge scheduled events" recs.
Proof.
  subst recs. unfold generateRecommendations.
  rewrite analysis_triggers_no_plain_long_idle.
  pose proof analysis_frequency_high as Hf.
  unfold pushIf.
  destruct (includes "High" (a_frequency analysis)
            || includes "Very High" (a_frequency analysis));
    destruct (2000 <? a_avgDuration analysis)%Z;
    destruct (0 <? List.length (a_peakHours analysis))%nat;
    (split; [ eexists; reflexivity | ]);
    cbn [app];
    (split; [ | simpl; intuition discriminate ]);
    (split; [ intro H; try (apply Hf; reflexivity); simpl in H; intuition discriminate
            | intro H; try (simpl; tauto); apply Hf in H; discriminate H ]).
Qed.
End RecommendationShape.

(** *** Time ranges and the timeline *)

Lemma parseTimeRange_cases (timeRange : string) :
  ~ In timeRange objectPrototypeMembers ->
  parseTimeRange timeRange = VNumber 3600000
  \/ parseTimeRange timeRange = VNumber 21600000
  \/ parseTimeRange timeRange = VNumber 86400000
  \/ parseTimeRange timeRange = VNumber 604800000.
Proof.
  intro Hproto.
  destruct (String.eqb_spec "1h" timeRange) as [<- | H1]; [ left; reflexivity | ].
  destruct (String.eqb_spec "6h" timeRange) as [<- | H2]; [ right; left; reflexivity | ].
  destruct (String.eqb_spec "24h" timeRange) as [<- | H3];
    [ right; right; left; reflexivity | ].
  destruct (String.eqb_spec "7d" timeRange) as [<- | H4];
    [ right; right; right; reflexivity | ].
  right; right; left. apply default_range; [ | exact Hproto ].
  simpl. intuition congruence.
Qed.

Lemma time_range_table (timeRange : string) :
  In timeRange objectPrototypeMembers -> ToNumber (parseTimeRange timeRange) = NaN.
Proof.
  intro Hin. simpl in Hin.
  repeat (destruct Hin as [<- | Hin]; [ reflexivity | ]). contradiction.
Qed.

(** X5.  Whatever the argument, unless it names a member of
    [Object.prototype], the window is one of the four table values, so it is
    positive; the four tokens give 1, 6, 24 and 168 hours; a member name
    gives [NaN]. *)
Theorem time_range_is_a_table_value (timeRange : string) :
  (~ In timeRange objectPrototypeMembers ->
   exists range : Q,
     parseTimeRange timeRange = VNumber range
     /\ In range [3600000; 21600000; 86400000; 604800000]
     /\ 0 < range)
  /\ (In timeRange objectPrototypeMembers -> ToNumber (parseTimeRange timeRange) = NaN)
  /\ parseTimeRange "1h" = VNumber (1 * 3600000)
  /\ parseTimeRange "6h" = VNumber (6 * 3600000)
  /\ parseTimeRange "24h" = VNumber (24 * 3600000)
  /\ parseTimeRange "7d" = VNumber (168 * 3600000).
Proof.
  split; [ | split; [ | repeat split; reflexivity ] ].
  - intro Hproto.
    destruct (parseTimeRange_cases timeRange Hproto) as [E | [E | [E | E]]];
      rewrite E; eexists; (split; [ reflexivity | ]); (split; [ simpl; tauto | reflexivity ]).
  - apply time_range_table.
Qed.

Lemma inWindow_true (from to t : Q) : inWindow from to t = true <-> from <= t /\ t < to.
Proof.
  unfold inWindow, ltb. rewrite andb_true_iff, Qle_bool_iff, negb_true_iff.
  split; intros [H1 H2]; split; try assumption.
  - apply Qnot_le_lt. intro H. apply Qle_bool_iff in H. congruence.
  - destruct (Qle_bool to t) eqn:E; [ | reflexivity ]. apply Qle_bool_iff in E. lra.
Qed.

Lemma inWindow_split (a m b t : Q) :
  a <= m -> m <= b ->
  (b2n (inWindow a m t) + b2n (inWindow m b t))%nat = b2n (inWindow a b t).
Proof.
  intros Ham Hmb.
  destruct (inWindow a m t) eqn:E1; destruct (inWindow m b t) eqn:E2;
    destruct (inWindow a b t) eqn:E3; try reflexivity; exfalso;
    repeat match goal with
           | H : inWindow _ _ _ = true |- _ => apply inWindow_true in H
           | H : inWindow ?x ?y ?z = false |- _ =>
               assert (~ (x <= z /\ z < y))
                 by (intro Hc; apply inWindow_true in Hc; congruence);
               clear H
           end;
    destruct (Qlt_le_dec t m); destruct (Qlt_le_dec t a); destruct (Qlt_le_dec t b);
    try lra; tauto.
Qed.

Lemma total_of_app (l1 l2 : list nat) : total_of (l1 ++ l2) = (total_of l1 + total_of l2)%nat.
Proof. induction l1 as [| x l1 IH]; simpl; [ reflexivity | rewrite IH; lia ]. Qed.

Lemma inWindow_morph (a a' b b' t : Q) : a == a' -> b == b' -> inWindow a b t = inWindow a' b' t.
Proof. intros Ha Hb. unfold inWindow, ltb. rewrite Ha, Hb. reflexivity. Qed.

(** Each instant lies in as many of the first [k] periods as it lies in
    their union: one or none. *)
Lemma periods_cover_once (start d t : Q) (k : nat) :
  0 <= d ->
  total_of (map (fun i => b2n (inWindow (start + ofNat i * d) (start + (ofNat i + 1) * d) t))
                (seq 0 k))
  = b2n (inWindow start (start + ofNat k * d) t).
Proof.
  intro Hd. induction k as [| k IH].
  - simpl. destruct (inWindow start (start + ofNat 0 * d) t) eqn:E; [ | reflexivity ].
    apply inWindow_true in E. change (ofNat 0) with 0 in E. lra.
  - rewrite seq_S, map_app, total_of_app, IH. cbn [map total_of Nat.add fold_right].
    rewrite Nat.add_0_r.
    rewrite (inWindow_morph start start (start + ofNat (S k) * d) (start + (ofNat k + 1) * d) t)
      by (try reflexivity; rewrite ofNat_S; reflexivity).
    apply inWindow_split.
    + pose proof (ofNat_nonneg k). nra.
    + nra.
Qed.

Lemma count_by_period (periods : list (Q * Q)) (coldStartEvents : list ColdStartData) :
  total_of (map (fun p : Q * Q =>
                   List.length (filter (fun e => inWindow (fst p) (snd p)
                                                   (inject_Z (Z.of_N (timestamp e))))
                                       coldStartEvents))
                periods)
  = total_of (map (fun e =>
                     total_of (map (fun p : Q * Q =>
                                      b2n (inWindow (fst p) (snd p)
                                             (inject_Z (Z.of_N (timestamp e)))))
                                   periods))
                  coldStartEvents).
Proof.
  induction coldStartEvents as [| e es IH].
  - simpl. induction periods as [| p ps IHp]; simpl; [ reflexivity | exact IHp ].
  - cbn [map total_of fold_right]. fold (total_of
      (map (fun e0 => total_of (map (fun p : Q * Q =>
         b2n (inWindow (fst p) (snd p) (inject_Z (Z.of_N (timestamp e0))))) periods)) es)).
    rewrite <- IH. clear IH.
    induction periods as [| p ps IHp]; simpl; [ reflexivity | ].
    unfold total_of in *. simpl in IHp.
    destruct (inWindow (fst p) (snd p) (inject_Z (Z.of_N (timestamp e)))); simpl; lia.
Qed.

Lemma count_in_window (from to : Q) (coldStartEvents : list ColdStartData) :
  total_of (map (fun e => b2n (inWindow from to (inject_Z (Z.of_N (timestamp e)))))
                coldStartEvents)
  = eventsBetween from to coldStartEvents.
Proof.
  unfold eventsBetween, inWindow.
  induction coldStartEvents as [| e es IH]; [ reflexivity | ].
  cbn [map total_of fold_right filter]. unfold total_of in IH.
  destruct (Qle_bool from (inject_Z (Z.of_N (timestamp e)))
            && ltb (inject_Z (Z.of_N (timestamp e))) to);
    cbn [b2n List.length]; rewrite IH; reflexivity.
Qed.

Section Timeline.
Variable toLocaleTimeString : number -> string.

(** X6.  For an argument that does not name a member of [Object.prototype]
    the timeline has 24 periods that split the window
    [now - range, now) without gap or overlap: their cold-start counts add
    up to the number of cold starts in the window.  For a member name every
    period is empty. *)
Theorem timeline_splits_the_window
    (now : Q) (coldStartEvents : list ColdStartData) (timeRange : string) :
  let timeline := createTimeline toLocaleTimeString now coldStartEvents timeRange in
  List.length timeline = 24%nat
  /\ (forall range : Q,
        parseTimeRange timeRange = VNumber range -> 0 <= range ->
        total_of (map coldStarts timeline)
        = eventsBetween (now - range) now coldStartEvents)
  /\ (In timeRange objectPrototypeMembers ->
      Forall (fun entry => coldStarts entry = 0%nat) timeline).
Proof.
  intro timeline. split; [ apply timeline_length | ]. split.
  - intros range Hrange Hpos.
    subst timeline. unfold createTimeline, getTimelinePeriods.
    rewrite Hrange. cbn [ToNumber number_map number_add].
    rewrite !map_map. cbn [coldStarts fst snd geb_number ltb_number].
    set (start := now - range). set (d := range / ofNat 24).
    transitivity (total_of (map (fun p : Q * Q =>
                     List.length (filter (fun e => inWindow (fst p) (snd p)
                                                     (inject_Z (Z.of_N (timestamp e))))
                                         coldStartEvents))
                   (map (fun i => (start + ofNat i * d, start + (ofNat i + 1) * d)) (seq 0 24)))).
    { rewrite map_map. reflexivity. }
    rewrite count_by_period.
    assert (Hd : 0 <= d).
    { unfold d. apply Qle_shift_div_l; [ reflexivity | lra ]. }
    assert (E : forall e : ColdStartData,
              total_of (map (fun p : Q * Q =>
                               b2n (inWindow (fst p) (snd p) (inject_Z (Z.of_N (timestamp e)))))
                            (map (fun i => (start + ofNat i * d, start + (ofNat i + 1) * d))
                                 (seq 0 24)))
              = b2n (inWindow (now - range) now (inject_Z (Z.of_N (timestamp e))))).
    { intro e. rewrite map_map. cbn [fst snd].
      rewrite (periods_cover_once start d _ 24 Hd).
      f_equal. apply inWindow_morph; [ reflexivity | ].
      unfold start, d. change (ofNat 24) with 24. field. }
    rewrite (map_ext _ _ E). apply count_in_window.
  - intro Hin.
    assert (Hnan : ToNumber (parseTimeRange timeRange) = NaN)
      by (apply time_range_table; exact Hin).
    subst timeline. unfold createTimeline, getTimelinePeriods. rewrite Hnan.
    cbn [number_map number_add]. apply Forall_forall. intros entry Hentry.
    rewrite map_map in Hentry. apply in_map_iff in Hentry.
    destruct Hentry as (i & <- & _). cbn [coldStarts fst geb_number andb].
    induction coldStartEvents as [| e es IH]; [ reflexivity | exact IH ].
Qed.
End Timeline.

(** *** Variance and the duration pattern *)

Lemma sum_nonneg (l : list Q) : Forall (fun x => 0 <= x) l -> 0 <= sum l.
Proof.
  induction 1 as [| x l Hx Hl IH].
  - unfold sum. simpl. lra.
  - rewrite sum_cons. lra.
Qed.

Lemma sum_all_equal (x : Q) (l : list Q) :
  Forall (fun d => d == x) l -> sum l == ofNat (List.length l) * x.
Proof.
  induction 1 as [| d l Hd Hl IH].
  - unfold sum. simpl. change (ofNat 0) with 0. ring.
  - rewrite sum_cons. change (List.length (d :: l)) with (S (List.length l)).
    rewrite ofNat_S, IH, Hd. ring.
Qed.

Lemma variance_nonneg (values : list Q) : 0 <= calculateVariance values.
Proof.
  unfold calculateVariance.
  set (mean := sum values / ofNat (List.length values)).
  assert (Hs : 0 <= sum (map (fun val => (val - mean) * (val - mean)) values)).
  { apply sum_nonneg. apply Forall_forall. intros y Hy.
    apply in_map_iff in Hy. destruct Hy as (v & <- & _).
    generalize (v - mean). intro z.
    destruct (Qlt_le_dec z 0) as [Hz | Hz]; nra. }
  destruct values as [| v vs].
  - unfold Qdiv. change (/ ofNat (List.length (@nil Q))) with 0. lra.
  - apply Qle_shift_div_l; [ apply ofNat_pos; simpl; lia | lra ].
Qed.

Lemma variance_all_equal (x : Q) (values : list Q) :
  values <> [] -> Forall (fun d => d == x) values -> calculateVariance values == 0.
Proof.
  intros Hne Hall. unfold calculateVariance.
  assert (Hn : 0 < ofNat (List.length values)).
  { apply ofNat_pos. destruct values; [ congruence | simpl; lia ]. }
  set (mean := sum values / ofNat (List.length values)).
  assert (Hmean : mean == x).
  { unfold mean. rewrite (sum_all_equal x values Hall). field. lra. }
  assert (Hs : sum (map (fun val => (val - mean) * (val - mean)) values)
               == ofNat (List.length (map (fun val => (val - mean) * (val - mean)) values)) * 0).
  { apply sum_all_equal. apply Forall_forall. intros y Hy.
    apply in_map_iff in Hy. destruct Hy as (v & <- & Hv).
    rewrite Forall_forall in Hall. rewrite (Hall v Hv), Hmean. ring. }
  rewrite Hs. field. lra.
Qed.

Lemma ltb_true_iff (a b : Q) : ltb a b = true <-> a < b.
Proof. unfold ltb. apply (gtb_true_iff b a). Qed.

(** X7.  The population variance is never negative.  The duration pattern
    is absent exactly when no cold start has a duration, it is one of three
    texts otherwise, and equal durations are always called consistent. *)
Theorem duration_pattern_cases (coldStartEvents : list ColdStartData) :
  let durations := nonNull (map initDuration coldStartEvents) in
  0 <= calculateVariance durations
  /\ (analyzeDurationPatterns coldStartEvents = None <-> durations = [])
  /\ (forall x, durations <> [] -> Forall (fun d => d == x) durations ->
      analyzeDurationPatterns coldStartEvents = Some "Consistent cold start durations"%string)
  /\ (forall text, analyzeDurationPatterns coldStartEvents = Some text ->
      (text = "Consistent cold start durations"%string /\ calculateVariance durations < 100)
      \/ (text = "Highly variable cold start durations - investigate initialization code"%string
          /\ 1000 < calculateVariance durations)
      \/ (text = "Moderate variation in cold start durations"%string
          /\ 100 <= calculateVariance durations <= 1000)).
Proof.
  cbv zeta. split; [ apply variance_nonneg | ].
  unfold analyzeDurationPatterns.
  generalize (nonNull (map initDuration coldStartEvents)). intro durations.
  destruct durations as [| d ds].
  - split; [ tauto | ]. split; [ congruence | discriminate ].
  - set (v := calculateVariance (d :: ds)).
    split; [ split; [ | discriminate ] | ].
    { destruct (ltb v 100), (gtb v 1000); discriminate. }
    split.
    + intros x _ Hall.
      assert (Hv : ltb v 100 = true).
      { apply ltb_true_iff. unfold v.
        rewrite (variance_all_equal x (d :: ds)); [ reflexivity | discriminate | exact Hall ]. }
      rewrite Hv. reflexivity.
    + intros text Htext.
      destruct (ltb v 100) eqn:L.
      * apply ltb_true_iff in L. left. split; [ congruence | exact L ].
      * assert (L' : 100 <= v).
        { destruct (Qlt_le_dec v 100) as [H | H]; [ | exact H ].
          apply ltb_true_iff in H. congruence. }
        destruct (gtb v 1000) eqn:G.
        -- apply gtb_true_iff in G. right; left. split; [ congruence | exact G ].
        -- apply gtb_false_iff in G. right; right. split; [ congruence | split; assumption ].
Qed.

(** *** Request identifiers and cold-start records *)

Lemma takeWhile_split (p : ascii -> bool) (s : string) :
  exists post,
    s = (takeWhile p s ++ post)%string
    /\ allChars p (takeWhile p s) = true
    /\ match post with
       | EmptyString => True
       | String c _ => p c = false
       end.
Proof.
  induction s as [| c s IH]; simpl.
  - exists EmptyString. repeat split.
  - destruct (p c) eqn:E.
    + destruct IH as (post & H1 & H2 & H3). exists post. simpl. rewrite E.
      split; [ congruence | ]. split; assumption.
    + exists (String c s). simpl. repeat split. exact E.
Qed.

Lemma matchRequestIdAt_sound (s id : string) :
  matchRequestIdAt s = Some id ->
  exists post,
    s = ("RequestId: " ++ id ++ post)%string
    /\ id <> EmptyString
    /\ allChars isWordOrDash id = true
    /\ match post with
       | EmptyString => True
       | String c _ => isWordOrDash c = false
       end.
Proof.
  unfold matchRequestIdAt. intro H.
  destruct (stripPrefix "RequestId: " s) as [rest |] eqn:E; [ | discriminate ].
  apply stripPrefix_Some in E.
  destruct (takeWhile_split isWordOrDash rest) as (post & H1 & H2 & H3).
  destruct (takeWhile isWordOrDash rest) as [| c w] eqn:T; [ discriminate | ].
  injection H as <-. exists post. split; [ rewrite E, H1; reflexivity | ].
  split; [ discriminate | ]. split; assumption.
Qed.

(** X8.  A request identifier, when one is found, is the non-empty, longest
    run of letters, digits, underscores and dashes that follows the first
    occurrence of [RequestId: ] having such a run behind it. *)
Theorem request_id_is_first_longest_run (message id : string) :
  extractRequestId message = Some id ->
  exists pre post,
    message = (pre ++ "RequestId: " ++ id ++ post)%string
    /\ id <> EmptyString
    /\ allChars isWordOrDash id = true
    /\ match post with
       | EmptyString => True
       | String c _ => isWordOrDash c = false
       end
    /\ forall p q, pre = (p ++ q)%string -> q <> EmptyString ->
         matchRequestIdAt (q ++ "RequestId: " ++ id ++ post) = None.
Proof.
  revert id. induction message as [| a message IH]; intros id H.
  - simpl in H. discriminate.
  - cbn [extractRequestId] in H.
    destruct (matchRequestIdAt (String a message)) as [id' |] eqn:M.
    + injection H as ->.
      destruct (matchRequestIdAt_sound _ _ M) as (post & H1 & H2 & H3 & H4).
      exists EmptyString, post. split; [ exact H1 | ]. repeat split; try assumption.
      intros p q Hpq Hq. destruct p; destruct q; simpl in Hpq; congruence.
    + destruct (IH id H) as (pre & post & H1 & H2 & H3 & H4 & H5).
      exists (String a pre), post. split; [ simpl; rewrite H1; reflexivity | ].
      repeat split; try assumption.
      intros p q Hpq Hq. destruct p as [| b p].
      * simpl in Hpq. subst q.
        change (matchRequestIdAt (String a (pre ++ "RequestId: " ++ id ++ post)) = None).
        rewrite <- H1. exact M.
      * simpl in Hpq. injection Hpq as _ Hpq. apply (H5 p q Hpq Hq).
Qed.

Lemma lastSome_fold {A S : Type} (read : S -> option A) (l : list S) : forall acc : option A,
  fold_left (fun acc x => match read x with Some v => Some v | None => acc end) l acc
  = match lastSome (map read l) with Some v => Some v | None => acc end.
Proof.
  induction l as [| x l IH]; intro acc; simpl; [ reflexivity | ].
  rewrite IH. destruct (lastSome (map read l)); [ reflexivity | ].
  destruct (read x); reflexivity.
Qed.

Section Records.
Variable matchInitDuration : string -> option Q.
Variable matchReport : string -> option Report.
Let merge := mergeRelatedEvent matchInitDuration matchReport.
Let readDuration (e : LogEvent) := matchInitDuration (message e).
Let readReport (e : LogEvent) := matchReport (message e).

Lemma merge_fold (related : list LogEvent) : forall d0 : ColdStartData,
  let d := fold_left merge related d0 in
  requestId d = requestId d0 /\ timestamp d = timestamp d0 /\ logStream d = logStream d0
  /\ events d = (events d0 ++ related)%list
  /\ initDuration d
     = match lastSome (map readDuration related) with
       | Some v => Some v
       | None => initDuration d0
       end
  /\ totalDuration d
     = match lastSome (map readReport related) with
       | Some r => Some (reportDuration r)
       | None => totalDuration d0
       end
  /\ billedDuration d
     = match lastSome (map readReport related) with
       | Some r => Some (reportBilledDuration r)
       | None => billedDuration d0
       end
  /\ memoryAllocated d
     = match lastSome (map readReport related) with
       | Some r => Some (reportMemorySize r)
       | None => memoryAllocated d0
       end
  /\ memoryUsed d
     = match lastSome (map readReport related) with
       | Some r => Some (reportMaxMemoryUsed r)
       | None => memoryUsed d0
       end.
Proof.
  induction related as [| x l IH]; intro d0; cbn [fold_left map lastSome].
  - rewrite app_nil_r. repeat split; reflexivity.
  - destruct (IH (merge d0 x)) as (H1 & H2 & H3 & H4 & H5 & H6 & H7 & H8 & H9).
    cbv zeta. rewrite H1, H2, H3, H4, H5, H6, H7, H8, H9. clear.
    subst merge readDuration readReport. unfold mergeRelatedEvent.
    destruct (lastSome (map (fun e => matchInitDuration (message e)) l));
      destruct (lastSome (map (fun e => matchReport (message e)) l));
      destruct (matchReport (message x)); destruct (matchInitDuration (message x));
      cbn; rewrite <- ?app_assoc; repeat split; reflexivity.
Qed.

Lemma cold_start_record_aux
    (source : LogSource) (initEvent : LogEvent) (id : string) :
  extractRequestId (message initEvent) = Some id ->
  let related := relatedOf source id (Logs.timestamp initEvent) in
  exists d,
    extractColdStartData matchInitDuration matchReport source initEvent = Normal (Some d)
    /\ requestId d = id
    /\ timestamp d = Logs.timestamp initEvent
    /\ logStream d = logStreamName initEvent
    /\ events d = initEvent :: related
    /\ initDuration d = lastSome (map readDuration related)
    /\ totalDuration d = option_map reportDuration (lastSome (map readReport related))
    /\ billedDuration d = option_map reportBilledDuration (lastSome (map readReport related))
    /\ memoryAllocated d = option_map reportMemorySize (lastSome (map readReport related))
    /\ memoryUsed d = option_map reportMaxMemoryUsed (lastSome (map readReport related)).
Proof.
  intros Hid related.
  unfold extractColdStartData. rewrite Hid.
  assert (Hrel : getRelatedEvents source id (Logs.timestamp initEvent) = Normal related).
  { unfold getRelatedEvents, related, relatedOf.
    destruct (relatedAnswer source id (Logs.timestamp initEvent)); reflexivity. }
  rewrite Hrel. cbn [bind try_catch].
  eexists. split; [ reflexivity | ].
  match goal with
  | |- context [fold_left _ related ?d0] =>
      destruct (merge_fold related d0) as (H1 & H2 & H3 & H4 & H5 & H6 & H7 & H8 & H9)
  end.
  subst merge. cbv zeta in *.
  rewrite H1, H2, H3, H4, H5, H6, H7, H8, H9. cbn.
  destruct (lastSome (map readDuration related)); destruct (lastSome (map readReport related));
    repeat split; reflexivity.
Qed.

(** X9.  An INIT_START event with a request identifier always yields a
    record, whether or not the query for related events succeeds.  The
    record carries the identifier, the event's timestamp and stream, the
    event followed by the related events, and for the init duration and the
    report figures the value of the last related event that has one
    (none when no related event has one). *)
Theorem cold_start_record_from_related_events
    (source : LogSource) (initEvent : LogEvent) (id : string) :
  extractRequestId (message initEvent) = Some id ->
  let related := relatedOf source id (Logs.timestamp initEvent) in
  exists d,
    extractColdStartData matchInitDuration matchReport source initEvent = Normal (Some d)
    /\ requestId d = id
    /\ timestamp d = Logs.timestamp initEvent
    /\ logStream d = logStreamName initEvent
    /\ events d = initEvent :: related
    /\ initDuration d = lastSome (map readDuration related)
    /\ totalDuration d = option_map reportDuration (lastSome (map readReport related))
    /\ billedDuration d = option_map reportBilledDuration (lastSome (map readReport related))
    /\ memoryAllocated d = option_map reportMemorySize (lastSome (map readReport related))
    /\ memoryUsed d = option_map reportMaxMemoryUsed (lastSome (map readReport related)).
Proof. exact (cold_start_record_aux source initEvent id). Qed.

Lemma recordOf_requestId (source : LogSource) (e : LogEvent) (d : ColdStartData) :
  recordOf matchInitDuration matchReport source e = Some d ->
  extractRequestId (message e) = Some (requestId d) /\ hd_error (events d) = Some e.
Proof.
  unfold recordOf. intro H.
  destruct (extractRequestId (message e)) as [id |] eqn:Hid.
  - destruct (cold_start_record_aux source e id Hid) as (d' & E & H1 & _ & _ & H4 & _).
    rewrite E in H. injection H as <-. rewrite H1, H4. split; reflexivity.
  - unfold extractColdStartData in H. rewrite Hid in H. discriminate H.
Qed.

Lemma processEvents_collects (source : LogSource) (pageEvents : list LogEvent) :
  forall acc,
    processEvents matchInitDuration matchReport source pageEvents acc
    = ((acc ++ nonNull (map (recordOf matchInitDuration matchReport source) pageEvents))%list,
       None).
Proof.
  induction pageEvents as [| e l IH]; intro acc; cbn [processEvents map nonNull].
  - rewrite app_nil_r. reflexivity.
  - unfold recordOf at 1.
    destruct (extractColdStartData_normal matchInitDuration matchReport source e) as [r ->].
    destruct r as [d |]; rewrite IH; cbn [nonNull]; [ rewrite <- app_assoc | ]; reflexivity.
Qed.

Lemma nonNull_app {A : Type} (l1 l2 : list (option A)) :
  nonNull (l1 ++ l2) = (nonNull l1 ++ nonNull l2)%list.
Proof.
  induction l1 as [| [x |] l1 IH]; simpl; [ reflexivity | rewrite IH; reflexivity | exact IH ].
Qed.

Lemma nonNull_length {A : Type} (l : list (option A)) :
  (List.length (nonNull l) <= List.length l)%nat.
Proof. induction l as [| [x |] l IH]; simpl; lia. Qed.

Lemma nonNull_In {A : Type} (l : list (option A)) (x : A) : In x (nonNull l) <-> In (Some x) l.
Proof.
  induction l as [| [y |] l IH]; simpl; [ tauto | | ].
  - rewrite IH. split; intros [H | H]; auto; left; congruence.
  - rewrite IH. split; [ auto | intros [H | H]; [ discriminate | exact H ] ].
Qed.

Lemma pageLoop_collects (source : LogSource) (answers : Pages) : forall acc,
  pageLoop matchInitDuration matchReport source answers acc
  = (acc ++ nonNull (map (recordOf matchInitDuration matchReport source)
                         (eventsRead answers)))%list.
Proof.
  induction answers as [e | pageEvents | pageEvents rest IH]; intro acc;
    cbn [pageLoop eventsRead].
  - simpl. rewrite app_nil_r. reflexivity.
  - rewrite processEvents_collects. reflexivity.
  - rewrite processEvents_collects, IH, map_app, nonNull_app, app_assoc. reflexivity.
Qed.

(** X10.  The scan returns, in order, the records of the INIT_START events
    of the pages read up to the first request that throws: what earlier
    pages gave is kept, later pages are not read, and the scan itself never
    throws.  Each record stems from one of those events and carries the
    request identifier found in it. *)
Theorem scan_collects_until_first_failure (source : LogSource) :
  let read := eventsRead (initStartAnswers source) in
  let records := nonNull (map (recordOf matchInitDuration matchReport source) read) in
  getColdStartEvents matchInitDuration matchReport source = Normal records
  /\ (List.length records <= List.length read)%nat
  /\ forall d, In d records ->
       exists e, In e read
                 /\ extractRequestId (message e) = Some (requestId d)
                 /\ hd_error (events d) = Some e.
Proof.
  intros read records. split; [ | split ].
  - unfold getColdStartEvents. rewrite pageLoop_collects. reflexivity.
  - unfold records. rewrite <- (length_map (recordOf matchInitDuration matchReport source) read).
    apply nonNull_length.
  - intros d Hd. apply nonNull_In in Hd. apply in_map_iff in Hd.
    destruct Hd as (e & He & Hin). exists e. split; [ exact Hin | ].
    apply (recordOf_requestId source e d He).
Qed.
End Records.

(** *** Statistics, time pattern and the assembled result *)

Lemma bucket_counts_total (durations : list Q) :
  (countIn inBucket1 durations + countIn inBucket2 durations + countIn inBucket3 durations
   + countIn inBucket4 durations + countIn inBucket5 durations)%nat
  = List.length durations.
Proof.
  unfold countIn. induction durations as [| d ds IH]; [ reflexivity | ].
  pose proof (one_bucket d) as Hone. unfold bucketsOf in Hone.
  cbn [filter List.length].
  destruct (inBucket1 d), (inBucket2 d), (inBucket3 d), (inBucket4 d), (inBucket5 d);
    cbn in Hone; try discriminate Hone; cbn [List.length]; lia.
Qed.

Lemma nonNull_map_length {A B : Type} (f : A -> option B) (l : list A) :
  (List.length (nonNull (map f l)) <= List.length l)%nat.
Proof. rewrite <- (length_map f l). apply nonNull_length. Qed.

Section StatisticsCount.
Variable getHours : N -> nat.
Variables (coldStartEvents : list ColdStartData) (allInvocations : list LogEvent)
          (timeRange : string).
Let durations := nonNull (map initDuration coldStartEvents).
Let stats := a_statistics
               (analyzeColdStartPatterns getHours coldStartEvents allInvocations timeRange).

(** X11.  The count of the reported statistics is the number of cold
    starts, not of duration samples, and it is 0 as soon as no cold start
    has a duration; the distribution counts only the samples, so its total
    can be smaller than the count. *)
Theorem statistics_count_is_not_the_sample_count :
  (durations = [] -> count stats = 0%nat /\ distribution stats = [])
  /\ (durations <> [] ->
      count stats = List.length coldStartEvents
      /\ total_of (map snd (distribution stats)) = List.length durations)
  /\ (total_of (map snd (distribution stats)) <= count stats)%nat.
Proof.
  assert (Hle : (List.length durations <= List.length coldStartEvents)%nat)
    by apply nonNull_map_length.
  subst stats durations. unfold analyzeColdStartPatterns.
  destruct coldStartEvents as [| e es].
  - cbn. repeat split; try reflexivity; try lia; try congruence.
  - cbn [a_statistics]. unfold generateStatistics.
    remember (nonNull (map initDuration (e :: es))) as ds eqn:Eds.
    destruct ds as [| d ds].
    + cbn. repeat split; try reflexivity; try lia; try congruence.
    + cbn [count distribution].
      assert (Hsum : total_of (map snd (createDurationDistribution (d :: ds)))
                     = List.length (d :: ds)).
      { unfold createDurationDistribution.
        rewrite (distribution_from (d :: ds) 0 0 0 0 0). cbn [map snd total_of fold_right Nat.add].
        rewrite <- (bucket_counts_total (d :: ds)). lia. }
      split; [ discriminate | ]. split; [ intros _; split; [ reflexivity | exact Hsum ] | ].
      rewrite Hsum. exact Hle.
Qed.
End StatisticsCount.

Lemma uniqueFrom_spec (hours : list nat) : forall seen,
  NoDup (uniqueFrom seen hours)
  /\ forall h, In h (uniqueFrom seen hours) <-> In h hours /\ ~ In h seen.
Proof.
  induction hours as [| x hours IH]; intro seen; simpl.
  - split; [ constructor | tauto ].
  - destruct (existsb (Nat.eqb x) seen) eqn:E.
    + apply existsb_exists in E. destruct E as (y & Hy & Hxy).
      apply Nat.eqb_eq in Hxy. subst y.
      destruct (IH seen) as [H1 H2]. split; [ exact H1 | ].
      intro h. rewrite H2. split; [ tauto | ].
      intros [[-> | Hh] Hn]; [ contradiction | tauto ].
    + assert (Hx : ~ In x seen).
      { intro Hin. assert (existsb (Nat.eqb x) seen = true); [ | congruence ].
        apply existsb_exists. exists x. split; [ exact Hin | apply Nat.eqb_refl ]. }
      destruct (IH (x :: seen)) as [H1 H2]. split.
      * constructor; [ | exact H1 ]. rewrite H2. simpl. tauto.
      * intro h. simpl. rewrite H2. simpl.
        destruct (Nat.eq_dec x h) as [-> | Hne]; tauto.
Qed.

Section TimePattern.
Variable getHours : N -> nat.

(** X12.  The time pattern is reported exactly when the cold starts fall
    in at most three distinct local hours; the hours it lists are those
    hours, each once, in order of first appearance. *)
Theorem time_pattern_iff_few_hours (coldStartEvents : list ColdStartData) :
  let hours := map (fun event => getHours (timestamp event)) coldStartEvents in
  exists distinct : list nat,
    NoDup distinct
    /\ (forall h, In h distinct <-> In h hours)
    /\ (analyzeTimePatterns getHours coldStartEvents = None <-> (3 < List.length distinct)%nat)
    /\ ((List.length distinct <= 3)%nat ->
        analyzeTimePatterns getHours coldStartEvents
        = Some ("Cold starts concentrated in "
                  ++ ToString (N.of_nat (List.length distinct)) ++ " hour(s): "
                  ++ join ", " (map (fun h => ToString (N.of_nat h)) distinct))%string).
Proof.
  intro hours. exists (uniqueFrom [] hours).
  destruct (uniqueFrom_spec hours []) as [H1 H2].
  split; [ exact H1 | ]. split; [ intro h; rewrite H2; simpl; tauto | ].
  unfold analyzeTimePatterns. fold hours.
  destruct (Nat.leb_spec (List.length (uniqueFrom [] hours)) 3) as [Hle | Hgt].
  - split; [ split; [ discriminate | lia ] | reflexivity ].
  - split; [ tauto | lia ].
Qed.
End TimePattern.

Lemma statistics_count_aux (getHours : N -> nat) (coldStartEvents : list ColdStartData)
    (allInvocations : list LogEvent) (timeRange : string) :
  (count (a_statistics
            (analyzeColdStartPatterns getHours coldStartEvents allInvocations timeRange))
   <= List.length coldStartEvents)%nat.
Proof.
  unfold analyzeColdStartPatterns.
  destruct coldStartEvents as [| e es]; [ cbn; lia | ].
  cbn [a_statistics]. unfold generateStatistics.
  destruct (nonNull (map initDuration (e :: es))); cbn [count]; lia.
Qed.

Section AssembledResult.
Local Open Scope string_scope.
Variable getHours : N -> nat.
Variable toLocaleTimeString : number -> string.
Variable matchInitDuration : string -> option Q.
Variable matchReport : string -> option Report.

Lemma frequency_of_rate (coldStartEvents : list ColdStartData)
    (allInvocations : list LogEvent) (timeRange : string) :
  let r := calculateColdStartRate (List.length coldStartEvents) (List.length allInvocations) in
  let f := determineColdStartFrequency coldStartEvents allInvocations timeRange in
  (f = "Very High (>50%)" <-> (50 < r)%Q)
  /\ (f = "High (25-50%)" <-> (25 < r)%Q /\ (r <= 50)%Q)
  /\ (f = "Moderate (10-25%)" <-> (10 < r)%Q /\ (r <= 25)%Q)
  /\ (f = "Low (5-10%)" <-> (5 < r)%Q /\ (r <= 10)%Q)
  /\ (f = "Very Low (<5%)" <-> (r <= 5)%Q)
  /\ f <> "No cold starts detected".
Proof.
  intros r f. subst f. unfold determineColdStartFrequency. fold r.
  destruct (gtb r 50) eqn:G50; [ | destruct (gtb r 25) eqn:G25;
    [ | destruct (gtb r 10) eqn:G10; [ | destruct (gtb r 5) eqn:G5 ] ] ];
    repeat match goal with
           | H : gtb _ _ = true |- _ => apply gtb_true_iff in H
           | H : gtb _ _ = false |- _ => apply gtb_false_iff in H
           end;
    repeat split; intros; try discriminate; try reflexivity; try lra;
    repeat match goal with H : _ /\ _ |- _ => destruct H end; lra.
Qed.

(** X13.  The fields of a tracking result agree with one another: the
    frequency class is the class of the reported rate, there is no cold
    start exactly when the frequency reads "No cold starts detected" and
    exactly when no trigger is listed, the statistics never count more than
    the total, and the total is the number of records the scan returned. *)
Theorem tracking_result_is_coherent
    (source : LogSource) (now : Q) (functionName timeRange : string) :
  exists result records,
    trackColdStarts getHours toLocaleTimeString matchInitDuration matchReport
      source now functionName timeRange = Normal result
    /\ getColdStartEvents matchInitDuration matchReport source = Normal records
    /\ total result = List.length records
    /\ (total result = 0%nat <-> frequency result = "No cold starts detected")
    /\ (total result = 0%nat <-> triggers result = [])
    /\ ((0 < total result)%nat ->
        (frequency result = "Very High (>50%)" <-> (50 < rate result)%Q)
        /\ (frequency result = "High (25-50%)" <-> (25 < rate result)%Q /\ (rate result <= 50)%Q)
        /\ (frequency result = "Moderate (10-25%)"
            <-> (10 < rate result)%Q /\ (rate result <= 25)%Q)
        /\ (frequency result = "Low (5-10%)" <-> (5 < rate result)%Q /\ (rate result <= 10)%Q)
        /\ (frequency result = "Very Low (<5%)" <-> (rate result <= 5)%Q))
    /\ (count (statistics result) <= total result)%nat.
Proof.
  destruct (trackColdStarts_normal getHours toLocaleTimeString matchInitDuration matchReport
              source now functionName timeRange) as (inv & _ & E).
  cbv zeta in E.
  set (records := pageLoop matchInitDuration matchReport source (initStartAnswers source) [])
    in *.
  eexists. exists records. split; [ exact E | ]. split; [ reflexivity | ].
  cbn [total frequency triggers rate statistics].
  split; [ reflexivity | ].
  pose proof (frequency_of_rate records inv timeRange) as Hf. cbv zeta in Hf.
  pose proof (triggers_known records inv) as Ht. cbv zeta in Ht.
  pose proof (statistics_count_aux getHours records inv timeRange) as Hc.
  unfold analyzeColdStartPatterns in *.
  destruct records as [| d ds].
  - cbn. repeat split; intros; try reflexivity; try lia; try discriminate.
  - cbn [a_frequency a_triggers a_statistics List.length] in *.
    split; [ split; [ discriminate | intro H; exfalso; apply Hf; exact H ] | ].
    split; [ split; [ discriminate | intro H; exfalso; apply Ht; exact H ] | ].
    split; [ intros _; tauto | exact Hc ].
Qed.
End AssembledResult.

(** ** Facts about the analyzer *)

(** X14.  A metric value never fails: it is 0 when the request throws or
    gives no datapoint, and otherwise the mean over the datapoints, a
    missing value counting as 0.  For non-negative values it therefore lies
    between 0 and their sum: the "total" invocations are a mean per
    datapoint, not a total. *)
Theorem metric_value_is_a_mean (answer : Completion (option (list (option Q)))) :
  exists v,
    LambdaAnalyzer.getMetricValue answer = Normal v
    /\ ((forall failure, answer = Throw failure -> v = 0)
        /\ (answer = Normal None -> v = 0)
        /\ (answer = Normal (Some []) -> v = 0))
    /\ forall points, answer = Normal (Some points) -> points <> [] ->
         let values := map (fun point => match point with Some x => x | None => 0 end) points in
         v * ofNat (List.length points) == sum values
         /\ (Forall (fun x => 0 <= x) values -> 0 <= v <= sum values).
Proof.
  unfold LambdaAnalyzer.getMetricValue.
  destruct answer as [[[| p ps] |] | e]; cbn [bind try_catch].
  - exists 0. repeat split; intros; try reflexivity; congruence.
  - eexists. split; [ reflexivity | ]. split; [ repeat split; intros; discriminate | ].
    intros points Hp _. injection Hp as <-.
    set (values := map (fun point : option Q => match point with Some x => x | None => 0 end) (p :: ps)).
    assert (Hn : 0 < ofNat (List.length (p :: ps))) by (apply ofNat_pos; simpl; lia).
    assert (Hlen : List.length values = List.length (p :: ps)) by apply length_map.
    split.
    + field. lra.
    + intro Hall. pose proof (sum_nonneg values Hall) as Hs.
      assert (H1 : 1 <= ofNat (List.length (p :: ps))).
      { change 1 with (ofNat 1). apply ofNat_le. simpl. lia. }
      split.
      * apply Qle_shift_div_l; [ exact Hn | lra ].
      * apply Qle_shift_div_r; [ exact Hn | nra ].
  - exists 0. repeat split; intros; try reflexivity; congruence.
  - exists 0. repeat split; intros; try reflexivity; congruence.
Qed.

(** X15.  The recommended memory: below 50% utilization it is a multiple of
    64 MB, at least 128 and at least 1.2 times the peak (and less than 64
    above it unless it is the floor of 128); above 85% it is the multiple
    of 64 next above 1.3 times the peak; in between the allocation stays
    and no cost change is announced. *)
Theorem memory_recommendation_bounds (allocated avgUsed peakUsed utilizationPercent : Q) :
  let r := LambdaAnalyzer.generateMemoryRecommendation allocated avgUsed peakUsed
             utilizationPercent in
  (utilizationPercent < 50 ->
   exists k : Z,
     LambdaAnalyzer.memory r = inject_Z (64 * k)
     /\ 128 <= LambdaAnalyzer.memory r
     /\ peakUsed * (12 # 10) <= LambdaAnalyzer.memory r
     /\ (LambdaAnalyzer.memory r = 128
         \/ LambdaAnalyzer.memory r < peakUsed * (12 # 10) + 64))
  /\ (85 < utilizationPercent ->
      exists k : Z,
        LambdaAnalyzer.memory r = inject_Z (64 * k)
        /\ peakUsed * (13 # 10) <= LambdaAnalyzer.memory r
        /\ LambdaAnalyzer.memory r < peakUsed * (13 # 10) + 64)
  /\ (50 <= utilizationPercent <= 85 ->
      LambdaAnalyzer.memory r = allocated
      /\ LambdaAnalyzer.costImpact r = "No change"%string).
Proof.
  intro r. subst r. unfold LambdaAnalyzer.generateMemoryRecommendation.
  assert (Hceil : forall x : Q,
            x <= inject_Z (Math_ceil (x / 64) * 64)
            /\ inject_Z (Math_ceil (x / 64) * 64) < x + 64).
  { intro x. unfold Math_ceil. rewrite inject_Z_mult. change (inject_Z 64) with 64.
    pose proof (Qle_ceiling (x / 64)) as H1. pose proof (Qceiling_lt (x / 64)) as H2.
    unfold Z.sub in H2. rewrite inject_Z_plus, inject_Z_opp in H2.
    change (inject_Z 1) with 1 in H2.
    unfold Qdiv in *. change (/ 64) with (1 # 64) in *. split; lra. }
  destruct (ltb utilizationPercent 50) eqn:L; [ | destruct (gtb utilizationPercent 85) eqn:G ].
  - apply ltb_true_iff in L. split; [ | split; intro; exfalso; lra ].
    intros _. cbn [LambdaAnalyzer.memory].
    destruct (Hceil (peakUsed * (12 # 10))) as [H1 H2].
    set (c := (Math_ceil (peakUsed * (12 # 10) / 64) * 64)%Z) in *.
    destruct (Z.max_spec 128 c) as [[Hlt ->] | [Hle ->]].
    + exists (Math_ceil (peakUsed * (12 # 10) / 64)).
      split; [ unfold c; f_equal; ring | ].
      split; [ change 128 with (inject_Z 128); rewrite <- Zle_Qle; lia | ].
      split; [ exact H1 | right; exact H2 ].
    + exists 2%Z. split; [ reflexivity | ]. split; [ apply Qle_refl | ].
      split; [ | left; reflexivity ].
      apply Qle_trans with (inject_Z c); [ exact H1 | ].
      change 128 with (inject_Z 128). rewrite <- Zle_Qle. exact Hle.
  - apply gtb_true_iff in G.
    assert (L' : 50 <= utilizationPercent).
    { destruct (Qlt_le_dec utilizationPercent 50) as [H | H]; [ | exact H ].
      apply ltb_true_iff in H. congruence. }
    split; [ intro; exfalso; lra | ]. split; [ | intro; exfalso; lra ].
    intros _. cbn [LambdaAnalyzer.memory].
    destruct (Hceil (peakUsed * (13 # 10))) as [H1 H2].
    exists (Math_ceil (peakUsed * (13 # 10) / 64)).
    split; [ f_equal; ring | ]. split; assumption.
  - apply gtb_false_iff in G. split; [ | split ].
    + intro H. apply ltb_true_iff in H. congruence.
    + intro; exfalso; lra.
    + intros _. split; reflexivity.
Qed.

Lemma analyzer_variance_same (values : list Q) :
  LambdaAnalyzer.calculateVariance values = calculateVariance values.
Proof. reflexivity. Qed.

Lemma mean_all_equal (x : Q) (l : list Q) :
  l <> [] -> Forall (fun d => d == x) l -> sum l / ofNat (List.length l) == x.
Proof.
  intros Hne Hall. rewrite (sum_all_equal x l Hall). field.
  assert (0 < ofNat (List.length l)); [ | lra ].
  apply ofNat_pos. destruct l; [ congruence | simpl; lia ].
Qed.

Lemma Qeq_bool_false_iff (a b : Q) : Qeq_bool a b = false <-> ~ a == b.
Proof.
  split.
  - apply Qeq_bool_neq.
  - intro H. destruct (Qeq_bool a b) eqn:E; [ | reflexivity ].
    apply Qeq_bool_iff in E. contradiction.
Qed.

Lemma In_firstn_aux {A : Type} (n : nat) (l : list A) (x : A) : In x (firstn n l) -> In x l.
Proof.
  intro H. rewrite <- (firstn_skipn n l). apply in_or_app. left. exact H.
Qed.

Lemma In_skipn_aux {A : Type} (n : nat) (l : list A) (x : A) : In x (skipn n l) -> In x l.
Proof.
  intro H. rewrite <- (firstn_skipn n l). apply in_or_app. right. exact H.
Qed.

Lemma trend_all_equal (x : Q) (values : list Q) :
  Forall (fun d => d == x) values ->
  LambdaAnalyzer.egtb (LambdaAnalyzer.calculateTrend values) (1 # 10) = false
  /\ LambdaAnalyzer.eltb (LambdaAnalyzer.calculateTrend values) (- (1 # 10)) = false.
Proof.
  intro Hall. unfold LambdaAnalyzer.calculateTrend.
  destruct (Nat.ltb_spec (List.length values) 2) as [Hlt | Hge]; [ split; reflexivity | ].
  set (h := Nat.div (List.length values) 2).
  assert (Hh : (1 <= h)%nat /\ (h < List.length values)%nat).
  { subst h. split.
    - apply Nat.div_le_lower_bound; lia.
    - apply Nat.div_lt; lia. }
  assert (H1 : sum (firstn h values) / ofNat (List.length (firstn h values)) == x).
  { apply mean_all_equal.
    - intro E. apply (f_equal (@List.length Q)) in E. rewrite length_firstn in E. simpl in E. lia.
    - apply Forall_forall. intros y Hy. rewrite Forall_forall in Hall.
      apply Hall. apply (In_firstn_aux _ _ _ Hy). }
  assert (H2 : sum (skipn h values) / ofNat (List.length (skipn h values)) == x).
  { apply mean_all_equal.
    - intro E. apply (f_equal (@List.length Q)) in E. rewrite length_skipn in E. simpl in E. lia.
    - apply Forall_forall. intros y Hy. rewrite Forall_forall in Hall.
      apply Hall. apply (In_skipn_aux _ _ _ Hy). }
  unfold LambdaAnalyzer.ediv.
  set (f := sum (firstn h values) / ofNat (List.length (firstn h values))) in *.
  set (s := sum (skipn h values) / ofNat (List.length (skipn h values))) in *.
  assert (Hd : s - f == 0) by (rewrite H1, H2; ring).
  destruct (Qeq_bool f 0) eqn:Ef.
  - assert (Ed : Qeq_bool (s - f) 0 = true) by (apply Qeq_bool_iff; exact Hd).
    rewrite Ed. split; reflexivity.
  - apply Qeq_bool_false_iff in Ef. cbn [LambdaAnalyzer.egtb LambdaAnalyzer.eltb].
    assert (Hq : (s - f) / f == 0) by (rewrite Hd; field; exact Ef).
    split.
    + apply gtb_false_iff. rewrite Hq. discriminate.
    + destruct (ltb ((s - f) / f) (- (1 # 10))) eqn:L; [ | reflexivity ].
      apply ltb_true_iff in L. rewrite Hq in L. discriminate L.
Qed.

(** X16.  The analyzer's memory patterns are one or two texts, never none:
    the no-data text alone for an empty series, otherwise a variance text
    possibly followed by a trend text.  A series of equal values gives a
    zero trend and the single text of a consistent pattern, also when the
    values are zero and the trend is 0/0; a series of one value has trend
    0. *)
Theorem analyzer_memory_patterns_shape (memoryUsage : list Q) :
  let patterns := LambdaAnalyzer.analyzeMemoryPatterns memoryUsage in
  (1 <= List.length patterns <= 2)%nat
  /\ (memoryUsage = [] -> patterns = ["No memory usage data available"%string])
  /\ (memoryUsage <> [] ->
      hd_error patterns = Some "Consistent memory usage pattern"%string
      \/ hd_error patterns
         = Some "Variable memory usage - consider workload optimization"%string)
  /\ (forall x, memoryUsage <> [] -> Forall (fun d => d == x) memoryUsage ->
      patterns = ["Consistent memory usage pattern"%string])
  /\ ((List.length memoryUsage < 2)%nat ->
      LambdaAnalyzer.calculateTrend memoryUsage = LambdaAnalyzer.Fin 0).
Proof.
  cbv zeta. unfold LambdaAnalyzer.analyzeMemoryPatterns.
  destruct memoryUsage as [| m ms].
  - repeat split; try (simpl; lia); try reflexivity; congruence.
  - set (usage := m :: ms).
    set (v := LambdaAnalyzer.calculateVariance usage).
    set (t := LambdaAnalyzer.calculateTrend usage).
    split; [ | split; [ discriminate | split; [ | split ] ] ].
    + destruct (ltb v 100), (LambdaAnalyzer.egtb t (1 # 10)),
        (LambdaAnalyzer.eltb t (- (1 # 10))); simpl; lia.
    + intros _. destruct (ltb v 100), (LambdaAnalyzer.egtb t (1 # 10)),
        (LambdaAnalyzer.eltb t (- (1 # 10))); simpl; auto.
    + intros x _ Hall.
      destruct (trend_all_equal x usage Hall) as [T1 T2]. fold t in T1, T2.
      rewrite T1, T2.
      assert (Hv : ltb v 100 = true).
      { apply ltb_true_iff. unfold v. rewrite analyzer_variance_same.
        rewrite (variance_all_equal x usage); [ reflexivity | discriminate | exact Hall ]. }
      rewrite Hv. reflexivity.
    + intro Hlen. subst t. unfold LambdaAnalyzer.calculateTrend.
      destruct (Nat.ltb_spec (List.length usage) 2) as [_ | Hge]; [ reflexivity | lia ].
Qed.

Section FirstMinimum.
Context {A : Type} (key : A -> Q).

Lemma fold_first_min_from (l : list A) : forall (pre : list A) (b : A),
  (exists l1 l2, pre = (l1 ++ b :: l2)%list
     /\ (forall c, In c l1 -> key b < key c) /\ (forall c, In c l2 -> key b <= key c)) ->
  let best := fold_left (fun best current =>
                           if ltb (key current) (key best) then current else best) l b in
  exists l1 l2, (pre ++ l)%list = (l1 ++ best :: l2)%list
     /\ (forall c, In c l1 -> key best < key c) /\ (forall c, In c l2 -> key best <= key c).
Proof.
  induction l as [| x l IH]; intros pre b (l1 & l2 & Hpre & H1 & H2); cbn [fold_left].
  - exists l1, l2. rewrite app_nil_r. auto.
  - replace (pre ++ x :: l)%list with ((pre ++ [x]) ++ l)%list
      by (rewrite <- app_assoc; reflexivity).
    apply IH. destruct (ltb (key x) (key b)) eqn:L.
    + apply ltb_true_iff in L. exists pre, []. split; [ reflexivity | ].
      split; [ | intros c []].
      intros c Hc. rewrite Hpre in Hc. apply in_app_or in Hc.
      destruct Hc as [Hc | [<- | Hc]].
      * specialize (H1 c Hc). lra.
      * exact L.
      * specialize (H2 c Hc). lra.
    + assert (L' : key b <= key x).
      { destruct (Qlt_le_dec (key x) (key b)) as [H | H]; [ | exact H ].
        apply ltb_true_iff in H. congruence. }
      exists l1, (l2 ++ [x])%list. split.
      * rewrite Hpre, <- app_assoc. reflexivity.
      * split; [ exact H1 | ].
        intros c Hc. apply in_app_or in Hc. destruct Hc as [Hc | [<- | []]]; auto.
Qed.

Lemma fold_first_min (x : A) (l : list A) :
  let best := fold_left (fun best current =>
                           if ltb (key current) (key best) then current else best) l x in
  exists l1 l2, x :: l = (l1 ++ best :: l2)%list
     /\ (forall c, In c l1 -> key best < key c) /\ (forall c, In c l2 -> key best <= key c).
Proof.
  apply (fold_first_min_from l [x] x).
  exists [], []. split; [ reflexivity | ]. split; intros c [].
Qed.
End FirstMinimum.

Lemma fold_left_ext {A B : Type} (f g : A -> B -> A) (l : list B) :
  (forall a b, f a b = g a b) -> forall a, fold_left f l a = fold_left g l a.
Proof.
  intro H. induction l as [| x l IH]; intro a; simpl; [ reflexivity | ].
  rewrite H. apply IH.
Qed.

Lemma gtb_as_ltb (a b : Q) : gtb a b = ltb (- a) (- b).
Proof.
  destruct (gtb a b) eqn:G; symmetry.
  - apply gtb_true_iff in G. apply ltb_true_iff. lra.
  - apply gtb_false_iff in G. destruct (ltb (- a) (- b)) eqn:L; [ | reflexivity ].
    apply ltb_true_iff in L. lra.
Qed.

Section ComparisonInsights.
Variable showNumber : Q -> string.

(** X17.  The comparison insights cannot be built for an empty list of
    functions: the reduction throws.  For a non-empty list there are two
    insights: the first names the first function with the smallest
    average duration, the second the first function with the highest
    cold-start rate. *)
Theorem comparison_insights_pick_first_extremes :
  (exists failure, LambdaAnalyzer.generateComparisonInsights showNumber [] = Throw failure)
  /\ forall comparisons, comparisons <> [] ->
       exists best worst l1 l2 m1 m2,
         LambdaAnalyzer.generateComparisonInsights showNumber comparisons
         = Normal
             [ (LambdaAnalyzer.name best ++ " has the best average duration ("
                  ++ showNumber (LambdaAnalyzer.v_duration best) ++ "ms)")%string;
               (LambdaAnalyzer.name worst ++ " has the highest cold start rate ("
                  ++ showNumber (LambdaAnalyzer.v_coldStarts worst) ++ "%)")%string ]
         /\ comparisons = (l1 ++ best :: l2)%list
         /\ (forall c, In c l1 -> LambdaAnalyzer.v_duration best < LambdaAnalyzer.v_duration c)
         /\ (forall c, In c l2 -> LambdaAnalyzer.v_duration best <= LambdaAnalyzer.v_duration c)
         /\ comparisons = (m1 ++ worst :: m2)%list
         /\ (forall c, In c m1 ->
               LambdaAnalyzer.v_coldStarts c < LambdaAnalyzer.v_coldStarts worst)
         /\ (forall c, In c m2 ->
               LambdaAnalyzer.v_coldStarts c <= LambdaAnalyzer.v_coldStarts worst).
Proof.
  split; [ eexists; reflexivity | ].
  intros [| x l] Hne; [ congruence | ].
  unfold LambdaAnalyzer.generateComparisonInsights, LambdaAnalyzer.reduce1. cbn [bind app].
  destruct (fold_first_min LambdaAnalyzer.v_duration x l) as (l1 & l2 & E1 & A1 & A2).
  destruct (fold_first_min (fun c => - LambdaAnalyzer.v_coldStarts c) x l)
    as (m1 & m2 & E2 & B1 & B2).
  cbv zeta in *.
  rewrite (fold_left_ext
             (fun worst current =>
                if gtb (LambdaAnalyzer.v_coldStarts current) (LambdaAnalyzer.v_coldStarts worst)
                then current else worst)
             (fun best current =>
                if ltb (- LambdaAnalyzer.v_coldStarts current) (- LambdaAnalyzer.v_coldStarts best)
                then current else best))
    by (intros a b; rewrite gtb_as_ltb; reflexivity).
  eexists _, _, l1, l2, m1, m2. split; [ reflexivity | ].
  split; [ exact E1 | ]. split; [ exact A1 | ]. split; [ exact A2 | ].
  split; [ exact E2 | ].
  split; intros c Hc; [ specialize (B1 c Hc) | specialize (B2 c Hc) ]; lra.
Qed.
End ComparisonInsights.

Lemma analyzer_frequency_cases (coldStarts invocations : Q) :
  In (LambdaAnalyzer.determineColdStartFrequency coldStarts invocations)
     ["Very High"; "High"; "Moderate"; "Low"; "Very Low"]%string.
Proof.
  unfold LambdaAnalyzer.determineColdStartFrequency. cbv zeta.
  repeat match goal with
         | |- context [if ?b then _ else _] => destruct b
         end; simpl; auto 10.
Qed.

Lemma analyzer_frequency_no_invocations (coldStarts : Q) :
  0 < coldStarts ->
  LambdaAnalyzer.determineColdStartFrequency coldStarts 0 = "Very High"%string.
Proof.
  intro H. unfold LambdaAnalyzer.determineColdStartFrequency, LambdaAnalyzer.divide.
  change (Qeq_bool 0 0) with true. cbv iota.
  destruct (Qeq_bool coldStarts 0) eqn:E; [ | reflexivity ].
  apply Qeq_bool_iff in E. lra.
Qed.

Lemma analyzer_metric_normal (answer : Completion (option (list (option Q)))) :
  exists v, LambdaAnalyzer.getMetricValue answer = Normal v
            /\ ((exists e, answer = Throw e) -> v = 0).
Proof.
  unfold LambdaAnalyzer.getMetricValue.
  destruct answer as [[[| p l] | ] | e]; cbn.
  - eexists; split; [ reflexivity | intros (e & E); discriminate ].
  - eexists; split; [ reflexivity | intros (e & E); discriminate ].
  - eexists; split; [ reflexivity | intros (e & E); discriminate ].
  - eexists; split; [ reflexivity | reflexivity ].
Qed.

Lemma analyzer_events_normal (answer : Completion (option (list Logs.LogEvent))) :
  exists events, LambdaAnalyzer.getColdStartEvents answer = Normal events
                 /\ ((exists e, answer = Throw e) -> events = []).
Proof.
  unfold LambdaAnalyzer.getColdStartEvents.
  destruct answer as [r | e]; cbn.
  - eexists; split; [ reflexivity | intros (e & E); discriminate ].
  - eexists; split; [ reflexivity | reflexivity ].
Qed.

Section AnalyzerTracking.
Variable getHours : N -> nat.
Variable toLocaleTimeString : number -> string.
Variable clock : nat -> Q.

(** X18.  The analyzer's tracking operation always completes with a report,
    and the report is never the one of its handler (frequency "Unknown",
    empty timeline): the two requests catch their own failures.  The
    timeline has 24 points with duration 1000.  Without cold-start events
    (in particular when the log request fails) the frequency is "None" and
    the only recommendation is the Graviton2 one; with events the
    durations are the placeholders 1000 and 2000, so the package-size
    recommendation is never given, and when the metrics request fails the
    rate is 0 while the frequency is "Very High". *)
Theorem analyzer_tracking_never_reaches_its_handler
    (logsAnswer : Completion (option (list Logs.LogEvent)))
    (metricAnswer : Completion (option (list (option Q))))
    (functionName timeRange : string) :
  exists report,
    LambdaAnalyzer.trackColdStarts getHours toLocaleTimeString clock
      logsAnswer metricAnswer functionName timeRange = Normal report
    /\ LambdaAnalyzer.r_frequency report <> "Unknown"%string
    /\ List.length (LambdaAnalyzer.r_timeline report) = 24%nat
    /\ Forall (fun point => LambdaAnalyzer.tp_duration point = 1000)
              (LambdaAnalyzer.r_timeline report)
    /\ ~ In "Reduce package size and dependencies"%string
            (LambdaAnalyzer.r_recommendations report)
    /\ ((exists e, logsAnswer = Throw e) -> LambdaAnalyzer.r_total report = 0%nat)
    /\ (LambdaAnalyzer.r_total report = 0%nat ->
        LambdaAnalyzer.r_frequency report = "None"%string
        /\ LambdaAnalyzer.r_rate report == 0
        /\ LambdaAnalyzer.r_avgDuration report = 0
        /\ LambdaAnalyzer.r_maxDuration report = 0
        /\ LambdaAnalyzer.r_triggers report = []
        /\ LambdaAnalyzer.r_recommendations report
           = ["Consider using ARM-based Graviton2 processors for better price-performance"%string])
    /\ ((0 < LambdaAnalyzer.r_total report)%nat ->
        LambdaAnalyzer.r_avgDuration report = 1000
        /\ LambdaAnalyzer.r_maxDuration report = 2000
        /\ LambdaAnalyzer.r_triggers report
           = ["Low traffic periods"; "Function updates"; "Scaling events"]%string
        /\ ((exists e, metricAnswer = Throw e) ->
            LambdaAnalyzer.r_rate report = 0
            /\ LambdaAnalyzer.r_frequency report = "Very High"%string)).
Proof.
  unfold LambdaAnalyzer.trackColdStarts.
  destruct (analyzer_events_normal logsAnswer) as (events & -> & Hev).
  destruct (analyzer_metric_normal metricAnswer) as (total & Hm & Hmz).
  unfold LambdaAnalyzer.getTotalInvocations. rewrite Hm.
  cbn [bind try_catch]. eexists. split; [ reflexivity | ].
  cbn [LambdaAnalyzer.r_frequency LambdaAnalyzer.r_timeline LambdaAnalyzer.r_total
       LambdaAnalyzer.r_recommendations LambdaAnalyzer.r_rate LambdaAnalyzer.r_avgDuration
       LambdaAnalyzer.r_maxDuration LambdaAnalyzer.r_triggers].
  split.
  { destruct events as [| ev events]; cbn [LambdaAnalyzer.analyzeColdStartPatterns
                                            LambdaAnalyzer.pa_frequency].
    - discriminate.
    - pose proof (analyzer_frequency_cases
                    (ofNat (List.length (ev :: events))) total) as H.
      intro E. rewrite E in H. simpl in H.
      repeat (destruct H as [H | H]; [ discriminate | ]). exact H. }
  split.
  { unfold LambdaAnalyzer.createColdStartTimeline. rewrite length_map. reflexivity. }
  split.
  { unfold LambdaAnalyzer.createColdStartTimeline. apply Forall_forall.
    intros point Hp. apply in_map_iff in Hp. destruct Hp as (i & <- & _). reflexivity. }
  split.
  { unfold LambdaAnalyzer.generateColdStartRecommendations.
    destruct events as [| ev events]; cbn [LambdaAnalyzer.analyzeColdStartPatterns
                                            LambdaAnalyzer.pa_frequency
                                            LambdaAnalyzer.pa_avgDuration].
    - cbn. intros [H | H]; [ discriminate | exact H ].
    - change (gtb 1000 1000) with false. cbv iota zeta.
      match goal with
      | |- context [if ?b then _ else _] => destruct b
      end; cbn [app In]; intro H;
        repeat (destruct H as [H | H]; [ discriminate | ]); exact H. }
  split.
  { intro H. rewrite (Hev H). reflexivity. }
  split.
  { intro H. destruct events as [| ev events]; [ | discriminate ].
    cbn [LambdaAnalyzer.analyzeColdStartPatterns LambdaAnalyzer.pa_frequency
         LambdaAnalyzer.pa_avgDuration LambdaAnalyzer.pa_maxDuration
         LambdaAnalyzer.pa_triggers List.length].
    split; [ reflexivity | ]. split; [ | repeat split; reflexivity ].
    unfold LambdaAnalyzer.calculateColdStartRate.
    destruct (Qeq_bool total 0); [ reflexivity | ].
    change (ofNat 0) with 0.
    assert (E : 0 / total * 100 * 100 == 0) by (unfold Qdiv; ring).
    unfold Math_round. rewrite E. reflexivity. }
  intro H. destruct events as [| ev events]; [ simpl in H; lia | ].
  cbn [LambdaAnalyzer.analyzeColdStartPatterns LambdaAnalyzer.pa_frequency
       LambdaAnalyzer.pa_avgDuration LambdaAnalyzer.pa_maxDuration LambdaAnalyzer.pa_triggers].
  split; [ reflexivity | ]. split; [ reflexivity | ]. split; [ reflexivity | ].
  intro Hf. rewrite (Hmz Hf). split; [ reflexivity | ].
  apply analyzer_frequency_no_invocations. apply ofNat_pos. simpl. lia.
Qed.
End AnalyzerTracking.

(** *** The optimizer's configuration *)

(** X19.  Without a 95th-percentile duration in the analysis the
    recommended timeout is NaN.  With one it is an even whole number of
    seconds between 30 and 900: 30 up to 15 s, 900 above 449 s, and in
    between twice the duration rounded up to whole seconds. *)
Theorem optimal_timeout_bounds (analysis : PerformanceOptimizer.Analysis) :
  (PerformanceOptimizer.p95Duration analysis = None ->
   PerformanceOptimizer.calculateOptimalTimeout analysis = NaN)
  /\ forall p95, PerformanceOptimizer.p95Duration analysis = Some p95 ->
       exists t : Z,
         PerformanceOptimizer.calculateOptimalTimeout analysis = Num (inject_Z t)
         /\ (30 <= t <= 900)%Z
         /\ Z.even t = true
         /\ (p95 <= 15000 -> t = 30%Z)
         /\ (449000 < p95 -> t = 900%Z)
         /\ (15000 < p95 -> p95 <= 449000 ->
             t = (Math_ceil (p95 / 1000) * 2)%Z
             /\ 2 * (p95 / 1000) <= inject_Z t < 2 * (p95 / 1000) + 2).
Proof.
  unfold PerformanceOptimizer.calculateOptimalTimeout. split.
  - intros ->. reflexivity.
  - intros p95 ->. unfold Math_ceil.
    set (k := Qceiling (p95 / 1000)).
    assert (Hdiv : p95 / 1000 == p95 * (1 # 1000)) by reflexivity.
    exists (Z.max 30 (Z.min 900 (k * 2))). split; [ reflexivity | ].
    split; [ lia | ]. split.
    { assert (E : Z.even (k * 2) = true)
        by (rewrite Z.even_mul; apply orb_true_r).
      destruct (Z.max_spec 30 (Z.min 900 (k * 2))) as [[_ ->] | [_ ->]];
        [ | reflexivity ].
      destruct (Z.min_spec 900 (k * 2)) as [[_ ->] | [_ ->]]; [ reflexivity | exact E ]. }
    split.
    { intro H. assert (Hk : (k <= 15)%Z).
      { apply ceiling_le_iff. rewrite Hdiv. change (inject_Z 15) with 15. lra. }
      lia. }
    split.
    { intro H. assert (Hk : ~ (k <= 449)%Z).
      { intro Hk. apply ceiling_le_iff in Hk. rewrite Hdiv in Hk.
        change (inject_Z 449) with 449 in Hk. lra. }
      lia. }
    intros H1 H2.
    assert (Hlo : ~ (k <= 15)%Z).
    { intro Hk. apply ceiling_le_iff in Hk. rewrite Hdiv in Hk.
      change (inject_Z 15) with 15 in Hk. lra. }
    assert (Hhi : (k <= 449)%Z).
    { apply ceiling_le_iff. rewrite Hdiv. change (inject_Z 449) with 449. lra. }
    assert (E : Z.max 30 (Z.min 900 (k * 2)) = (k * 2)%Z) by lia.
    split; [ exact E | ]. rewrite E, inject_Z_mult. change (inject_Z 2) with 2.
    pose proof (Qle_ceiling (p95 / 1000)) as Ha.
    pose proof (Qceiling_lt (p95 / 1000)) as Hb.
    fold k in Ha, Hb. unfold Z.sub in Hb. rewrite inject_Z_plus, inject_Z_opp in Hb.
    change (inject_Z 1) with 1 in Hb.
    clear - Ha Hb. revert Ha Hb.
    generalize (p95 / 1000). generalize (inject_Z k). intros z q Ha Hb. lra.
Qed.

Lemma recommended_runtime_cases (analysis : PerformanceOptimizer.Analysis) :
  let r := PerformanceOptimizer.recommendRuntime analysis in
  includes "nodejs16" r = false /\ includes "python3.8" r = false.
Proof.
  unfold PerformanceOptimizer.recommendRuntime. cbv zeta.
  destruct (includes "nodejs16" (PerformanceOptimizer.runtime analysis)) eqn:E1.
  - split; reflexivity.
  - destruct (includes "python3.8" (PerformanceOptimizer.runtime analysis)) eqn:E2.
    + split; reflexivity.
    + split; assumption.
Qed.

(** X20.  The recommended runtime never names nodejs16 or python3.8, and the
    recommended architecture is never x86_64 for an ARM-compatible
    function; a function that already has the recommended runtime and
    architecture is recommended to keep both. *)
Theorem recommended_configuration_is_stable (analysis : PerformanceOptimizer.Analysis) :
  let config := PerformanceOptimizer.getConfigurationRecommendations analysis in
  includes "nodejs16" (PerformanceOptimizer.c_runtime config) = false
  /\ includes "python3.8" (PerformanceOptimizer.c_runtime config) = false
  /\ (PerformanceOptimizer.isArmCompatible analysis = true ->
      PerformanceOptimizer.c_architecture config <> "x86_64"%string)
  /\ forall updated,
       PerformanceOptimizer.runtime updated = PerformanceOptimizer.c_runtime config ->
       PerformanceOptimizer.architecture updated = PerformanceOptimizer.c_architecture config ->
       PerformanceOptimizer.isArmCompatible updated
       = PerformanceOptimizer.isArmCompatible analysis ->
       PerformanceOptimizer.c_runtime
         (PerformanceOptimizer.getConfigurationRecommendations updated)
       = PerformanceOptimizer.runtime updated
       /\ PerformanceOptimizer.c_architecture
            (PerformanceOptimizer.getConfigurationRecommendations updated)
          = PerformanceOptimizer.architecture updated.
Proof.
  cbv zeta. cbn [PerformanceOptimizer.getConfigurationRecommendations
                 PerformanceOptimizer.c_runtime PerformanceOptimizer.c_architecture].
  destruct (recommended_runtime_cases analysis) as [R1 R2].
  split; [ exact R1 | ]. split; [ exact R2 | ]. split.
  { intro Harm. unfold PerformanceOptimizer.recommendArchitecture. rewrite Harm.
    cbn [andb].
    destruct (String.eqb_spec (PerformanceOptimizer.architecture analysis) "x86_64")
      as [E | N]; [ discriminate | exact N ]. }
  intros updated Hr Ha Hc. split.
  - unfold PerformanceOptimizer.recommendRuntime at 1. cbv zeta.
    rewrite Hr, R1, R2. reflexivity.
  - unfold PerformanceOptimizer.recommendArchitecture at 1.
    destruct (String.eqb_spec (PerformanceOptimizer.architecture updated) "x86_64")
      as [E | N]; [ | rewrite andb_false_r; reflexivity ].
    rewrite Hc. destruct (PerformanceOptimizer.isArmCompatible analysis) eqn:Harm;
      [ | reflexivity ].
    exfalso. rewrite E in Ha. symmetry in Ha.
    unfold PerformanceOptimizer.recommendArchitecture in Ha. rewrite Harm in Ha.
    cbn [andb] in Ha.
    destruct (String.eqb_spec (PerformanceOptimizer.architecture analysis) "x86_64")
      as [E' | N']; [ discriminate | congruence ].
Qed.

(** *** The optimizer's priority list *)

Lemma strongly_sorted_app {A : Type} (R : A -> A -> Prop) (l1 l2 : list A) :
  StronglySorted R (l1 ++ l2) ->
  StronglySorted R l1 /\ forall x y, In x l1 -> In y l2 -> R x y.
Proof.
  induction l1 as [| a l1 IH]; simpl; intro H.
  - split; [ constructor | intros x y [] ].
  - inversion H as [| ? ? Hs Ha]; subst. destruct (IH Hs) as [H1 H2]. split.
    + constructor; [ exact H1 | ].
      rewrite Forall_forall in *. intros x Hx. apply Ha. apply in_or_app. auto.
    + intros x y [<- | Hx] Hy.
      * rewrite Forall_forall in Ha. apply Ha. apply in_or_app. auto.
      * apply H2; assumption.
Qed.

Lemma pushWhen_length {A : Type} (cond : bool) (x : A) (arr : list A) :
  (List.length (PerformanceOptimizer.pushWhen cond x arr) <= S (List.length arr))%nat.
Proof.
  unfold PerformanceOptimizer.pushWhen. destruct cond; [ | lia ].
  rewrite length_app. simpl. lia.
Qed.

Lemma impact_sorted (l : list PerformanceOptimizer.Optimization) :
  StronglySorted impactBefore
    (sort (fun a b => (PerformanceOptimizer.impactOrder (PerformanceOptimizer.impact b)
                       <=? PerformanceOptimizer.impactOrder (PerformanceOptimizer.impact a))%nat)
          l).
Proof.
  apply Sorted_StronglySorted.
  - intros a b c. unfold impactBefore. lia.
  - apply sort_sorted; intros x y H; unfold impactBefore.
    + apply Nat.leb_le in H. exact H.
    + apply Nat.leb_gt in H. lia.
Qed.

Ltac split_conditions :=
  unfold PerformanceOptimizer.pushWhen;
  repeat match goal with
         | |- context [if ?c then _ else _] => destruct c
         end.

Section PriorityList.
Variable showNumber : Q -> string.
Variable analysis : PerformanceOptimizer.Analysis.

Let candidates : list PerformanceOptimizer.Optimization :=
  (PerformanceOptimizer.getColdStartOptimizations analysis
   ++ PerformanceOptimizer.getMemoryOptimizations showNumber analysis
   ++ PerformanceOptimizer.getDurationOptimizations analysis
   ++ PerformanceOptimizer.getCostOptimizations showNumber analysis)%list.

Lemma category_lengths :
  (List.length (PerformanceOptimizer.getColdStartOptimizations analysis) <= 4)%nat
  /\ (List.length (PerformanceOptimizer.getMemoryOptimizations showNumber analysis) <= 3)%nat
  /\ (List.length (PerformanceOptimizer.getDurationOptimizations analysis) <= 4)%nat
  /\ (List.length (PerformanceOptimizer.getCostOptimizations showNumber analysis) <= 3)%nat.
Proof.
  split; [ | split; [ | split ] ].
  - unfold PerformanceOptimizer.getColdStartOptimizations. cbv zeta.
    split_conditions; simpl; lia.
  - unfold PerformanceOptimizer.getMemoryOptimizations. cbv zeta.
    split_conditions; simpl; lia.
  - unfold PerformanceOptimizer.getDurationOptimizations. cbv zeta.
    split_conditions; simpl; lia.
  - unfold PerformanceOptimizer.getCostOptimizations. cbv zeta.
    split_conditions; simpl; lia.
Qed.

(** X21.  The combined priority list holds the first five of the (at most
    fourteen) optimizations of the four categories in the order of
    decreasing impact: an optimization is never left out while one of
    lower impact is kept. *)
Theorem all_optimizations_keep_the_highest_impact :
  let kept := PerformanceOptimizer.getAllOptimizations showNumber analysis in
  List.length kept = Nat.min 5 (List.length candidates)
  /\ (List.length candidates <= 14)%nat
  /\ (forall o, In o kept -> In o candidates)
  /\ StronglySorted impactBefore kept
  /\ (forall o m, In o candidates -> In m kept ->
        (PerformanceOptimizer.impactOrder (PerformanceOptimizer.impact m)
         < PerformanceOptimizer.impactOrder (PerformanceOptimizer.impact o))%nat ->
        In o kept).
Proof.
  cbv zeta. unfold PerformanceOptimizer.getAllOptimizations. cbv zeta. fold candidates.
  set (before := fun a b =>
                   (PerformanceOptimizer.impactOrder (PerformanceOptimizer.impact b)
                    <=? PerformanceOptimizer.impactOrder (PerformanceOptimizer.impact a))%nat).
  pose proof (impact_sorted candidates) as Hs. fold before in Hs.
  pose proof (sort_perm before candidates) as Hp.
  rewrite <- (firstn_skipn 5 (sort before candidates)) in Hs.
  apply strongly_sorted_app in Hs. destruct Hs as [Hs Hcut].
  split; [ rewrite length_firstn, sort_length; reflexivity | ].
  split.
  { unfold candidates. rewrite !length_app.
    pose proof category_lengths as (H1 & H2 & H3 & H4). lia. }
  split.
  { intros o Ho. apply (Permutation_in o (Permutation_sym Hp)).
    rewrite <- (firstn_skipn 5 (sort before candidates)). apply in_or_app. auto. }
  split; [ exact Hs | ].
  intros o m Ho Hm Hlt.
  apply (Permutation_in o Hp) in Ho.
  rewrite <- (firstn_skipn 5 (sort before candidates)) in Ho.
  apply in_app_or in Ho. destruct Ho as [Ho | Ho]; [ exact Ho | ].
  specialize (Hcut m o Hm Ho). unfold impactBefore in Hcut. lia.
Qed.
End PriorityList.

(** *** The optimizer's cost impact *)

Lemma titleCount_app (fragment : string) (l1 l2 : list PerformanceOptimizer.Optimization) :
  titleCount fragment (l1 ++ l2) = (titleCount fragment l1 + titleCount fragment l2)%nat.
Proof. unfold titleCount. rewrite filter_app, length_app. reflexivity. Qed.

Lemma titleCount_firstn (fragment : string) (n : nat)
    (l : list PerformanceOptimizer.Optimization) :
  (titleCount fragment (firstn n l) <= titleCount fragment l)%nat.
Proof.
  unfold titleCount. revert n. induction l as [| x l IH]; intros [| n]; simpl; try lia.
  specialize (IH n).
  destruct (includes fragment (PerformanceOptimizer.title x)); simpl; lia.
Qed.

Lemma titleCount_perm (fragment : string) (l l' : list PerformanceOptimizer.Optimization) :
  Permutation l l' -> titleCount fragment l = titleCount fragment l'.
Proof.
  unfold titleCount. induction 1 as [| x l l' _ IH | x y l | l l' l'' _ IH1 _ IH2]; simpl.
  - reflexivity.
  - destruct (includes fragment (PerformanceOptimizer.title x)); simpl; lia.
  - destruct (includes fragment (PerformanceOptimizer.title x)),
             (includes fragment (PerformanceOptimizer.title y)); reflexivity.
  - lia.
Qed.

Lemma titleCount_zero (fragment : string) (l : list PerformanceOptimizer.Optimization) :
  titleCount fragment l = 0%nat ->
  mentions fragment l = false
  /\ Forall (fun rec => includes fragment (PerformanceOptimizer.title rec) = false) l.
Proof.
  unfold titleCount, mentions. induction l as [| x l IH]; simpl; intro H.
  - split; [ reflexivity | constructor ].
  - destruct (includes fragment (PerformanceOptimizer.title x)) eqn:E; simpl in *.
    + discriminate.
    + destruct (IH H) as [H1 H2]. split; [ exact H1 | constructor; assumption ].
Qed.

(** What the cost loop computes for a list that names the memory and the
    ARM optimization at most once and the duration optimization not at
    all. *)
Lemma reductions_fold (l : list PerformanceOptimizer.Optimization) :
  (titleCount "Right-size Memory" l <= 1)%nat ->
  (titleCount "ARM Architecture" l <= 1)%nat ->
  titleCount "Optimize Duration" l = 0%nat ->
  forall cost,
    fold_left PerformanceOptimizer.applyReductions l cost
    == cost * (if mentions "Right-size Memory" l then 7 # 10 else 1)
            * (if mentions "ARM Architecture" l then 8 # 10 else 1).
Proof.
  induction l as [| x l IH]; intros HR HA HD cost.
  - simpl. ring.
  - cbn [fold_left]. unfold titleCount, mentions in *. cbn [filter existsb] in *.
    unfold PerformanceOptimizer.applyReductions at 2. cbv zeta.
    destruct (includes "Optimize Duration" (PerformanceOptimizer.title x));
      [ discriminate | ].
    destruct (includes "Right-size Memory" (PerformanceOptimizer.title x));
      destruct (includes "ARM Architecture" (PerformanceOptimizer.title x));
      cbn [List.length orb] in *.
    + assert (HR' : titleCount "Right-size Memory" l = 0%nat) by (unfold titleCount; lia).
      assert (HA' : titleCount "ARM Architecture" l = 0%nat) by (unfold titleCount; lia).
      rewrite IH by lia.
      apply titleCount_zero in HR', HA'. unfold mentions in HR', HA'.
      rewrite (proj1 HR'), (proj1 HA'). ring.
    + assert (HR' : titleCount "Right-size Memory" l = 0%nat) by (unfold titleCount; lia).
      rewrite IH by lia.
      apply titleCount_zero in HR'. unfold mentions in HR'.
      rewrite (proj1 HR'). ring.
    + assert (HA' : titleCount "ARM Architecture" l = 0%nat) by (unfold titleCount; lia).
      rewrite IH by lia.
      apply titleCount_zero in HA'. unfold mentions in HA'.
      rewrite (proj1 HA'). ring.
    + rewrite IH by lia. reflexivity.
Qed.

Lemma monthly_cost_positive (analysis : PerformanceOptimizer.Analysis) :
  0 <= PerformanceOptimizer.avgDuration analysis ->
  0 <= PerformanceOptimizer.allocatedMemory analysis ->
  (forall m, PerformanceOptimizer.monthlyInvocations analysis = Some m -> 0 <= m) ->
  0 < PerformanceOptimizer.calculateMonthlyCost analysis.
Proof.
  intros Hd Hm Hi. unfold PerformanceOptimizer.calculateMonthlyCost. cbv zeta.
  set (n := match PerformanceOptimizer.monthlyInvocations analysis with
            | Some m => if Qeq_bool m 0 then 100000 else m
            | None => 100000
            end).
  assert (Hn : 0 < n).
  { subst n. destruct (PerformanceOptimizer.monthlyInvocations analysis) as [m | ];
      [ | reflexivity ].
    specialize (Hi m eq_refl). destruct (Qeq_bool m 0) eqn:E; [ reflexivity | ].
    apply Qeq_bool_neq in E. destruct (Qlt_le_dec 0 m) as [H | H]; [ exact H | ].
    exfalso. apply E. lra. }
  clearbody n. unfold Qdiv.
  change (/ 1000000) with (1 # 1000000). change (/ 1000) with (1 # 1000).
  change (/ 1024) with (1 # 1024).
  revert Hd Hm. generalize (PerformanceOptimizer.avgDuration analysis).
  generalize (PerformanceOptimizer.allocatedMemory analysis). intros a d Hd Ha.
  assert (H1 : 0 <= n * d) by nra.
  assert (H2 : 0 <= (n * d) * a) by nra.
  nra.
Qed.

Section CostImpact.
Variable showNumber : Q -> string.
Variable analysis : PerformanceOptimizer.Analysis.

Lemma category_title_counts :
  (titleCount "Right-size Memory" (PerformanceOptimizer.getColdStartOptimizations analysis)
   = 0
   /\ titleCount "ARM Architecture" (PerformanceOptimizer.getColdStartOptimizations analysis)
      = 0
   /\ titleCount "Optimize Duration" (PerformanceOptimizer.getColdStartOptimizations analysis)
      = 0)%nat
  /\ (titleCount "Right-size Memory"
        (PerformanceOptimizer.getMemoryOptimizations showNumber analysis) <= 1
      /\ titleCount "ARM Architecture"
           (PerformanceOptimizer.getMemoryOptimizations showNumber analysis) = 0
      /\ titleCount "Optimize Duration"
           (PerformanceOptimizer.getMemoryOptimizations showNumber analysis) = 0)%nat
  /\ (titleCount "Right-size Memory" (PerformanceOptimizer.getDurationOptimizations analysis)
      = 0
      /\ titleCount "ARM Architecture" (PerformanceOptimizer.getDurationOptimizations analysis)
         = 0
      /\ titleCount "Optimize Duration" (PerformanceOptimizer.getDurationOptimizations analysis)
         = 0)%nat
  /\ (titleCount "Right-size Memory"
        (PerformanceOptimizer.getCostOptimizations showNumber analysis) = 0
      /\ titleCount "ARM Architecture"
           (PerformanceOptimizer.getCostOptimizations showNumber analysis) <= 1
      /\ titleCount "Optimize Duration"
           (PerformanceOptimizer.getCostOptimizations showNumber analysis) = 0)%nat.
Proof.
  unfold titleCount.
  split; [ | split; [ | split ] ].
  - unfold PerformanceOptimizer.getColdStartOptimizations. cbv zeta.
    split_conditions; repeat split; reflexivity.
  - unfold PerformanceOptimizer.getMemoryOptimizations. cbv zeta.
    split_conditions; repeat split; simpl; lia.
  - unfold PerformanceOptimizer.getDurationOptimizations. cbv zeta.
    split_conditions; repeat split; reflexivity.
  - unfold PerformanceOptimizer.getCostOptimizations. cbv zeta.
    split_conditions; repeat split; simpl; lia.
Qed.

Lemma priority_title_counts (analysisType : string) :
  let priority :=
    PerformanceOptimizer.priority
      (PerformanceOptimizer.getRecommendations showNumber analysis analysisType) in
  (titleCount "Right-size Memory" priority <= 1)%nat
  /\ (titleCount "ARM Architecture" priority <= 1)%nat
  /\ titleCount "Optimize Duration" priority = 0%nat
  /\ (analysisType = "cold-start"%string \/ analysisType = "duration"%string ->
      titleCount "Right-size Memory" priority = 0%nat
      /\ titleCount "ARM Architecture" priority = 0%nat).
Proof.
  cbv zeta. unfold PerformanceOptimizer.getRecommendations. cbv zeta.
  cbn [PerformanceOptimizer.priority].
  destruct category_title_counts
    as ((C1 & C2 & C3) & (M1 & M2 & M3) & (D1 & D2 & D3) & (K1 & K2 & K3)).
  destruct (String.eqb_spec analysisType "cold-start") as [-> | N1].
  { rewrite C1, C2, C3. repeat split; lia. }
  destruct (String.eqb_spec analysisType "memory") as [-> | N2].
  { rewrite M2, M3.
    split; [ lia | split; [ lia | split; [ lia | intros [E | E]; discriminate ] ] ]. }
  destruct (String.eqb_spec analysisType "duration") as [-> | N3].
  { rewrite D1, D2, D3. repeat split; lia. }
  destruct (String.eqb_spec analysisType "cost") as [-> | N4].
  { rewrite K1, K3.
    split; [ lia | split; [ lia | split; [ lia | intros [E | E]; discriminate ] ] ]. }
  unfold PerformanceOptimizer.getAllOptimizations. cbv zeta.
  match goal with
  | |- context [sort ?before ?l] =>
      set (before' := before); set (candidates := l)
  end.
  assert (H : forall fragment,
             (titleCount fragment (firstn 5 (sort before' candidates))
              <= titleCount fragment candidates)%nat).
  { intro fragment.
    rewrite (titleCount_perm fragment _ _ (sort_perm before' candidates)).
    apply titleCount_firstn. }
  pose proof (H "Right-size Memory"%string) as HR.
  pose proof (H "ARM Architecture"%string) as HA.
  pose proof (H "Optimize Duration"%string) as HD.
  unfold candidates in *. rewrite !titleCount_app in HR, HA, HD.
  split; [ lia | split; [ lia | split; [ lia | intros [E | E]; congruence ] ] ].
Qed.

(** X22.  For a function with non-negative duration, memory and invocation
    count the monthly cost is positive, and the cost impact of the
    recommendations is decided by two titles of the priority list: the
    saving is 30% with the memory right-sizing, 20% with the ARM
    migration, 44% with both and 0% with neither.  The 15% reduction for
    a title with 'Optimize Duration' is never applied, since no
    optimization has such a title.  The optimized cost is never above the
    current one, and the cold-start and duration analyses save nothing. *)
Theorem cost_impact_of_recommendations (analysisType : string) :
  0 <= PerformanceOptimizer.avgDuration analysis ->
  0 <= PerformanceOptimizer.allocatedMemory analysis ->
  (forall m, PerformanceOptimizer.monthlyInvocations analysis = Some m -> 0 <= m) ->
  let recommendations :=
    PerformanceOptimizer.getRecommendations showNumber analysis analysisType in
  let priority := PerformanceOptimizer.priority recommendations in
  let costs := PerformanceOptimizer.cost recommendations in
  0 < PerformanceOptimizer.calculateMonthlyCost analysis
  /\ mentions "Optimize Duration" priority = false
  /\ PerformanceOptimizer.savingsPercent costs
     = LambdaAnalyzer.Fin
         (match mentions "Right-size Memory" priority, mentions "ARM Architecture" priority with
          | true, true => 44
          | true, false => 30
          | false, true => 20
          | false, false => 0
          end)
  /\ PerformanceOptimizer.optimized costs <= PerformanceOptimizer.current costs
  /\ 0 <= PerformanceOptimizer.savings costs
  /\ (analysisType = "cold-start"%string \/ analysisType = "duration"%string ->
      PerformanceOptimizer.savingsPercent costs = LambdaAnalyzer.Fin 0
      /\ PerformanceOptimizer.optimized costs = PerformanceOptimizer.current costs).
Proof.
  intros Hd Hm Hi. cbv zeta.
  pose proof (monthly_cost_positive analysis Hd Hm Hi) as Hpos.
  destruct (priority_title_counts analysisType) as (HR & HA & HD & Hnone).
  pose proof (reductions_fold _ HR HA HD (PerformanceOptimizer.calculateMonthlyCost analysis))
    as Hfold.
  assert (Hcost : PerformanceOptimizer.cost
                    (PerformanceOptimizer.getRecommendations showNumber analysis analysisType)
                  = PerformanceOptimizer.getCostImpactAnalysis analysis
                      (PerformanceOptimizer.priority
                         (PerformanceOptimizer.getRecommendations showNumber analysis
                            analysisType))) by reflexivity.
  rewrite Hcost. clear Hcost.
  set (priority := PerformanceOptimizer.priority
                     (PerformanceOptimizer.getRecommendations showNumber analysis
                        analysisType)) in *.
  unfold PerformanceOptimizer.getCostImpactAnalysis. cbv zeta.
  cbn [PerformanceOptimizer.savingsPercent PerformanceOptimizer.optimized
       PerformanceOptimizer.current PerformanceOptimizer.savings].
  set (C := PerformanceOptimizer.calculateMonthlyCost analysis) in *.
  set (O := fold_left PerformanceOptimizer.applyReductions priority C) in *.
  set (f := (if mentions "Right-size Memory" priority then 7 # 10 else 1)
            * (if mentions "ARM Architecture" priority then 8 # 10 else 1)).
  assert (HO : O == C * f) by (rewrite Hfold; unfold f; ring).
  assert (Hf : 0 < f <= 1).
  { unfold f. destruct (mentions "Right-size Memory" priority),
                       (mentions "ARM Architecture" priority); split; reflexivity || discriminate. }
  assert (HOC : O <= C) by (rewrite HO; nra).
  assert (Hnz : Qeq_bool C 0 = false).
  { destruct (Qeq_bool C 0) eqn:E; [ | reflexivity ].
    apply Qeq_bool_iff in E. lra. }
  assert (Hs : LambdaAnalyzer.eaffine 100 0 (LambdaAnalyzer.ediv (C - O) C)
               = LambdaAnalyzer.Fin (100 * ((C - O) / C) + 0)).
  { unfold LambdaAnalyzer.ediv. rewrite Hnz. reflexivity. }
  rewrite Hs. clear Hs.
  assert (Hpercent :
            LambdaAnalyzer.Fin (inject_Z (Math_round (100 * ((C - O) / C) + 0)))
            = LambdaAnalyzer.Fin
                (match mentions "Right-size Memory" priority,
                       mentions "ARM Architecture" priority with
                 | true, true => 44
                 | true, false => 30
                 | false, true => 20
                 | false, false => 0
                 end)).
  { assert (E : 100 * ((C - O) / C) + 0 == 100 * (1 - f)).
    { rewrite HO. field. lra. }
    unfold Math_round. rewrite E. unfold f.
    destruct (mentions "Right-size Memory" priority),
             (mentions "ARM Architecture" priority); reflexivity. }
  split; [ exact Hpos | ].
  split; [ apply titleCount_zero; exact HD | ].
  split; [ exact Hpercent | ].
  split.
  { assert (Hz : (Math_round (O * 100) <= Math_round (C * 100))%Z)
      by (apply Math_round_mono; lra).
    rewrite Zle_Qle in Hz. unfold Qdiv. change (/ 100) with (1 # 100).
    revert Hz. generalize (inject_Z (Math_round (O * 100))).
    generalize (inject_Z (Math_round (C * 100))). intros a b Hz. lra. }
  split.
  { assert (Hz : (Math_round 0 <= Math_round ((C - O) * 100))%Z)
      by (apply Math_round_mono; lra).
    change (Math_round 0) with 0%Z in Hz.
    rewrite Zle_Qle in Hz. unfold Qdiv. change (/ 100) with (1 # 100).
    change (inject_Z 0) with 0 in Hz.
    revert Hz. generalize (inject_Z (Math_round ((C - O) * 100))). intros a Hz. lra. }
  intro Htype. destruct (Hnone Htype) as [HR0 HA0].
  apply titleCount_zero in HR0, HA0.
  rewrite Hpercent, (proj1 HR0), (proj1 HA0). split; [ reflexivity | ].
  assert (E : O * 100 == C * 100).
  { rewrite HO. unfold f. rewrite (proj1 HR0), (proj1 HA0). ring. }
  unfold Math_round. rewrite E. reflexivity.
Qed.
End CostImpact.

(** *** The analyzer's peak hours *)

Lemma entryCount_bump (hour x : nat) (hourCounts : list (nat * nat)) :
  entryCount hour (LambdaAnalyzer.bump x hourCounts)
  = (entryCount hour hourCounts + if (hour =? x)%nat then 1 else 0)%nat.
Proof.
  unfold entryCount. induction hourCounts as [| [h c] rest IH]; simpl.
  - rewrite (Nat.eqb_sym x hour). destruct (hour =? x)%nat; reflexivity.
  - destruct (Nat.eqb_spec x h) as [-> | Hne].
    + simpl. rewrite (Nat.eqb_sym h hour).
      destruct (hour =? h)%nat; simpl; lia.
    + destruct (x <? h)%nat; simpl.
      * rewrite (Nat.eqb_sym x hour).
        destruct (hour =? x)%nat, (h =? hour)%nat; simpl; lia.
      * destruct (h =? hour)%nat; simpl; rewrite IH; lia.
Qed.

Lemma entryCount_fold (hour : nat) (hours : list nat) : forall hourCounts,
  entryCount hour (fold_left (fun hourCounts h => LambdaAnalyzer.bump h hourCounts)
                             hours hourCounts)
  = (entryCount hour hourCounts + count_occ Nat.eq_dec hours hour)%nat.
Proof.
  induction hours as [| x hours IH]; intro hourCounts; simpl.
  - lia.
  - rewrite IH, entryCount_bump.
    destruct (Nat.eq_dec x hour) as [-> | Hne].
    + rewrite Nat.eqb_refl. lia.
    + destruct (Nat.eqb_spec hour x) as [E | _]; [ congruence | lia ].
Qed.

Lemma bump_keys (x : nat) (hourCounts : list (nat * nat)) (entry : nat * nat) :
  In entry (LambdaAnalyzer.bump x hourCounts) ->
  fst entry = x \/ exists entry', In entry' hourCounts /\ fst entry' = fst entry.
Proof.
  induction hourCounts as [| [h c] rest IH]; simpl.
  - intros [<- | []]. auto.
  - destruct (Nat.eqb_spec x h) as [-> | Hne].
    + intros [<- | H]; [ auto | right; exists entry; auto ].
    + destruct (x <? h)%nat.
      * intros [<- | [<- | H]]; [ auto | right; exists (h, c); auto | right; exists entry; auto ].
      * intros [<- | H]; [ right; exists (h, c); auto | ].
        destruct (IH H) as [E | (e' & He' & E)]; [ auto | right; exists e'; auto ].
Qed.

Lemma bump_sorted (x : nat) (hourCounts : list (nat * nat)) :
  StronglySorted (fun a b : nat * nat => (fst a < fst b)%nat) hourCounts ->
  StronglySorted (fun a b : nat * nat => (fst a < fst b)%nat)
                 (LambdaAnalyzer.bump x hourCounts).
Proof.
  induction 1 as [| [h c] rest Hs IH Hh]; simpl.
  - repeat constructor.
  - destruct (Nat.eqb_spec x h) as [-> | Hne].
    + constructor; [ exact Hs | exact Hh ].
    + destruct (Nat.ltb_spec x h) as [Hlt | Hge].
      * constructor; [ constructor; assumption | ].
        constructor; [ exact Hlt | ].
        eapply Forall_impl; [ | exact Hh ]. simpl. intros; lia.
      * constructor; [ exact IH | ].
        apply Forall_forall. intros entry He. simpl.
        destruct (bump_keys _ _ _ He) as [E | (e' & He' & E)].
        -- lia.
        -- rewrite Forall_forall in Hh. specialize (Hh e' He'). simpl in Hh. lia.
Qed.

Lemma bump_positive (x : nat) (hourCounts : list (nat * nat)) :
  Forall (fun entry : nat * nat => (0 < snd entry)%nat) hourCounts ->
  Forall (fun entry : nat * nat => (0 < snd entry)%nat) (LambdaAnalyzer.bump x hourCounts).
Proof.
  induction 1 as [| [h c] rest Hc Hrest IH]; simpl.
  - repeat constructor.
  - destruct (x =? h)%nat.
    + constructor; [ simpl; lia | exact Hrest ].
    + destruct (x <? h)%nat.
      * constructor; [ simpl; lia | constructor; assumption ].
      * constructor; assumption.
Qed.

Lemma hourCounts_invariant (hours : list nat) : forall hourCounts,
  StronglySorted (fun a b : nat * nat => (fst a < fst b)%nat) hourCounts ->
  Forall (fun entry : nat * nat => (0 < snd entry)%nat) hourCounts ->
  StronglySorted (fun a b : nat * nat => (fst a < fst b)%nat)
    (fold_left (fun hourCounts h => LambdaAnalyzer.bump h hourCounts) hours hourCounts)
  /\ Forall (fun entry : nat * nat => (0 < snd entry)%nat)
       (fold_left (fun hourCounts h => LambdaAnalyzer.bump h hourCounts) hours hourCounts).
Proof.
  induction hours as [| x hours IH]; intros hourCounts Hs Hp; simpl.
  - split; assumption.
  - apply IH; [ apply bump_sorted | apply bump_positive ]; assumption.
Qed.

Lemma entryCount_above (hour : nat) (hourCounts : list (nat * nat)) :
  Forall (fun entry : nat * nat => (hour < fst entry)%nat) hourCounts ->
  entryCount hour hourCounts = 0%nat.
Proof.
  unfold entryCount. induction 1 as [| [h c] rest Hh _ IH]; simpl; [ reflexivity | ].
  simpl in Hh. destruct (Nat.eqb_spec h hour) as [E | _]; [ lia | exact IH ].
Qed.

Lemma entryCount_sorted (hourCounts : list (nat * nat)) :
  StronglySorted (fun a b : nat * nat => (fst a < fst b)%nat) hourCounts ->
  forall hour count, In (hour, count) hourCounts -> entryCount hour hourCounts = count.
Proof.
  induction 1 as [| [h c] rest Hs IH Hh]; intros hour count Hin; [ destruct Hin | ].
  destruct Hin as [E | Hin].
  - inversion E; subst. unfold entryCount. simpl. rewrite Nat.eqb_refl. simpl.
    fold (entryCount hour rest). rewrite (entryCount_above hour rest Hh). lia.
  - unfold entryCount. simpl.
    rewrite Forall_forall in Hh. pose proof (Hh _ Hin) as Hlt. simpl in Hlt.
    destruct (Nat.eqb_spec h hour) as [E | _]; [ lia | ].
    apply IH. exact Hin.
Qed.

Lemma entryCount_positive (hour : nat) (hourCounts : list (nat * nat)) :
  (0 < entryCount hour hourCounts)%nat -> exists count, In (hour, count) hourCounts.
Proof.
  unfold entryCount. induction hourCounts as [| [h c] rest IH]; simpl; [ lia | ].
  destruct (Nat.eqb_spec h hour) as [-> | _].
  - intros _. exists c. auto.
  - intro H. destruct (IH H) as (count & Hc). exists count. auto.
Qed.

(** X23.  The analyzer's peak hours are the labels [h:00], without a
    leading zero, of the first three entries of a ranking of the hours
    that occur: every hour of the input is ranked once with the number of
    its occurrences, a higher count first and the lower hour first among
    equal counts. *)
Theorem analyzer_peak_hours_are_most_frequent (hours : list nat) :
  exists ranked : list (nat * nat),
    LambdaAnalyzer.findPeakHours hours
    = map (fun entry : nat * nat => (ToString (N.of_nat (fst entry)) ++ ":00")%string)
          (firstn 3 ranked)
    /\ StronglySorted ranksBefore ranked
    /\ (forall hour count,
          In (hour, count) ranked
          <-> (0 < count)%nat /\ count = count_occ Nat.eq_dec hours hour)
    /\ (forall first rest, ranked = first :: rest ->
          forall hour, (count_occ Nat.eq_dec hours hour <= snd first)%nat)
    /\ (LambdaAnalyzer.findPeakHours hours = [] <-> hours = []).
Proof.
  set (before := fun a b : nat * nat => (snd b <=? snd a)%nat).
  set (hourCounts := fold_left (fun hourCounts h => LambdaAnalyzer.bump h hourCounts) hours []).
  destruct (hourCounts_invariant hours [] (SSorted_nil _) (Forall_nil _)) as [Hs Hp].
  fold hourCounts in Hs, Hp.
  assert (Hcount : forall hour, entryCount hour hourCounts = count_occ Nat.eq_dec hours hour).
  { intro hour. unfold hourCounts. rewrite entryCount_fold. reflexivity. }
  assert (Hin : forall hour count,
             In (hour, count) (sort before hourCounts)
             <-> (0 < count)%nat /\ count = count_occ Nat.eq_dec hours hour).
  { intros hour count. split.
    - intro H. apply (Permutation_in _ (Permutation_sym (sort_perm before hourCounts))) in H.
      split.
      + rewrite Forall_forall in Hp. apply (Hp _ H).
      + rewrite <- Hcount. symmetry. apply entryCount_sorted; assumption.
    - intros [Hc ->]. rewrite <- Hcount in *.
      destruct (entryCount_positive _ _ Hc) as (c & Hc').
      apply (Permutation_in _ (sort_perm before hourCounts)).
      rewrite (entryCount_sorted _ Hs _ _ Hc'). exact Hc'. }
  assert (Hranked : StronglySorted ranksBefore (sort before hourCounts))
    by (apply sort_ranked; exact Hs).
  exists (sort before hourCounts).
  split; [ reflexivity | ]. split; [ exact Hranked | ]. split; [ exact Hin | ].
  split.
  - intros [h c] rest E hour. simpl.
    destruct (count_occ Nat.eq_dec hours hour) as [| k] eqn:Ek; [ lia | ].
    assert (Hhour : In (hour, S k) (sort before hourCounts)).
    { apply Hin. split; [ lia | congruence ]. }
    rewrite E in Hhour, Hranked. destruct Hhour as [Eh | Hrest].
    + inversion Eh; subst. lia.
    + inversion Hranked as [| ? ? _ Hall]; subst.
      rewrite Forall_forall in Hall. specialize (Hall _ Hrest).
      unfold ranksBefore in Hall. simpl in Hall. lia.
  - unfold LambdaAnalyzer.findPeakHours. fold hourCounts. fold before.
    split.
    + intro E. apply map_eq_nil in E.
      destruct hours as [| x hours]; [ reflexivity | exfalso ].
      assert (Hx : In (x, count_occ Nat.eq_dec (x :: hours) x) (sort before hourCounts)).
      { apply Hin. split; [ | reflexivity ].
        simpl. destruct (Nat.eq_dec x x); [ lia | congruence ]. }
      destruct (sort before hourCounts) as [| e l]; [ destruct Hx | discriminate ].
    + intros ->. reflexivity.
Qed.

(** *** Memory pattern of the cold starts *)

(** X24.  The memory pattern is absent exactly when no cold start has a
    memory figure, and otherwise one of two texts.  For non-negative
    figures 'Variable' needs two cold starts with different memory
    figures; equal figures always give 'Consistent'. *)
Theorem memory_pattern_cases (coldStartEvents : list ColdStartData) :
  let memoryUsages := nonNull (map memoryUsed coldStartEvents) in
  (analyzeMemoryPatterns coldStartEvents = None <-> memoryUsages = [])
  /\ (memoryUsages <> [] ->
      analyzeMemoryPatterns coldStartEvents
      = Some "Variable memory usage during cold starts"%string
      \/ analyzeMemoryPatterns coldStartEvents = Some "Consistent memory usage pattern"%string)
  /\ (Forall (fun m => 0 <= m) memoryUsages ->
      analyzeMemoryPatterns coldStartEvents
      = Some "Variable memory usage during cold starts"%string ->
      exists a b, In a memoryUsages /\ In b memoryUsages /\ a < b)
  /\ (forall x, 0 <= x -> memoryUsages <> [] -> Forall (fun m => m == x) memoryUsages ->
      analyzeMemoryPatterns coldStartEvents = Some "Consistent memory usage pattern"%string).
Proof.
  cbv zeta. unfold analyzeMemoryPatterns.
  generalize (nonNull (map memoryUsed coldStartEvents)). intros [| m ms].
  - split; [ tauto | ]. split; [ congruence | ]. split; [ discriminate | congruence ].
  - cbv zeta.
    set (l := m :: ms).
    set (avg := sum l / ofNat (List.length l)).
    set (top := Math_max m ms).
    split; [ split; [ destruct (gtb top (avg * (15 # 10))); discriminate | discriminate ] | ].
    split; [ intros _; destruct (gtb top (avg * (15 # 10))); auto | ].
    split.
    + intros Hnn Hvar.
      destruct (gtb top (avg * (15 # 10))) eqn:G; [ | discriminate ].
      apply gtb_true_iff in G.
      assert (Havg : 0 <= avg).
      { unfold avg. apply Qle_shift_div_l.
        - apply ofNat_pos. simpl. lia.
        - pose proof (sum_nonneg l Hnn). lra. }
      assert (Hlt : avg < top) by lra.
      assert (Htop : In top l) by apply Math_max_in.
      destruct (Forall_Exists_dec (fun a => top <= a)
                  (fun a => match Qlt_le_dec a top with
                            | left H => right (Qlt_not_le _ _ H)
                            | right H => left H
                            end) l) as [Hall | Hex].
      * exfalso.
        assert (Hb : top <= avg <= top).
        { apply mean_between; [ discriminate | ].
          intros x Hx. split.
          - rewrite Forall_forall in Hall. apply Hall. exact Hx.
          - apply Math_max_upper. exact Hx. }
        lra.
      * apply Exists_exists in Hex. destruct Hex as (a & Ha & Hna).
        exists a, top. split; [ exact Ha | ]. split; [ exact Htop | ].
        apply Qnot_le_lt. exact Hna.
    + intros x Hx _ Hall.
      assert (Havg : avg == x) by (apply mean_all_equal; [ discriminate | exact Hall ]).
      assert (Htop : top == x).
      { rewrite Forall_forall in Hall. apply Hall. apply Math_max_in. }
      destruct (gtb top (avg * (15 # 10))) eqn:G; [ | reflexivity ].
      apply gtb_true_iff in G. lra.
Qed.

(** *** Comparison recommendations *)

Lemma filter_filter_or {A : Type} (f g : A -> bool) (l : list A) :
  filter f (filter (fun x => f x || g x) l) = filter f l.
Proof.
  induction l as [| x l IH]; simpl; [ reflexivity | ].
  destruct (f x) eqn:F; simpl.
  - rewrite F, IH. reflexivity.
  - destruct (g x); simpl; [ rewrite F | ]; exact IH.
Qed.

Lemma filter_nil_iff {A : Type} (f : A -> bool) (l : list A) :
  filter f l = [] <-> Forall (fun x => f x = false) l.
Proof.
  induction l as [| x l IH]; simpl.
  - split; [ constructor | reflexivity ].
  - destruct (f x) eqn:F.
    + split; [ discriminate | intro H; inversion H; congruence ].
    + rewrite IH. split; [ intro; constructor; assumption | intro H; inversion H; assumption ].
Qed.

(** X25.  The comparison gives at most two recommendations, and none
    exactly when every function has a cold-start rate of at most 10 and an
    error rate of at most 1; the functions within both limits have no
    influence on the recommendations. *)
Theorem comparison_recommendations_only_from_outliers
    (comparisons : list LambdaAnalyzer.Comparison) :
  let outlier := fun func => gtb (LambdaAnalyzer.v_coldStarts func) 10
                             || gtb (LambdaAnalyzer.v_errors func) 1 in
  (List.length (LambdaAnalyzer.generateComparisonRecommendations comparisons) <= 2)%nat
  /\ (LambdaAnalyzer.generateComparisonRecommendations comparisons = []
      <-> Forall (fun func => LambdaAnalyzer.v_coldStarts func <= 10
                              /\ LambdaAnalyzer.v_errors func <= 1) comparisons)
  /\ LambdaAnalyzer.generateComparisonRecommendations (filter outlier comparisons)
     = LambdaAnalyzer.generateComparisonRecommendations comparisons.
Proof.
  cbv zeta. unfold LambdaAnalyzer.generateComparisonRecommendations. cbv zeta.
  rewrite (filter_filter_or (fun func => gtb (LambdaAnalyzer.v_coldStarts func) 10)
             (fun func => gtb (LambdaAnalyzer.v_errors func) 1) comparisons).
  assert (E : filter (fun func => gtb (LambdaAnalyzer.v_errors func) 1)
                (filter (fun func => gtb (LambdaAnalyzer.v_coldStarts func) 10
                                     || gtb (LambdaAnalyzer.v_errors func) 1) comparisons)
              = filter (fun func => gtb (LambdaAnalyzer.v_errors func) 1) comparisons).
  { transitivity
      (filter (fun func => gtb (LambdaAnalyzer.v_errors func) 1)
         (filter (fun func => gtb (LambdaAnalyzer.v_errors func) 1
                              || gtb (LambdaAnalyzer.v_coldStarts func) 10) comparisons)).
    - f_equal. apply filter_ext. intro a. apply orb_comm.
    - apply filter_filter_or. }
  rewrite E. clear E.
  pose proof (filter_nil_iff (fun func => gtb (LambdaAnalyzer.v_coldStarts func) 10)
                comparisons) as Hc.
  pose proof (filter_nil_iff (fun func => gtb (LambdaAnalyzer.v_errors func) 1)
                comparisons) as He.
  destruct (filter (fun func => gtb (LambdaAnalyzer.v_coldStarts func) 10) comparisons)
    as [| c cs];
    destruct (filter (fun func => gtb (LambdaAnalyzer.v_errors func) 1) comparisons)
    as [| e es]; cbn [List.length Nat.ltb Nat.leb app].
  - split; [ lia | ]. split; [ | reflexivity ]. split; [ intros _ | reflexivity ].
    pose proof (proj1 Hc eq_refl) as H1. pose proof (proj1 He eq_refl) as H2.
    rewrite Forall_forall in *. intros func Hf. split; apply gtb_false_iff; auto.
  - split; [ simpl; lia | ]. split; [ | reflexivity ]. split; [ discriminate | ].
    intro H. exfalso.
    assert (H2 : Forall (fun x => gtb (LambdaAnalyzer.v_errors x) 1 = false) comparisons).
    { eapply Forall_impl; [ | exact H ]. simpl. intros a [_ Ha]. apply gtb_false_iff. exact Ha. }
    apply He in H2. discriminate.
  - split; [ simpl; lia | ]. split; [ | reflexivity ]. split; [ discriminate | ].
    intro H. exfalso.
    assert (H1 : Forall (fun x => gtb (LambdaAnalyzer.v_coldStarts x) 10 = false) comparisons).
    { eapply Forall_impl; [ | exact H ]. simpl. intros a [Ha _]. apply gtb_false_iff. exact Ha. }
    apply Hc in H1. discriminate.
  - split; [ simpl; lia | ]. split; [ | reflexivity ]. split; [ discriminate | ].
    intro H. exfalso.
    assert (H1 : Forall (fun x => gtb (LambdaAnalyzer.v_coldStarts x) 10 = false) comparisons).
    { eapply Forall_impl; [ | exact H ]. simpl. intros a [Ha _]. apply gtb_false_iff. exact Ha. }
    apply Hc in H1. discriminate.
Qed.

(** *** Instances of the further properties *)

Import Scenarios.

Lemma hourly_distribution_counts_witness :
  nth 22 (analyzeHourlyDistribution utcHours threeClose) 0%nat
  = eventsInHour utcHours 22 threeClose
  /\ total_of (analyzeHourlyDistribution utcHours threeClose) = 3%nat.
Proof.
  assert (Hh : Forall (fun e => (utcHours (timestamp e) < 24)%nat) threeClose).
  { repeat constructor; vm_compute; lia. }
  pose proof (hourly_distribution_counts utcHours threeClose Hh) as H. cbv zeta in H.
  destruct H as (_ & H2 & H3). split; [ apply H2 | exact H3 ].
Defined.

Lemma peak_hours_are_top_three_witness :
  findPeakHours [0; 3; 1]%nat <> [].
Proof.
  destruct (peak_hours_are_top_three [0; 3; 1]%nat) as (ranked & _ & _ & _ & _ & H).
  intro E. apply H in E. inversion E as [| ? ? _ E']. inversion E' as [| ? ? E'' _].
  discriminate E''.
Defined.

Lemma triggers_shape_witness :
  In "Moderate idle periods (5-15 minutes)"%string (identifyTriggers twoClose sparseInvocations).
Proof.
  pose proof (triggers_shape twoClose sparseInvocations) as H. cbv zeta in H.
  destruct H as (_ & _ & _ & H & _). apply H. vm_compute. left. reflexivity.
Defined.

Lemma recommendations_shape_witness :
  In "Consider implementing Provisioned Concurrency to reduce cold starts"%string
     (generateRecommendations (analyzeColdStartPatterns utcHours threeClose [startEvent] "24h")).
Proof.
  destruct (recommendations_shape utcHours threeClose [startEvent] "24h") as (_ & H & _).
  apply H. split; [ discriminate | vm_compute; reflexivity ].
Defined.

Lemma time_range_is_a_table_value_witness :
  exists range : Q, parseTimeRange "2h" = VNumber range /\ 0 < range.
Proof.
  destruct (time_range_is_a_table_value "2h") as (H & _).
  destruct H as (range & E & _ & Hpos).
  - simpl. intuition discriminate.
  - exists range. split; [ exact E | exact Hpos ].
Defined.

Lemma timeline_splits_the_window_witness :
  total_of (map coldStarts (createTimeline epochLabel 1700003600000 threeClose "24h"))
  = eventsBetween (1700003600000 - 86400000) 1700003600000 threeClose.
Proof.
  pose proof (timeline_splits_the_window epochLabel 1700003600000 threeClose "24h") as H.
  cbv zeta in H. destruct H as (_ & H & _).
  apply (H 86400000); [ reflexivity | vm_compute; discriminate ].
Defined.

Lemma duration_pattern_cases_witness :
  analyzeDurationPatterns [coldStartUsing 128; coldStartUsing 256]
  = Some "Consistent cold start durations"%string.
Proof.
  pose proof (duration_pattern_cases [coldStartUsing 128; coldStartUsing 256]) as H.
  cbv zeta in H. destruct H as (_ & _ & H & _).
  apply (H 7); [ discriminate | repeat constructor; reflexivity ].
Defined.

Lemma request_id_is_first_longest_run_witness :
  exists pre post,
    message initWithId = (pre ++ "RequestId: " ++ "8f1c-01" ++ post)%string.
Proof.
  destruct (request_id_is_first_longest_run (message initWithId) "8f1c-01" eq_refl)
    as (pre & post & E & _).
  exists pre, post. exact E.
Defined.

Lemma cold_start_record_from_related_events_witness :
  exists d,
    extractColdStartData readInitDuration readReport onePageSource initWithId
    = Normal (Some d)
    /\ requestId d = "8f1c-01"%string
    /\ initDuration d = Some (3 # 2).
Proof.
  pose proof (cold_start_record_from_related_events readInitDuration readReport
                onePageSource initWithId "8f1c-01" eq_refl) as H.
  cbv zeta in H. destruct H as (d & E & Hid & _ & _ & _ & Hd & _).
  exists d. split; [ exact E | ]. split; [ exact Hid | exact Hd ].
Defined.

Lemma scan_collects_until_first_failure_witness :
  exists d e,
    getColdStartEvents readInitDuration readReport onePageSource = Normal [d]
    /\ In e [initWithId; initWithoutId]
    /\ extractRequestId (message e) = Some (requestId d).
Proof.
  pose proof (scan_collects_until_first_failure readInitDuration readReport onePageSource)
    as H.
  cbv zeta in H. destruct H as (H1 & _ & H3).
  remember (nonNull (map (recordOf readInitDuration readReport onePageSource)
                         (eventsRead (initStartAnswers onePageSource)))) as records eqn:E.
  vm_compute in E. subst records.
  destruct (H3 _ (or_introl eq_refl)) as (e & He & Hid & _).
  eexists _, e. split; [ exact H1 | ]. split; [ exact He | exact Hid ].
Defined.

Lemma statistics_count_is_not_the_sample_count_witness :
  count (a_statistics
           (analyzeColdStartPatterns utcHours
              [coldStartAt 1700000000000 None; coldStartAt 1700000010000 (Some 7)] [] "24h"))
  = 2%nat
  /\ total_of (map snd (distribution (a_statistics
       (analyzeColdStartPatterns utcHours
          [coldStartAt 1700000000000 None; coldStartAt 1700000010000 (Some 7)] [] "24h"))))
     = 1%nat.
Proof.
  destruct (statistics_count_is_not_the_sample_count utcHours
              [coldStartAt 1700000000000 None; coldStartAt 1700000010000 (Some 7)] [] "24h")
    as (_ & H & _).
  destruct H as [H1 H2]; [ discriminate | ].
  split; [ exact H1 | exact H2 ].
Defined.

Lemma time_pattern_iff_few_hours_witness :
  exists distinct : list nat,
    (forall h, In h distinct
               <-> In h (map (fun event => utcHours (timestamp event)) threeClose))
    /\ analyzeTimePatterns utcHours threeClose
       = Some ("Cold starts concentrated in "
                 ++ ToString (N.of_nat (List.length distinct)) ++ " hour(s): "
                 ++ join ", " (map (fun h => ToString (N.of_nat h)) distinct))%string.
Proof.
  pose proof (time_pattern_iff_few_hours utcHours threeClose) as H. cbv zeta in H.
  destruct H as (distinct & Hnd & Hin & _ & H).
  exists distinct. split; [ exact Hin | ].
  apply H.
  change 3%nat
    with (List.length (map (fun event => utcHours (timestamp event)) threeClose)).
  apply NoDup_incl_length; [ exact Hnd | ].
  intros h Hh. apply Hin. exact Hh.
Defined.

Lemma tracking_result_is_coherent_witness :
  exists result,
    trackColdStarts utcHours epochLabel readInitDuration readReport
      onePageSource 1700003600000 "orders" "24h" = Normal result
    /\ total result = 1%nat
    /\ (frequency result = "Very High (>50%)"%string <-> 50 < rate result).
Proof.
  destruct (tracking_result_is_coherent utcHours epochLabel readInitDuration readReport
              onePageSource 1700003600000 "orders" "24h")
    as (result & records & E & Er & Ht & _ & _ & H & _).
  vm_compute in Er. injection Er as Er. subst records.
  exists result. split; [ exact E | ]. split; [ exact Ht | ].
  destruct H as (H & _); [ rewrite Ht; simpl; lia | exact H ].
Defined.

Lemma metric_value_is_a_mean_witness :
  exists v,
    LambdaAnalyzer.getMetricValue (Normal (Some [Some 4; None; Some 8])) = Normal v
    /\ v * ofNat 3 == 12.
Proof.
  destruct (metric_value_is_a_mean (Normal (Some [Some 4; None; Some 8])))
    as (v & E & _ & H).
  specialize (H _ eq_refl). cbv zeta in H.
  destruct H as [Hs _]; [ discriminate | ].
  exists v. split; [ exact E | exact Hs ].
Defined.

Lemma memory_recommendation_bounds_witness :
  exists k : Z,
    LambdaAnalyzer.memory (LambdaAnalyzer.generateMemoryRecommendation 1024 300 400 30)
    = inject_Z (64 * k)
    /\ 128 <= LambdaAnalyzer.memory
                (LambdaAnalyzer.generateMemoryRecommendation 1024 300 400 30).
Proof.
  pose proof (memory_recommendation_bounds 1024 300 400 30) as H. cbv zeta in H.
  destruct H as (H & _ & _).
  destruct H as (k & Hk & H128 & _); [ reflexivity | ].
  exists k. split; [ exact Hk | exact H128 ].
Defined.

Lemma analyzer_memory_patterns_shape_witness :
  LambdaAnalyzer.analyzeMemoryPatterns [128; 128; 128]
  = ["Consistent memory usage pattern"%string].
Proof.
  pose proof (analyzer_memory_patterns_shape [128; 128; 128]) as H. cbv zeta in H.
  destruct H as (_ & _ & _ & H & _).
  apply (H 128); [ discriminate | repeat constructor; reflexivity ].
Defined.

Lemma comparison_insights_pick_first_extremes_witness :
  exists best,
    In best [checkout; invoicing]
    /\ forall c, In c [checkout; invoicing] ->
         LambdaAnalyzer.v_duration best <= LambdaAnalyzer.v_duration c.
Proof.
  destruct (comparison_insights_pick_first_extremes wholeNumber) as [_ H].
  assert (Hne : [checkout; invoicing] <> []) by discriminate.
  destruct (H [checkout; invoicing] Hne)
    as (best & worst & l1 & l2 & m1 & m2 & _ & E1 & A1 & A2 & _).
  exists best. rewrite E1. split.
  - apply in_or_app. right. left. reflexivity.
  - intros c Hc. apply in_app_or in Hc. destruct Hc as [Hc | [<- | Hc]].
    + apply Qlt_le_weak. apply A1. exact Hc.
    + apply Qle_refl.
    + apply A2. exact Hc.
Defined.

Lemma analyzer_tracking_witness :
  exists report,
    LambdaAnalyzer.trackColdStarts utcHours epochLabel fixedClock
      (Normal (Some [initWithId])) (Throw Throttled) "orders" "24h" = Normal report
    /\ LambdaAnalyzer.r_rate report = 0
    /\ LambdaAnalyzer.r_frequency report = "Very High"%string.
Proof.
  destruct (analyzer_tracking_never_reaches_its_handler utcHours epochLabel fixedClock
              (Normal (Some [initWithId])) (Throw Throttled) "orders" "24h")
    as (report & E & _ & _ & _ & _ & _ & _ & H).
  assert (Ht : (0 < LambdaAnalyzer.r_total report)%nat).
  { pose proof E as E'. vm_compute in E'. injection E' as E'. rewrite <- E'. simpl. lia. }
  destruct (H Ht) as (_ & _ & _ & Hm).
  destruct Hm as [Hr Hf]; [ exists Throttled; reflexivity | ].
  exists report. split; [ exact E | ]. split; [ exact Hr | exact Hf ].
Defined.

Lemma optimal_timeout_bounds_witness :
  PerformanceOptimizer.calculateOptimalTimeout orders = Num 40.
Proof.
  destruct (optimal_timeout_bounds orders) as [_ H].
  destruct (H 20000 eq_refl) as (t & Ht & _ & _ & _ & _ & H6).
  destruct H6 as [Et _]; [ reflexivity | vm_compute; discriminate | ].
  rewrite Ht, Et. reflexivity.
Defined.

Lemma recommended_configuration_is_stable_witness :
  PerformanceOptimizer.c_runtime
    (PerformanceOptimizer.getConfigurationRecommendations ordersUpgraded)
  = "nodejs18.x"%string
  /\ PerformanceOptimizer.c_architecture
       (PerformanceOptimizer.getConfigurationRecommendations ordersUpgraded)
     = "arm64"%string.
Proof.
  pose proof (recommended_configuration_is_stable orders) as H. cbv zeta in H.
  destruct H as (_ & _ & _ & H).
  destruct (H ordersUpgraded eq_refl eq_refl eq_refl) as [H1 H2].
  split; [ exact H1 | exact H2 ].
Defined.

Lemma all_optimizations_keep_the_highest_impact_witness :
  In provisionedConcurrency (PerformanceOptimizer.getAllOptimizations wholeNumber orders).
Proof.
  pose proof (all_optimizations_keep_the_highest_impact wholeNumber orders) as H.
  cbv zeta in H. destruct H as (_ & _ & _ & _ & H).
  apply (H provisionedConcurrency armMigration).
  - vm_compute. left. reflexivity.
  - vm_compute. right. right. right. left. reflexivity.
  - vm_compute. lia.
Defined.

Lemma cost_impact_of_recommendations_witness :
  PerformanceOptimizer.savingsPercent
    (PerformanceOptimizer.cost
       (PerformanceOptimizer.getRecommendations wholeNumber orders "all"))
  = LambdaAnalyzer.Fin 44
  /\ PerformanceOptimizer.savingsPercent
       (PerformanceOptimizer.cost
          (PerformanceOptimizer.getRecommendations wholeNumber orders "duration"))
     = LambdaAnalyzer.Fin 0.
Proof.
  assert (Hd : 0 <= PerformanceOptimizer.avgDuration orders) by (vm_compute; discriminate).
  assert (Hm : 0 <= PerformanceOptimizer.allocatedMemory orders)
    by (vm_compute; discriminate).
  assert (Hi : forall m, PerformanceOptimizer.monthlyInvocations orders = Some m -> 0 <= m).
  { intros m E. injection E as <-. vm_compute. discriminate. }
  pose proof (cost_impact_of_recommendations wholeNumber orders "all" Hd Hm Hi) as Hall.
  pose proof (cost_impact_of_recommendations wholeNumber orders "duration" Hd Hm Hi) as Hdur.
  cbv zeta in Hall, Hdur.
  destruct Hall as (_ & _ & Hp & _). destruct Hdur as (_ & _ & _ & _ & _ & Hnone).
  split.
  - rewrite Hp. vm_compute. reflexivity.
  - apply Hnone. right. reflexivity.
Defined.

Lemma analyzer_peak_hours_are_most_frequent_witness :
  exists ranked : list (nat * nat),
    LambdaAnalyzer.findPeakHours [9; 14; 9]%nat
    = map (fun entry : nat * nat => (ToString (N.of_nat (fst entry)) ++ ":00")%string)
          (firstn 3 ranked)
    /\ In (9, 2)%nat ranked.
Proof.
  destruct (analyzer_peak_hours_are_most_frequent [9; 14; 9]%nat)
    as (ranked & E & _ & H & _).
  exists ranked. split; [ exact E | ].
  apply H. split; [ lia | reflexivity ].
Defined.

Lemma memory_pattern_cases_witness :
  analyzeMemoryPatterns [coldStartUsing 128; coldStartUsing 128]
  = Some "Consistent memory usage pattern"%string
  /\ exists a b, In a [100; 400] /\ In b [100; 400] /\ a < b.
Proof.
  pose proof (memory_pattern_cases [coldStartUsing 128; coldStartUsing 128]) as H1.
  pose proof (memory_pattern_cases [coldStartUsing 100; coldStartUsing 400]) as H2.
  cbv zeta in H1, H2.
  destruct H1 as (_ & _ & _ & H1). destruct H2 as (_ & _ & H2 & _).
  split.
  - apply (H1 128); [ vm_compute; discriminate | discriminate | repeat constructor; reflexivity ].
  - apply H2; [ repeat constructor; vm_compute; discriminate | reflexivity ].
Defined.

Lemma comparison_recommendations_witness :
  LambdaAnalyzer.generateComparisonRecommendations [checkout; invoicing] = [].
Proof.
  pose proof (comparison_recommendations_only_from_outliers [checkout; invoicing]) as H.
  cbv zeta in H. destruct H as (_ & H & _).
  apply H. repeat constructor; vm_compute; discriminate.
Defined.
